(** * VingAI mobile: the GGUF model file manager

    A shallow embedding of [utils/fileSystem.ts] (the model directory, the
    scan, the download and the removal), of the catalogue handlers of
    [App.tsx] and of the download handler of [components/ModelDownloader.tsx],
    together with the properties of the design document that concern them.

    The code is asynchronous JavaScript over the [react-native-fs] library
    (RNFS).  Every [await] is sequential here: a computation is a function
    from an environment and a state to a result (a value or a thrown error)
    and a new state.  What the module calls outside itself (the progress
    callback, the HTTP request, [console.error], [Alert.alert]) is recorded
    as an event in a trace kept in the state. *)

From Stdlib Require Import String Ascii ZArith NArith QArith Lia List Bool.
From stdpp Require Import base decidable option list gmap strings pretty.

Local Open Scope string_scope.

(** ** JavaScript values *)

Module JS.

(** [String.prototype.endsWith(searchString)] with the default end
    position: the search string must fit, and the last
    [length searchString] characters must be equal to it. *)
Definition endsWith (s searchString : string) : bool :=
  let len := String.length s in
  let searchLength := String.length searchString in
  if (searchLength <=? len)%nat
  then String.eqb (substring (len - searchLength) searchLength s) searchString
  else false.

(** [String.prototype.replace(searchValue, replaceValue)] for a string
    pattern: only the first occurrence is replaced.  The replacement
    strings of this code base hold no [$] pattern. *)
Definition replace (s searchValue replaceValue : string) : string :=
  match index 0 searchValue s with
  | None => s
  | Some pos =>
      let following := pos + String.length searchValue in
      substring 0 pos s ++ replaceValue
        ++ substring following (String.length s - following) s
  end.

(** A string in a boolean position: only the empty string is falsy. *)
Definition truthy (s : string) : bool := negb (String.eqb s EmptyString).

(** [a || b] on strings. *)
Definition or_else (a b : string) : string := if truthy a then a else b.

(** Numbers handed to the progress callback.  A JavaScript number is an
    IEEE double; the quotient of two integers is kept exact here, with the
    three non-finite results of a division written out.  Rounding to the
    nearest double is monotone and fixes 0 and 1, so order and range facts
    carry over; the sign of a zero is not kept. *)
Inductive number : Type :=
| Finite (q : Q)
| PosInfinity
| NegInfinity
| NaN.

(** [a / b] for integer-valued operands. *)
Definition div (a b : Z) : number :=
  match b with
  | Z0 =>
      match a with
      | Z0 => NaN
      | Zpos _ => PosInfinity
      | Zneg _ => NegInfinity
      end
  | Zpos d => Finite (a # d)
  | Zneg d => Finite ((- a) # d)
  end.

(** [x <= y] on numbers; every comparison with [NaN] is false. *)
Definition leb (x y : number) : bool :=
  match x, y with
  | NaN, _ | _, NaN => false
  | NegInfinity, _ => true
  | _, PosInfinity => true
  | Finite p, Finite q => Qle_bool p q
  | _, _ => false
  end.

(** The value lies in [[0.0, 1.0]]. *)
Definition in_unit (x : number) : bool :=
  leb (Finite 0) x && leb x (Finite 1).

(** The value is [1.0]. *)
Definition is_one (x : number) : bool :=
  match x with
  | Finite q => Qeq_bool q 1
  | _ => false
  end.

(** [size || 0] on a byte count: a zero count is falsy and replaced by 0. *)
Definition or_zero (n : N) : N := if (n =? 0)%N then 0%N else n.

End JS.

(** ** Computations: environment, state, thrown errors *)

(** What a [throw] carries. *)
Inductive Error : Type :=
| Err (message : string)          (* [new Error(message)] of this code *)
| ErrIO (op path : string)        (* a rejected RNFS file operation *)
| ErrTransfer (message : string). (* a rejected RNFS download *)

Inductive Result (A : Type) : Type :=
| Ok (a : A)
| Throw (e : Error).
Arguments Ok {A} a.
Arguments Throw {A} e.

(** [`${error}`]: how an error reads in a message. *)
Definition error_text (e : Error) : string :=
  match e with
  | Err message => "Error: " ++ message
  | ErrIO op path => "Error: " ++ op ++ " " ++ path
  | ErrTransfer message => "Error: " ++ message
  end.

Inductive Platform_OS : Type := ios | android.

Inductive Kind : Type := RegularFile | Directory.

(** What the file system holds under a path. *)
Record Entry : Type := { e_kind : Kind; e_size : N }.

Definition regular (bytes : N) : Entry := {| e_kind := RegularFile; e_size := bytes |}.

Definition folder : Entry := {| e_kind := Directory; e_size := 0 |}.

(** How a download ends: the promise resolves with a status code, or it
    rejects (network failure, local write failure). *)
Inductive TransferEnd : Type :=
| Resolved (statusCode : Z)
| Rejected (message : string).

(** The answer of the remote side to one GET.  [t_contentLength] is the
    announced body length, [-1] when the server announces none.  [t_body] is
    [None] when the destination file is never opened, and otherwise the
    sizes of the chunks that reach the file before the end. *)
Record Transfer : Type := {
  t_contentLength : Z;
  t_body : option (list N);
  t_end : TransferEnd
}.

(** What the module calls outside itself. *)
Inductive Event : Type :=
| HttpGet (fromUrl toFile : string)
| Progress (progress : JS.number)
| ConsoleError (label : string) (error : Error)
| Alert (title message : string).

(** The part of the world the code reads but never changes. *)
Record Env : Type := {
  OS : Platform_OS;
  DocumentDirectoryPath : string;
  ExternalDirectoryPath : string;
  unlink_refused : gset string;    (* paths the system refuses to remove *)
  readDir_refused : gset string;   (* directories that cannot be listed *)
  remote : string → Transfer;      (* what each URL answers *)
  now : N                          (* [new Date()] *)
}.

(** The part the code changes. *)
Record State : Type := {
  files : gmap string Entry;
  uuid_next : N;                   (* supply of [uuidv4()] *)
  trace : list Event
}.

Definition set_files (f : gmap string Entry → gmap string Entry) (s : State) : State :=
  {| files := f (files s); uuid_next := uuid_next s; trace := trace s |}.

Definition M (A : Type) : Type := Env → State → Result A * State.

Definition ret {A} (a : A) : M A := fun _ s => (Ok a, s).

Definition throw {A} (e : Error) : M A := fun _ s => (Throw e, s).

Definition bind {A B} (c : M A) (k : A → M B) : M B :=
  fun env s =>
    match c env s with
    | (Ok a, s') => k a env s'
    | (Throw e, s') => (Throw e, s')
    end.

(** [try { body } catch (error) { handler }] *)
Definition try_catch {A} (body : M A) (handler : Error → M A) : M A :=
  fun env s =>
    match body env s with
    | (Ok a, s') => (Ok a, s')
    | (Throw e, s') => handler e env s'
    end.

Declare Scope js_scope.
Delimit Scope js_scope with js.
Notation "'let!' x ':=' c 'in' k" := (bind c (fun x => k))
  (at level 10, x name, c at level 100, k at level 200) : js_scope.
Notation "c ';;' k" := (bind c (fun _ => k))
  (at level 100, k at level 200, right associativity) : js_scope.
Local Open Scope js_scope.

Definition ask {A} (f : Env → A) : M A := fun env s => (Ok (f env), s).

Definition get {A} (f : State → A) : M A := fun _ s => (Ok (f s), s).

Definition add_event (ev : Event) (s : State) : State :=
  {| files := files s; uuid_next := uuid_next s; trace := trace s ++ [ev] |}.

Definition emit (ev : Event) : M unit := fun _ s => (Ok tt, add_event ev s).

(** [console.error(label, error)] *)
Definition console_error (label : string) (error : Error) : M unit :=
  emit (ConsoleError label error).

(** [uuidv4()]: a token never handed out before. *)
Definition uuidv4 : M N :=
  fun _ s =>
    (Ok (uuid_next s),
     {| files := files s; uuid_next := N.succ (uuid_next s); trace := trace s |}).

(** [new Date()] *)
Definition new_Date : M N := ask now.

(** ** The react-native-fs primitives

    RNFS is a library outside this repository.  Its model: a flat map from
    absolute paths to entries; [exists] never rejects; [mkdir] creates what
    is missing; [stat] and [unlink] reject on a missing path; [unlink]
    rejects as well on the paths the system refuses to remove, and then
    changes nothing; removing a regular file removes that path alone,
    removing a directory removes it with everything below it; [readDir]
    lists the direct children of a directory, files and directories alike,
    in the order of the map; [downloadFile] reports the chunks to the
    progress listener as its [progressDivider] option says: with a positive
    divider, when the whole percentage of the transfer is a multiple of the
    divider and another one than at the last report, or when the announced
    length is reached. *)

Module RNFS.

Record ReadDirItem : Type := {
  item_name : string;
  item_path : string;
  item_size : N;
  item_isFile : bool
}.

Record StatResult : Type := { stat_size : N }.

Record DownloadProgress : Type := { bytesWritten : Z; contentLength : Z }.

Record DownloadResult : Type := { statusCode : Z }.

Definition exists_ (filepath : string) : M bool :=
  get (fun s => bool_decide (is_Some (files s !! filepath))).

Definition mkdir (filepath : string) : M unit :=
  fun _ s =>
    match files s !! filepath with
    | Some _ => (Ok tt, s)
    | None =>
        (Ok tt, set_files (insert filepath {| e_kind := Directory; e_size := 0 |}) s)
    end.

Definition stat (filepath : string) : M StatResult :=
  fun _ s =>
    match files s !! filepath with
    | Some e => (Ok {| stat_size := e_size e |}, s)
    | None => (Throw (ErrIO "stat" filepath), s)
    end.

(** The path [p] lies below the directory [dir], at any depth. *)
Definition below (dir p : string) : bool := String.prefix (dir ++ "/") p.

(** The disk once what is under [filepath] is removed: a regular file goes
    alone, a directory goes with everything below it. *)
Definition removed (filepath : string) (disk : gmap string Entry) : gmap string Entry :=
  match disk !! filepath with
  | Some {| e_kind := Directory |} =>
      filter (fun pe => below filepath pe.1 = false) (delete filepath disk)
  | _ => delete filepath disk
  end.

Definition unlink (filepath : string) : M unit :=
  fun env s =>
    match files s !! filepath with
    | None => (Throw (ErrIO "unlink" filepath), s)
    | Some _ =>
        if bool_decide (filepath ∈ unlink_refused env)
        then (Throw (ErrIO "unlink" filepath), s)
        else (Ok tt, set_files (removed filepath) s)
    end.

(** The name of [p] inside [dir], when [p] is a direct child of [dir]. *)
Definition child_name (dir p : string) : option string :=
  let parent := dir ++ "/" in
  if String.prefix parent p
  then
    let n := substring (String.length parent)
               (String.length p - String.length parent) p in
    if String.eqb n EmptyString then None
    else match index 0 "/" n with
         | Some _ => None
         | None => Some n
         end
  else None.

Definition item_of (dir : string) (pe : string * Entry) : option ReadDirItem :=
  match child_name dir pe.1 with
  | Some n =>
      Some {| item_name := n; item_path := pe.1; item_size := e_size pe.2;
              item_isFile := match e_kind pe.2 with
                             | RegularFile => true
                             | Directory => false
                             end |}
  | None => None
  end.

Definition readDir (dirpath : string) : M (list ReadDirItem) :=
  fun env s =>
    match files s !! dirpath with
    | Some {| e_kind := Directory |} =>
        if bool_decide (dirpath ∈ readDir_refused env)
        then (Throw (ErrIO "readDir" dirpath), s)
        else (Ok (omap (item_of dirpath) (map_to_list (files s))), s)
    | _ => (Throw (ErrIO "readDir" dirpath), s)
    end.

(** The whole percentage of a transfer, as the library computes it: 100
    times the bytes written over the announced length, rounded to the
    nearest whole number.  Without a length to divide by, the quotient of
    a positive count is infinite and rounds to the largest whole number
    the library holds. *)
Definition percentage (bytesWritten contentLength : Z) : Z :=
  if (contentLength =? 0)%Z
  then (if (bytesWritten =? 0)%Z then 0 else 9223372036854775807)%Z
  else ((200 * bytesWritten + contentLength) / (2 * contentLength))%Z.

(** The [progressDivider] option.  With a divider of 0 or less every chunk
    is reported.  With a positive divider a chunk is reported when the
    whole percentage is a multiple of the divider and another one than at
    the last report, or when the bytes written reach the announced length.
    The result is the percentage the library remembers when it reports the
    chunk, and [None] when it does not report it. *)
Definition throttle (progressDivider lastProgressValue bytesWritten contentLength : Z)
    : option Z :=
  if (progressDivider <=? 0)%Z then Some lastProgressValue
  else
    let progress := percentage bytesWritten contentLength in
    if (Z.rem progress progressDivider =? 0)%Z
       && (negb (progress =? lastProgressValue)%Z
           || (bytesWritten =? contentLength)%Z)
    then Some progress
    else None.

(** One chunk reaches the file; the progress listener runs when the
    throttle lets it.  An error thrown inside the listener does not reach
    the download.  The result is the percentage of the last report. *)
Definition write_chunk (toFile : string) (announced progressDivider : Z)
    (progress : DownloadProgress → M unit) (lastProgressValue : Z) (n : N) : M Z :=
  fun env s =>
    let before := match files s !! toFile with
                  | Some e => e_size e
                  | None => 0%N
                  end in
    let written := (before + n)%N in
    let s1 := set_files
                (insert toFile {| e_kind := RegularFile; e_size := written |}) s in
    match throttle progressDivider lastProgressValue (Z.of_N written) announced with
    | Some reportedValue =>
        let '(_, s2) := progress {| bytesWritten := Z.of_N written;
                                    contentLength := announced |} env s1 in
        (Ok reportedValue, s2)
    | None => (Ok lastProgressValue, s1)
    end.

Fixpoint write_chunks (toFile : string) (announced progressDivider : Z)
    (progress : DownloadProgress → M unit) (lastProgressValue : Z)
    (chunks : list N) : M unit :=
  match chunks with
  | [] => ret tt
  | n :: rest =>
      let! reportedValue :=
        write_chunk toFile announced progressDivider progress lastProgressValue n in
      write_chunks toFile announced progressDivider progress reportedValue rest
  end.

(** [downloadFile({fromUrl, toFile, progress, progressDivider}).promise]:
    the request is issued; when the destination is opened it starts
    empty, the chunks reach it one by one and [progress] is called as the
    divider says, the last reported percentage being 0 at the start; the
    promise then resolves or rejects as the transfer ends. *)
Definition downloadFile (fromUrl toFile : string)
    (progress : DownloadProgress → M unit) (progressDivider : Z) : M DownloadResult :=
  emit (HttpGet fromUrl toFile) ;;
  let! t := ask (fun env => remote env fromUrl) in
  match t_body t with
   | None => ret tt
   | Some chunks =>
       (fun _ s =>
          (Ok tt, set_files
                    (insert toFile {| e_kind := RegularFile; e_size := 0 |}) s)) ;;
       write_chunks toFile (t_contentLength t) progressDivider progress 0 chunks
   end ;;
  match t_end t with
  | Resolved code => ret {| statusCode := code |}
  | Rejected message => throw (ErrTransfer message)
  end.

End RNFS.

(** ** utils/fileSystem.ts *)

(** [Model] of [types/index.ts].  The [id], a string in the code, is the
    token [uuidv4()] handed out; [dateDownloaded] is a time stamp. *)
Record Model : Type := {
  id : N;
  name : string;
  path : string;
  size : N;
  dateDownloaded : N
}.

(** Get the appropriate directory for storing models. *)
Definition getModelsDirectory (env : Env) : string :=
  let baseDir := match OS env with
                 | ios => DocumentDirectoryPath env
                 | android => ExternalDirectoryPath env
                 end in
  baseDir ++ "/gguf-models".

(** Ensure the models directory exists. *)
Definition ensureModelsDirectory : M unit :=
  let! modelsDir := ask getModelsDirectory in
  let! exists_ := RNFS.exists_ modelsDir in
  if negb exists_ then RNFS.mkdir modelsDir else ret tt.

(** The body of the loop of [getDownloadedModels], over the entries that
    remain; [models] is the array built so far. *)
Fixpoint scan_loop (files_ : list RNFS.ReadDirItem) (models : list Model) : M (list Model) :=
  match files_ with
  | [] => ret models
  | file :: rest =>
      if JS.endsWith (RNFS.item_name file) ".gguf"
      then
        let! id_ := uuidv4 in
        let! date := new_Date in
        scan_loop rest
          (models ++ [{| id := id_;
                         name := JS.replace (RNFS.item_name file) ".gguf" EmptyString;
                         path := RNFS.item_path file;
                         size := JS.or_zero (RNFS.item_size file);
                         dateDownloaded := date |}])
      else scan_loop rest models
  end.

(** Get all downloaded models. *)
Definition getDownloadedModels : M (list Model) :=
  ensureModelsDirectory ;;
  let! modelsDir := ask getModelsDirectory in
  try_catch
    (let! files_ := RNFS.readDir modelsDir in
     scan_loop files_ [])
    (fun error =>
       console_error "Error reading models directory:" error ;;
       ret []).

(** The caller's progress callback: its call with a value is an event. *)
Definition progressCallback (progress : JS.number) : M unit :=
  emit (Progress progress).

(** The [progress] option the download hands to [downloadFile]
    (lines 82-85). *)
Definition listener (res : RNFS.DownloadProgress) : M unit :=
  let progress := JS.div (RNFS.bytesWritten res) (RNFS.contentLength res) in
  progressCallback progress.

(** The name the download stores the model under (lines 65-67): ensure the
    model name has the [.gguf] extension. *)
Definition sanitizedModelName (modelName : string) : string :=
  if JS.endsWith modelName ".gguf" then modelName else modelName ++ ".gguf".

(** The path it writes to (line 69). *)
Definition destPath (env : Env) (modelName : string) : string :=
  getModelsDirectory env ++ "/" ++ sanitizedModelName modelName.

(** Download a GGUF model. *)
Definition downloadGGUFModel (url modelName : string) : M Model :=
  ensureModelsDirectory ;;
  let! destPath := ask (fun env => destPath env modelName) in
  let! exists_ := RNFS.exists_ destPath in
  if exists_
  then throw (Err ("A model with the name " ++ sanitizedModelName modelName
                     ++ " already exists"))
  else
    try_catch
      (let! download :=
         RNFS.downloadFile url destPath listener
           1 (* update progress on every 1% change *) in
       if negb (RNFS.statusCode download =? 200)%Z
       then throw (Err ("Download failed with status code "
                          ++ pretty (RNFS.statusCode download)))
       else
         let! stats := RNFS.stat destPath in
         let! id_ := uuidv4 in
         let! date := new_Date in
         ret {| id := id_;
                name := modelName;
                path := destPath;
                size := RNFS.stat_size stats;
                dateDownloaded := date |})
      (fun error =>
         let! fileExists := RNFS.exists_ destPath in
         (if fileExists then RNFS.unlink destPath else ret tt) ;;
         throw error).

(** Delete a GGUF model. *)
Definition deleteGGUFModel (modelPath : string) : M bool :=
  try_catch
    (let! exists_ := RNFS.exists_ modelPath in
     if negb exists_
     then throw (Err ("Model file at " ++ modelPath ++ " does not exist"))
     else
       RNFS.unlink modelPath ;;
       ret true)
    (fun error =>
       console_error "Error deleting model:" error ;;
       throw error).

(** ** App.tsx and components/ModelDownloader.tsx *)

(** The state of the [App] component. *)
Record AppState : Type := {
  downloadedModels : list Model;
  isLoading : bool
}.

Definition setDownloadedModels (f : list Model → list Model) (app : AppState) : AppState :=
  {| downloadedModels := f (downloadedModels app); isLoading := isLoading app |}.

Definition setIsLoading (b : bool) (app : AppState) : AppState :=
  {| downloadedModels := downloadedModels app; isLoading := b |}.

(** The effect run when [App] mounts. *)
Definition loadModels (app : AppState) : M AppState :=
  let! app' :=
    try_catch
      (let! models := getDownloadedModels in
       ret (setDownloadedModels (fun _ => models) app))
      (fun error =>
         console_error "Failed to load models:" error ;;
         ret app) in
  ret (setIsLoading false app').

Definition handleModelDownloaded (model : Model) (app : AppState) : AppState :=
  setDownloadedModels (fun prevModels => (prevModels ++ [model])%list) app.

Definition handleModelDelete (model : Model) (app : AppState) : M AppState :=
  try_catch
    (deleteGGUFModel (path model) ;;
     ret (setDownloadedModels
            (fun prevModels =>
               filter (fun m => id m ≠ id model) prevModels) app))
    (fun error =>
       console_error "Failed to delete model:" error ;;
       ret app).

(** [handleDownload] of the downloader form, with the form's [url] and
    [modelName]; [onModelDownloaded] is [handleModelDownloaded].  The
    setters of the form ([setModelName], [setDownloading], [setProgress])
    only change what the form shows and are left out; [modelName] keeps the
    value it had when the handler started. *)
Definition handleDownload (url modelName : string) (app : AppState) : M AppState :=
  if negb (JS.truthy url)
  then emit (Alert "Error" "Please enter a URL") ;; ret app
  else if negb (JS.endsWith url ".gguf")
  then emit (Alert "Error" "URL must point to a GGUF file") ;; ret app
  else
    try_catch
      (let! downloadedModel :=
         downloadGGUFModel url (JS.or_else modelName "unnamed-model") in
       emit (Alert "Success" ("Successfully downloaded " ++ name downloadedModel)) ;;
       ret (handleModelDownloaded downloadedModel app))
      (fun error =>
         emit (Alert "Error" ("Failed to download model: " ++ error_text error)) ;;
         ret app).

(** ** The vocabulary of the design document *)

(** The recognized artifact extension. *)
Definition extension : string := ".gguf".

(** A name carries the extension exactly once: it ends with it, and what
    precedes that ending does not end with it again. *)
Definition carries_extension_once (fileName : string) : bool :=
  JS.endsWith fileName extension
  && negb (JS.endsWith fileName (extension ++ extension)).

(** A file name with the extension stripped from the end. *)
Definition strip_extension (fileName : string) : string :=
  if JS.endsWith fileName extension
  then substring 0 (String.length fileName - String.length extension) fileName
  else fileName.

(** The entries the scan keeps. *)
Definition recognized (files_ : list RNFS.ReadDirItem) : list RNFS.ReadDirItem :=
  List.filter (fun file => JS.endsWith (RNFS.item_name file) ".gguf") files_.

(** The records the scan builds from the entries it keeps, the first one
    with the token [next]. *)
Fixpoint records_from (next date : N) (kept : list RNFS.ReadDirItem) : list Model :=
  match kept with
  | [] => []
  | file :: rest =>
      {| id := next;
         name := JS.replace (RNFS.item_name file) ".gguf" EmptyString;
         path := RNFS.item_path file;
         size := JS.or_zero (RNFS.item_size file);
         dateDownloaded := date |}
      :: records_from (N.succ next) date rest
  end.

(** The values the progress callback was called with, in order. *)
Definition reported (tr : list Event) : list JS.number :=
  omap (fun ev => match ev with
                  | Progress v => Some v
                  | _ => None
                  end) tr.

Fixpoint nondecreasing (values : list JS.number) : bool :=
  match values with
  | [] => true
  | x :: rest =>
      match rest with
      | [] => true
      | y :: _ => JS.leb x y && nondecreasing rest
      end
  end.

Definition all_in_unit (values : list JS.number) : bool := forallb JS.in_unit values.

Definition ends_at_one (values : list JS.number) : bool :=
  match last values with
  | Some v => JS.is_one v
  | None => false
  end.

(** ** The catalogue and the disk *)

(** A path the scan would list: a direct child of the model directory whose
    name ends in [.gguf]. *)
Definition is_artifact (env : Env) (p : string) : bool :=
  match RNFS.child_name (getModelsDirectory env) p with
  | Some n => JS.endsWith n ".gguf"
  | None => false
  end.

(** No record points at a path without a file. *)
Definition no_dangling_record (app : AppState) (s : State) : Prop :=
  ∀ m, m ∈ downloadedModels app → is_Some (files s !! path m).

(** Every artifact on disk has a record. *)
Definition no_unlisted_artifact (env : Env) (app : AppState) (s : State) : Prop :=
  ∀ p, is_Some (files s !! p) → is_artifact env p = true →
       ∃ m, m ∈ downloadedModels app ∧ path m = p.

Definition consistent (env : Env) (app : AppState) (s : State) : Prop :=
  no_dangling_record app s ∧ no_unlisted_artifact env app s.

(** Two listed records have the same token exactly when they have the same
    path. *)
Definition records_distinct (app : AppState) : Prop :=
  ∀ m m', m ∈ downloadedModels app → m' ∈ downloadedModels app →
          (id m = id m' ↔ path m = path m').

(** The tokens of the listed records were handed out already. *)
Definition ids_issued (app : AppState) (s : State) : Prop :=
  ∀ m, m ∈ downloadedModels app → (id m < uuid_next s)%N.

(** The catalogue and the disk agree, and the records are told apart. *)
Definition catalogue_ok (env : Env) (app : AppState) (s : State) : Prop :=
  consistent env app s ∧ records_distinct app ∧ ids_issued app s.

(** What the user can ask of the catalogue. *)
Inductive Operation : Type :=
| Delete (model : Model)
| Download (url modelName : string).

Definition run (op : Operation) (app : AppState) : M AppState :=
  match op with
  | Delete model => handleModelDelete model app
  | Download url modelName => handleDownload url modelName app
  end.

(** The list offers only listed records for removal; the system does not
    refuse to remove what a download would write. *)
Definition permitted (env : Env) (app : AppState) (op : Operation) : Prop :=
  match op with
  | Delete model => model ∈ downloadedModels app
  | Download url modelName =>
      destPath env (JS.or_else modelName "unnamed-model") ∉ unlink_refused env
  end.

(** ** What a transfer leaves behind

    Closed forms of the effects of the primitives, used to state what the
    download does. *)

(** The state once the model directory is ensured. *)
Definition ensured (env : Env) (s : State) : State :=
  match files s !! getModelsDirectory env with
  | Some _ => s
  | None => set_files (insert (getModelsDirectory env) folder) s
  end.

Definition total (chunks : list N) : N := fold_right N.add 0%N chunks.

(** The quotient of the bytes written by the announced length after each
    of the [chunks], when [written] bytes are in the file already. *)
Fixpoint quotients (announced : Z) (written : N) (chunks : list N) : list JS.number :=
  match chunks with
  | [] => []
  | n :: rest =>
      JS.div (Z.of_N (written + n)) announced
      :: quotients announced (written + n) rest
  end.

(** The byte counts the library reports while [chunks] arrive under the
    divider 1 of the download, when [written] bytes are in the file already
    and the last reported percentage is [lastProgressValue]. *)
Fixpoint reports (announced lastProgressValue : Z) (written : N) (chunks : list N)
    : list N :=
  match chunks with
  | [] => []
  | n :: rest =>
      match RNFS.throttle 1 lastProgressValue (Z.of_N (written + n)) announced with
      | Some reportedValue =>
          (written + n)%N :: reports announced reportedValue (written + n) rest
      | None => reports announced lastProgressValue (written + n) rest
      end
  end.

(** The values the progress listener computes from these reports. *)
Definition progress_values (announced lastProgressValue : Z) (written : N)
    (chunks : list N) : list JS.number :=
  map (fun bytes => JS.div (Z.of_N bytes) announced)
    (reports announced lastProgressValue written chunks).

(** The chunks that reach the file. *)
Definition chunks_of (t : Transfer) : list N :=
  match t_body t with
  | Some chunks => chunks
  | None => []
  end.

(** The state when [downloadFile] settles. *)
Definition transferred (fromUrl toFile : string) (t : Transfer) (s : State) : State :=
  match t_body t with
  | None => add_event (HttpGet fromUrl toFile) s
  | Some chunks =>
      {| files := <[toFile := regular (total chunks)]> (files s);
         uuid_next := uuid_next s;
         trace := trace s ++ HttpGet fromUrl toFile
                    :: map Progress (progress_values (t_contentLength t) 0 0 chunks) |}
  end.

(** The [catch] block of the download: remove what is under the
    destination, then throw the error again. *)
Definition cleanup {A} (toFile : string) (error : Error) : M A :=
  fun env s =>
    match files s !! toFile with
    | None => (Throw error, s)
    | Some _ =>
        if bool_decide (toFile ∈ unlink_refused env)
        then (Throw (ErrIO "unlink" toFile), s)
        else (Throw error, set_files (RNFS.removed toFile) s)
    end.

(** ** A device to run the code on

    An Android device whose model directory holds two models and a text
    file; [answer] is what every URL answers and [refused] the paths the
    system refuses to remove. *)

Definition device (answer : Transfer) (refused : gset string) : Env :=
  {| OS := android;
     DocumentDirectoryPath := "/data/documents";
     ExternalDirectoryPath := "/sdcard/app";
     unlink_refused := refused;
     readDir_refused := ∅;
     remote := fun _ => answer;
     now := 1700000000 |}.

Definition disk_abn : gmap string Entry :=
  <["/sdcard/app/gguf-models/a.gguf" := regular 611]>
    (<["/sdcard/app/gguf-models/b.gguf" := regular 400]>
       (<["/sdcard/app/gguf-models/notes.txt" := regular 12]>
          (<["/sdcard/app/gguf-models" := folder]> ∅))).

Definition state_of (disk : gmap string Entry) : State :=
  {| files := disk; uuid_next := 0; trace := [] |}.

(** A server that sends 1000 bytes in chunks of 600 and 400 and announces
    the length. *)
Definition answer_1000 : Transfer :=
  {| t_contentLength := 1000; t_body := Some [600%N; 400%N]; t_end := Resolved 200 |}.

(** A transfer that breaks after 600 of the 1000 bytes. *)
Definition answer_broken : Transfer :=
  {| t_contentLength := 1000; t_body := Some [600%N];
     t_end := Rejected "connection reset" |}.

(** A server that announces no length. *)
Definition answer_unannounced : Transfer :=
  {| t_contentLength := -1; t_body := Some [600%N; 400%N]; t_end := Resolved 200 |}.

Definition phone : Env := device answer_1000 ∅.

(** The record of a download named [model] on [phone]. *)
Definition model_1000 : Model :=
  {| id := 0; name := "model"; path := "/sdcard/app/gguf-models/model.gguf";
     size := 1000; dateDownloaded := 1700000000 |}.

(** The model directory with a subdirectory whose name ends in [.gguf]. *)
Definition disk_with_folder : gmap string Entry :=
  <["/sdcard/app/gguf-models/x.gguf" := folder]> disk_abn.

(** A model directory whose only file carries the extension twice. *)
Definition disk_llama : gmap string Entry :=
  <["/sdcard/app/gguf-models/llama.gguf.v2.gguf" := regular 9]>
    (<["/sdcard/app/gguf-models" := folder]> ∅).

(** A catalogue with one record whose file is gone from [disk_abn]. *)
Definition record_gone : Model :=
  {| id := 7; name := "gone"; path := "/sdcard/app/gguf-models/gone.gguf";
     size := 5; dateDownloaded := 1600000000 |}.

Definition app_gone : AppState :=
  {| downloadedModels := [record_gone]; isLoading := false |}.

Definition app_empty : AppState := {| downloadedModels := []; isLoading := false |}.

(** The records of [a.gguf] and [b.gguf] as the scan of [disk_abn] makes
    them. *)
Definition record_a : Model :=
  {| id := 0; name := "a"; path := "/sdcard/app/gguf-models/a.gguf";
     size := 611; dateDownloaded := 1700000000 |}.

Definition record_b : Model :=
  {| id := 1; name := "b"; path := "/sdcard/app/gguf-models/b.gguf";
     size := 400; dateDownloaded := 1700000000 |}.

(** ** More vocabulary and devices *)

(** Every record points at a regular file. *)
Definition records_are_files (app : AppState) (s : State) : Prop :=
  ∀ m, m ∈ downloadedModels app → ∃ bytes, files s !! path m = Some (regular bytes).

(** A directory is under the path [p]. *)
Definition is_directory (disk : gmap string Entry) (p : string) : bool :=
  match disk !! p with
  | Some {| e_kind := Directory |} => true
  | _ => false
  end.

(** [after] is [before] without what was under [p]: nothing is under [p],
    nothing is below [p] when [p] was a directory, and every other path
    holds what it held. *)
Definition taken_away (p : string) (before after : gmap string Entry) : Prop :=
  ∀ q, after !! q
       = if String.eqb q p || (is_directory before p && RNFS.below p q)
         then None
         else before !! q.

(** The model directory can be listed once it is ensured: a directory is
    under its path and the system lets it be read. *)
Definition listable (env : Env) (s : State) : bool :=
  match files (ensured env s) !! getModelsDirectory env with
  | Some {| e_kind := Directory |} =>
      negb (bool_decide (getModelsDirectory env ∈ readDir_refused env))
  | _ => false
  end.

(** A requested name that stays inside the model directory: its stored
    name has no [/]. *)
Definition flat_name (modelName : string) : bool :=
  match index 0 "/" (sanitizedModelName modelName) with
  | Some _ => false
  | None => true
  end.

(** A disk where a regular file sits under the path of the model
    directory. *)
Definition disk_blocked : gmap string Entry :=
  <["/sdcard/app/gguf-models" := regular 3]> ∅.

(** The device, when the system does not let the model directory be
    listed. *)
Definition phone_unreadable : Env :=
  {| OS := android;
     DocumentDirectoryPath := "/data/documents";
     ExternalDirectoryPath := "/sdcard/app";
     unlink_refused := ∅;
     readDir_refused := {["/sdcard/app/gguf-models"]};
     remote := fun _ => answer_1000;
     now := 1700000000 |}.

(** A server that answers 206 with a body of 600 bytes. *)
Definition answer_206 : Transfer :=
  {| t_contentLength := 600; t_body := Some [600%N]; t_end := Resolved 206 |}.

(** The catalogue and the state after the scan of [disk_abn]. *)
Definition app_ab : AppState :=
  {| downloadedModels := [record_a; record_b]; isLoading := false |}.

Definition state_scanned : State :=
  {| files := disk_abn; uuid_next := 2; trace := [] |}.

(** The record of a download named [model] after that scan. *)
Definition model_third : Model :=
  {| id := 2; name := "model"; path := "/sdcard/app/gguf-models/model.gguf";
     size := 1000; dateDownloaded := 1700000000 |}.

(** The model directory with the subdirectory [x.gguf] and a file in it. *)
Definition disk_nested : gmap string Entry :=
  <["/sdcard/app/gguf-models/x.gguf/y.gguf" := regular 7]> disk_with_folder.

(** The record the scan makes of the subdirectory [x.gguf], and the
    catalogue and the state after the scan of [disk_nested]. *)
Definition record_x : Model :=
  {| id := 2; name := "x"; path := "/sdcard/app/gguf-models/x.gguf";
     size := 0; dateDownloaded := 1700000000 |}.

Definition app_abx : AppState :=
  {| downloadedModels := [record_a; record_b; record_x]; isLoading := false |}.

Definition state_nested : State :=
  {| files := disk_nested; uuid_next := 3; trace := [] |}.

(** The state after the scan of [disk_with_folder], and the record of a
    download into the subdirectory, asked for under the name [x.gguf/y]. *)
Definition state_with_folder : State :=
  {| files := disk_with_folder; uuid_next := 3; trace := [] |}.

Definition record_y : Model :=
  {| id := 3; name := "x.gguf/y"; path := "/sdcard/app/gguf-models/x.gguf/y.gguf";
     size := 1000; dateDownloaded := 1700000000 |}.

Definition app_abxy : AppState :=
  {| downloadedModels := [record_a; record_b; record_x; record_y];
     isLoading := false |}.

(** A server that sends 1000 bytes in chunks of 2, 3, 595 and 400: the
    first two chunks stay below one percent. *)
Definition answer_small_chunks : Transfer :=
  {| t_contentLength := 1000; t_body := Some [2%N; 3%N; 595%N; 400%N];
     t_end := Resolved 200 |}.

(** * Properties *)

(** ** Sanity checks of the JavaScript operations *)

Example endsWith_ex1 : JS.endsWith "a.gguf" ".gguf" = true.
Proof. reflexivity. Qed.

Example endsWith_ex2 : JS.endsWith "gguf" ".gguf" = false.
Proof. reflexivity. Qed.

Example replace_ex1 : JS.replace "x.ggufy.gguf" ".gguf" EmptyString = "xy.gguf".
Proof. reflexivity. Qed.

Example replace_ex2 : JS.replace "notes.txt" ".gguf" EmptyString = "notes.txt".
Proof. reflexivity. Qed.

Example div_ex1 : JS.div 600 1000 = JS.Finite (600 # 1000).
Proof. reflexivity. Qed.

(** ** Strings *)

Section StringFacts.

Local Open Scope string_scope.

Lemma str_app_cons (x : ascii) (a b : string) :
  String x a ++ b = String x (a ++ b).
Proof. reflexivity. Qed.

Lemma str_app_nil_l (a : string) : EmptyString ++ a = a.
Proof. reflexivity. Qed.

Lemma str_app_length (a b : string) :
  String.length (a ++ b) = (String.length a + String.length b)%nat.
Proof.
  induction a as [|c a IH]; [reflexivity|].
  rewrite str_app_cons. simpl. now rewrite IH.
Qed.

Lemma str_app_assoc (a b c : string) : (a ++ b) ++ c = a ++ b ++ c.
Proof.
  induction a as [|x a IH]; [reflexivity|].
  rewrite !str_app_cons. now rewrite IH.
Qed.

Lemma str_app_nil_r (a : string) : a ++ EmptyString = a.
Proof.
  induction a as [|x a IH]; [reflexivity|].
  rewrite str_app_cons. now rewrite IH.
Qed.

Lemma str_to_list_app (a b : string) :
  list_ascii_of_string (a ++ b)
  = (list_ascii_of_string a ++ list_ascii_of_string b)%list.
Proof.
  induction a as [|x a IH]; [reflexivity|].
  rewrite str_app_cons. simpl. now rewrite IH.
Qed.

Lemma str_to_list_inj (a b : string) :
  list_ascii_of_string a = list_ascii_of_string b → a = b.
Proof.
  intros H.
  rewrite <- (string_of_list_ascii_of_string a), <- (string_of_list_ascii_of_string b).
  now rewrite H.
Qed.

Lemma str_app_inv_tail (a b c : string) : a ++ c = b ++ c → a = b.
Proof.
  intros H. apply str_to_list_inj.
  apply (f_equal list_ascii_of_string) in H.
  rewrite !str_to_list_app in H.
  now apply app_inv_tail in H.
Qed.

Lemma str_app_inv_head (a b c : string) : a ++ b = a ++ c → b = c.
Proof.
  induction a as [|x a IH]; intros H; [assumption|].
  rewrite !str_app_cons in H. injection H. auto.
Qed.

Lemma substring_whole (s : string) : substring 0 (String.length s) s = s.
Proof. induction s as [|c s IH]; simpl; [reflexivity | now rewrite IH]. Qed.

Lemma substring_skip_app (p q : string) :
  substring (String.length p) (String.length q) (p ++ q) = q.
Proof.
  induction p as [|c p IH]; [apply substring_whole|].
  rewrite str_app_cons. simpl. exact IH.
Qed.

Lemma substring_split (s : string) (k : nat) :
  (k <= String.length s)%nat →
  s = substring 0 k s ++ substring k (String.length s - k) s.
Proof.
  revert k. induction s as [|c s IH]; intros k Hk; simpl in *.
  - destruct k; [reflexivity | lia].
  - destruct k as [|k]; simpl.
    + now rewrite substring_whole.
    + rewrite str_app_cons. f_equal. apply IH. lia.
Qed.

(** [endsWith] holds exactly of the strings that are something followed
    by the search string. *)
Lemma endsWith_iff (s suf : string) :
  JS.endsWith s suf = true ↔ ∃ p, s = p ++ suf.
Proof.
  unfold JS.endsWith. split.
  - destruct (Nat.leb_spec (String.length suf) (String.length s)) as [Hle|Hlt];
      [|discriminate].
    intros H. apply String.eqb_eq in H.
    exists (substring 0 (String.length s - String.length suf) s).
    pose proof (substring_split s (String.length s - String.length suf)) as Hs.
    replace (String.length s - (String.length s - String.length suf))%nat
      with (String.length suf) in Hs by lia.
    rewrite H in Hs. apply Hs. lia.
  - intros [p ->]. rewrite str_app_length.
    destruct (Nat.leb_spec (String.length suf) (String.length p + String.length suf))
      as [_|Hlt]; [|lia].
    replace (String.length p + String.length suf - String.length suf)%nat
      with (String.length p) by lia.
    rewrite substring_skip_app. apply String.eqb_refl.
Qed.

Lemma endsWith_app (p suf : string) : JS.endsWith (p ++ suf) suf = true.
Proof. apply endsWith_iff. now exists p. Qed.

Lemma endsWith_app_cancel (s a b : string) :
  JS.endsWith (s ++ b) (a ++ b) = JS.endsWith s a.
Proof.
  destruct (JS.endsWith s a) eqn:Hs.
  - apply endsWith_iff in Hs as [p ->]. apply endsWith_iff. exists p.
    now rewrite str_app_assoc.
  - destruct (JS.endsWith (s ++ b) (a ++ b)) eqn:Hb; [|reflexivity].
    apply endsWith_iff in Hb as [p Hp].
    rewrite <- str_app_assoc in Hp. apply str_app_inv_tail in Hp.
    assert (JS.endsWith s a = true) as Hc by (apply endsWith_iff; now exists p).
    congruence.
Qed.

Lemma endsWith_app_suffix (s a b : string) :
  JS.endsWith s (a ++ b) = true → JS.endsWith s b = true.
Proof.
  intros H. apply endsWith_iff in H as [p ->]. apply endsWith_iff.
  exists (p ++ a). now rewrite str_app_assoc.
Qed.

Lemma str_app_neq_self (a b : string) : b ≠ EmptyString → a ++ b ≠ a.
Proof.
  intros Hb H. apply (f_equal String.length) in H.
  rewrite str_app_length in H. destruct b; [congruence | simpl in H; lia].
Qed.

Lemma substring_prefix_app (p q : string) :
  substring 0 (String.length p) (p ++ q) = p.
Proof.
  induction p as [|c p IH]; [now destruct q|].
  rewrite str_app_cons. simpl. now rewrite IH.
Qed.

Lemma substring_nothing (s : string) (k : nat) : substring k 0 s = EmptyString.
Proof.
  revert k. induction s as [|c s IH]; intros [|k]; simpl; auto.
Qed.

End StringFacts.

(** ** The name a download stores the model under *)

Lemma sanitizedModelName_endsWith (modelName : string) :
  JS.endsWith (sanitizedModelName modelName) ".gguf" = true.
Proof.
  unfold sanitizedModelName.
  destruct (JS.endsWith modelName ".gguf") eqn:H; [exact H | apply endsWith_app].
Qed.

Lemma sanitizedModelName_idem (modelName : string) :
  sanitizedModelName (sanitizedModelName modelName) = sanitizedModelName modelName.
Proof.
  unfold sanitizedModelName at 1.
  now rewrite sanitizedModelName_endsWith.
Qed.

(** C7, as the design document states it, fails: a requested name that
    already carries the extension twice is kept as it is. *)
Lemma C7_extension_twice_kept :
  sanitizedModelName "a.gguf.gguf" = "a.gguf.gguf"
  ∧ carries_extension_once (sanitizedModelName "a.gguf.gguf") = false.
Proof. split; reflexivity. Qed.

(** C7 (amended): the stored name always ends with the extension; it is the
    requested name itself when that already ends with the extension and the
    requested name followed by the extension otherwise; so the code never
    adds a second copy: the stored name ends with the extension twice
    exactly when the requested name did. *)
Theorem C7_sanitizedModelName_extension (modelName : string) :
  JS.endsWith (sanitizedModelName modelName) extension = true
  ∧ String.eqb (sanitizedModelName modelName) modelName
    = JS.endsWith modelName extension
  ∧ String.eqb (sanitizedModelName modelName) (modelName ++ extension)
    = negb (JS.endsWith modelName extension)
  ∧ JS.endsWith (sanitizedModelName modelName) (extension ++ extension)
    = JS.endsWith modelName (extension ++ extension)
  ∧ carries_extension_once (sanitizedModelName modelName)
    = negb (JS.endsWith modelName (extension ++ extension)).
Proof.
  assert (JS.endsWith (sanitizedModelName modelName) (extension ++ extension)
          = JS.endsWith modelName (extension ++ extension)) as Hdouble.
  { unfold sanitizedModelName, extension.
    destruct (JS.endsWith modelName ".gguf") eqn:H; [reflexivity|].
    rewrite (endsWith_app_cancel modelName ".gguf" ".gguf"), H.
    destruct (JS.endsWith modelName (".gguf" ++ ".gguf")) eqn:H2; [|reflexivity].
    apply endsWith_app_suffix in H2. congruence. }
  split; [apply sanitizedModelName_endsWith|].
  split; [|split; [|split; [exact Hdouble|]]].
  - unfold sanitizedModelName, extension.
    destruct (JS.endsWith modelName ".gguf") eqn:H; [apply String.eqb_refl|].
    apply String.eqb_neq, str_app_neq_self. discriminate.
  - unfold sanitizedModelName, extension.
    destruct (JS.endsWith modelName ".gguf") eqn:H; simpl.
    + apply String.eqb_neq. intros Heq. symmetry in Heq.
      revert Heq. apply str_app_neq_self. discriminate.
    + apply String.eqb_refl.
  - unfold carries_extension_once. rewrite Hdouble.
    unfold extension. now rewrite (sanitizedModelName_endsWith modelName).
Qed.

(** ** The primitives, evaluated *)

Lemma exists_eval (filepath : string) (env : Env) (s : State) :
  RNFS.exists_ filepath env s
  = (Ok (match files s !! filepath with Some _ => true | None => false end), s).
Proof. unfold RNFS.exists_, get. destruct (files s !! filepath); reflexivity. Qed.

Lemma unlink_eval (filepath : string) (env : Env) (s : State) :
  RNFS.unlink filepath env s
  = match files s !! filepath with
    | None => (Throw (ErrIO "unlink" filepath), s)
    | Some _ =>
        if bool_decide (filepath ∈ unlink_refused env)
        then (Throw (ErrIO "unlink" filepath), s)
        else (Ok tt, set_files (RNFS.removed filepath) s)
    end.
Proof. reflexivity. Qed.

(** Removing what is no directory removes one path. *)
Lemma removed_file (p : string) (disk : gmap string Entry) :
  is_directory disk p = false → RNFS.removed p disk = delete p disk.
Proof.
  unfold is_directory, RNFS.removed.
  destruct (disk !! p) as [[[] size_]|]; [reflexivity | discriminate | reflexivity].
Qed.

(** What every path holds after a removal. *)
Lemma removed_taken_away (p : string) (disk : gmap string Entry) :
  taken_away p disk (RNFS.removed p disk).
Proof.
  intros q. unfold RNFS.removed, is_directory.
  destruct (disk !! p) as [[[] size_]|] eqn:E; simpl.
  - destruct (String.eqb_spec q p) as [->|Hne]; simpl;
      [apply lookup_delete_eq | now apply lookup_delete_ne].
  - destruct (String.eqb_spec q p) as [->|Hne]; simpl.
    { apply map_lookup_filter_None_2. left. apply lookup_delete_eq. }
    destruct (RNFS.below p q) eqn:B.
    + apply map_lookup_filter_None_2. right. intros x _ Hx. simpl in Hx. congruence.
    + apply option_eq. intros x.
      rewrite map_lookup_filter_Some, lookup_delete_ne by (intros Heq; now apply Hne).
      simpl. tauto.
  - destruct (String.eqb_spec q p) as [->|Hne]; simpl;
      [apply lookup_delete_eq | now apply lookup_delete_ne].
Qed.

(** Removing a regular file that was put where nothing was gives the disk
    back. *)
Lemma removed_inserted_file (p : string) (bytes : N) (disk : gmap string Entry) :
  disk !! p = None → RNFS.removed p (<[p := regular bytes]> disk) = disk.
Proof.
  intros Hfree. rewrite removed_file.
  - now apply delete_insert_id.
  - unfold is_directory. now rewrite lookup_insert_eq.
Qed.

Lemma taken_away_at (p : string) (before after : gmap string Entry) :
  taken_away p before after → after !! p = None.
Proof. intros H. rewrite (H p), String.eqb_refl. reflexivity. Qed.


(** ** Removal *)

(** What [deleteGGUFModel] does, case by case. *)
Lemma deleteGGUFModel_eval (modelPath : string) (env : Env) (s : State) :
  deleteGGUFModel modelPath env s
  = match files s !! modelPath with
    | None =>
        let error := Err ("Model file at " ++ modelPath ++ " does not exist") in
        (Throw error, add_event (ConsoleError "Error deleting model:" error) s)
    | Some _ =>
        if bool_decide (modelPath ∈ unlink_refused env)
        then
          let error := ErrIO "unlink" modelPath in
          (Throw error, add_event (ConsoleError "Error deleting model:" error) s)
        else (Ok true, set_files (RNFS.removed modelPath) s)
    end.
Proof.
  unfold deleteGGUFModel, try_catch, bind. rewrite exists_eval.
  destruct (files s !! modelPath) eqn:E; simpl; [|reflexivity].
  rewrite unlink_eval, E. destruct (bool_decide _); reflexivity.
Qed.

(** C1, as the design document states it, fails: removing a path that holds
    no file raises. *)
Lemma C1_absent_file_raises :
  files (state_of disk_abn) !! "/sdcard/app/gguf-models/gone.gguf" = None
  ∧ (deleteGGUFModel "/sdcard/app/gguf-models/gone.gguf"
       (device answer_1000 ∅) (state_of disk_abn)).1
    = Throw (Err "Model file at /sdcard/app/gguf-models/gone.gguf does not exist").
Proof. split; vm_compute; reflexivity. Qed.

(** C1 (amended): for every path that holds no file the removal raises an
    error that says so, after logging that error, and leaves the files as
    they are; for a path that holds something it raises only when the
    system refuses the removal, with the error of the removal, logged
    before it is raised again, and otherwise it logs nothing, removes what
    is under the path and returns [true]. *)
Theorem C1_deleteGGUFModel_outcomes (modelPath : string) (env : Env) (s : State) :
  match files s !! modelPath with
  | None =>
      (deleteGGUFModel modelPath env s).1
      = Throw (Err ("Model file at " ++ modelPath ++ " does not exist"))
      ∧ files (deleteGGUFModel modelPath env s).2 = files s
      ∧ trace (deleteGGUFModel modelPath env s).2
        = (trace s
           ++ [ConsoleError "Error deleting model:"
                 (Err ("Model file at " ++ modelPath ++ " does not exist"))])%list
  | Some _ =>
      if bool_decide (modelPath ∈ unlink_refused env)
      then (deleteGGUFModel modelPath env s).1 = Throw (ErrIO "unlink" modelPath)
           ∧ files (deleteGGUFModel modelPath env s).2 = files s
           ∧ trace (deleteGGUFModel modelPath env s).2
             = (trace s
                ++ [ConsoleError "Error deleting model:"
                      (ErrIO "unlink" modelPath)])%list
      else (deleteGGUFModel modelPath env s).1 = Ok true
           ∧ taken_away modelPath (files s) (files (deleteGGUFModel modelPath env s).2)
           ∧ trace (deleteGGUFModel modelPath env s).2 = trace s
  end.
Proof.
  rewrite deleteGGUFModel_eval.
  destruct (files s !! modelPath); [destruct (bool_decide _)|]; simpl;
    repeat split; try reflexivity.
  apply removed_taken_away.
Qed.

(** C10: when the removal returns, it returns [true], the path held a file
    before and holds none after (the disk is the old one without that path
    when it held a regular file, and without what was below it as well
    when it held a directory); in every other case, the absent file
    included, it raises and the files are as they were. *)
Theorem C10_deleteGGUFModel_never_false
    (modelPath : string) (env : Env) (s s' : State) (r : Result bool) :
  deleteGGUFModel modelPath env s = (r, s') →
  match r with
  | Ok b =>
      b = true ∧ is_Some (files s !! modelPath)
      ∧ taken_away modelPath (files s) (files s')
      ∧ (is_directory (files s) modelPath = false →
         files s' = delete modelPath (files s))
  | Throw error =>
      files s' = files s
      ∧ (files s !! modelPath = None
         ∨ modelPath ∈ unlink_refused env ∧ error = ErrIO "unlink" modelPath)
  end.
Proof.
  rewrite deleteGGUFModel_eval.
  destruct (files s !! modelPath) eqn:E.
  - destruct (bool_decide _) eqn:D; intros [= <- <-].
    + apply bool_decide_eq_true in D. split; [reflexivity | right; done].
    + split; [reflexivity | split; [eauto | split; [apply removed_taken_away|]]].
      apply removed_file.
  - intros [= <- <-]. split; [reflexivity | left; reflexivity].
Qed.

Lemma C10_deleteGGUFModel_never_false_witness :
  deleteGGUFModel "/sdcard/app/gguf-models/a.gguf" phone (state_of disk_abn)
  = (Ok true, set_files (delete "/sdcard/app/gguf-models/a.gguf") (state_of disk_abn))
  ∧ true = true
  ∧ is_Some (files (state_of disk_abn) !! "/sdcard/app/gguf-models/a.gguf")
  ∧ taken_away "/sdcard/app/gguf-models/a.gguf" (files (state_of disk_abn))
      (files (set_files (delete "/sdcard/app/gguf-models/a.gguf") (state_of disk_abn)))
  ∧ (is_directory (files (state_of disk_abn)) "/sdcard/app/gguf-models/a.gguf" = false →
     files (set_files (delete "/sdcard/app/gguf-models/a.gguf") (state_of disk_abn))
     = delete "/sdcard/app/gguf-models/a.gguf" (files (state_of disk_abn))).
Proof.
  assert (deleteGGUFModel "/sdcard/app/gguf-models/a.gguf" phone (state_of disk_abn)
          = (Ok true,
             set_files (delete "/sdcard/app/gguf-models/a.gguf") (state_of disk_abn)))
    as H by (vm_compute; reflexivity).
  split; [exact H|].
  exact (C10_deleteGGUFModel_never_false "/sdcard/app/gguf-models/a.gguf" phone
           (state_of disk_abn) _ (Ok true) H).
Defined.

(** ** The download, evaluated *)

Lemma ensureModelsDirectory_eval (env : Env) (s : State) :
  ensureModelsDirectory env s = (Ok tt, ensured env s).
Proof.
  unfold ensureModelsDirectory, ensured, bind, ask. rewrite exists_eval.
  unfold RNFS.mkdir, ret.
  destruct (files s !! getModelsDirectory env) eqn:E; simpl; [reflexivity|].
  now rewrite E.
Qed.

Lemma ensured_lookup (env : Env) (s : State) (p : string) :
  p ≠ getModelsDirectory env → files (ensured env s) !! p = files s !! p.
Proof.
  intros Hp. unfold ensured.
  destruct (files s !! getModelsDirectory env); [reflexivity|].
  simpl. now rewrite lookup_insert_ne.
Qed.

Lemma ensured_directory (env : Env) (s : State) :
  is_Some (files (ensured env s) !! getModelsDirectory env).
Proof.
  unfold ensured.
  destruct (files s !! getModelsDirectory env) eqn:E; [rewrite E; eauto|].
  simpl. rewrite lookup_insert_eq. eauto.
Qed.

Lemma ensured_trace (env : Env) (s : State) : trace (ensured env s) = trace s.
Proof. unfold ensured. now destruct (files s !! getModelsDirectory env). Qed.

Lemma ensured_uuid_next (env : Env) (s : State) :
  uuid_next (ensured env s) = uuid_next s.
Proof. unfold ensured. now destruct (files s !! getModelsDirectory env). Qed.

Lemma write_chunks_eval (toFile : string) (announced : Z) (chunks : list N)
    (env : Env) (s : State) (written : N) (lastProgressValue : Z) :
  files s !! toFile = Some (regular written) →
  RNFS.write_chunks toFile announced 1 listener lastProgressValue chunks env s
  = (Ok tt,
     {| files := <[toFile := regular (written + total chunks)]> (files s);
        uuid_next := uuid_next s;
        trace := trace s
                   ++ map Progress
                        (progress_values announced lastProgressValue written chunks) |}).
Proof.
  revert s written lastProgressValue.
  induction chunks as [|n rest IH]; intros s written lastProgressValue Hs.
  - simpl. unfold ret. rewrite N.add_0_r, app_nil_r, insert_id by exact Hs.
    now destruct s.
  - simpl. unfold bind at 1. unfold RNFS.write_chunk at 1. rewrite Hs.
    unfold progress_values. simpl.
    destruct (RNFS.throttle 1 lastProgressValue (Z.of_N (written + n)) announced)
      as [reportedValue|]; simpl;
      rewrite (IH _ (written + n)%N) by (simpl; apply lookup_insert_eq);
      simpl; rewrite insert_insert_eq, N.add_assoc; [|reflexivity].
    unfold progress_values. now rewrite <- app_assoc.
Qed.

Lemma downloadFile_eval (fromUrl toFile : string) (env : Env) (s : State) :
  RNFS.downloadFile fromUrl toFile listener 1 env s
  = (match t_end (remote env fromUrl) with
     | Resolved code => Ok {| RNFS.statusCode := code |}
     | Rejected message => Throw (ErrTransfer message)
     end,
     transferred fromUrl toFile (remote env fromUrl) s).
Proof.
  unfold RNFS.downloadFile, transferred, bind, emit, ask.
  destruct (t_body (remote env fromUrl)) as [chunks|] eqn:B; simpl.
  - rewrite (write_chunks_eval _ _ _ _ _ 0%N 0%Z) by (simpl; apply lookup_insert_eq).
    simpl. rewrite insert_insert_eq, <- app_assoc. simpl.
    destruct (t_end (remote env fromUrl)); reflexivity.
  - unfold ret. simpl. destruct (t_end (remote env fromUrl)); reflexivity.
Qed.

Lemma transferred_lookup (fromUrl toFile : string) (t : Transfer) (s : State) :
  files (transferred fromUrl toFile t s) !! toFile
  = match t_body t with
    | Some chunks => Some (regular (total chunks))
    | None => files s !! toFile
    end.
Proof.
  unfold transferred. destruct (t_body t); simpl; [apply lookup_insert_eq | reflexivity].
Qed.

Lemma transferred_lookup_ne (fromUrl toFile : string) (t : Transfer) (s : State)
    (p : string) :
  p ≠ toFile → files (transferred fromUrl toFile t s) !! p = files s !! p.
Proof.
  intros Hp. unfold transferred.
  destruct (t_body t); simpl; [now rewrite lookup_insert_ne | reflexivity].
Qed.

Lemma cleanup_eval (toFile : string) (error : Error) (env : Env) (s : State) :
  (let! fileExists := RNFS.exists_ toFile in
   (if fileExists then RNFS.unlink toFile else ret tt) ;;
   @throw Model error) env s
  = cleanup toFile error env s.
Proof.
  unfold bind, cleanup. rewrite exists_eval.
  destruct (files s !! toFile) eqn:E; simpl; [|reflexivity].
  rewrite unlink_eval, E. destruct (bool_decide _); reflexivity.
Qed.

(** What [downloadGGUFModel] does, case by case. *)
Lemma downloadGGUFModel_eval (url modelName : string) (env : Env) (s : State) :
  downloadGGUFModel url modelName env s
  = let dest := destPath env modelName in
    let s0 := ensured env s in
    match files s0 !! dest with
    | Some _ =>
        (Throw (Err ("A model with the name " ++ sanitizedModelName modelName
                       ++ " already exists")), s0)
    | None =>
        let s1 := transferred url dest (remote env url) s0 in
        match t_end (remote env url) with
        | Rejected message => cleanup dest (ErrTransfer message) env s1
        | Resolved code =>
            if (code =? 200)%Z
            then
              match files s1 !! dest with
              | Some e =>
                  (Ok {| id := uuid_next s1; name := modelName; path := dest;
                         size := e_size e; dateDownloaded := now env |},
                   {| files := files s1; uuid_next := N.succ (uuid_next s1);
                      trace := trace s1 |})
              | None => (Throw (ErrIO "stat" dest), s1)
              end
            else cleanup dest (Err ("Download failed with status code " ++ pretty code))
                   env s1
        end
    end.
Proof.
  unfold downloadGGUFModel. unfold bind at 1. rewrite ensureModelsDirectory_eval.
  unfold bind at 1. unfold ask at 1. unfold bind at 1. rewrite exists_eval.
  cbv zeta. destruct (files (ensured env s) !! destPath env modelName) eqn:E;
    [reflexivity|].
  unfold try_catch. unfold bind at 1. rewrite downloadFile_eval.
  destruct (t_end (remote env url)) as [code|message] eqn:T.
  - simpl. destruct (code =? 200)%Z eqn:C; simpl.
    + unfold bind at 1. unfold RNFS.stat.
      destruct (files (transferred _ _ _ _) !! destPath env modelName) eqn:F.
      * reflexivity.
      * rewrite cleanup_eval. unfold cleanup. now rewrite F.
    + apply cleanup_eval.
  - apply cleanup_eval.
Qed.

Lemma destPath_not_directory (env : Env) (modelName : string) :
  destPath env modelName ≠ getModelsDirectory env.
Proof. unfold destPath. apply str_app_neq_self. discriminate. Qed.

Lemma ensured_lookup_destPath (env : Env) (s : State) (modelName : string) :
  files (ensured env s) !! destPath env modelName = files s !! destPath env modelName.
Proof. apply ensured_lookup, destPath_not_directory. Qed.

Lemma cleanup_not_Ok {A} (toFile : string) (error : Error) (env : Env) (s : State)
    (a : A) :
  (cleanup toFile error env s).1 ≠ Ok a.
Proof.
  unfold cleanup. destruct (files s !! toFile); [destruct (bool_decide _)|];
    simpl; discriminate.
Qed.

(** ** A name that is taken *)

(** C4: when the destination already exists, the download throws the
    "already exists" error of the code; nothing was requested from the
    network and no callback ran (the trace is as before), and the
    destination is untouched. *)
Theorem C4_downloadGGUFModel_collision
    (url modelName : string) (env : Env) (s : State) :
  is_Some (files s !! destPath env modelName) →
  (downloadGGUFModel url modelName env s).1
  = Throw (Err ("A model with the name " ++ sanitizedModelName modelName
                  ++ " already exists"))
  ∧ trace (downloadGGUFModel url modelName env s).2 = trace s
  ∧ files (downloadGGUFModel url modelName env s).2 !! destPath env modelName
    = files s !! destPath env modelName.
Proof.
  intros [e He]. rewrite downloadGGUFModel_eval. cbv zeta.
  rewrite ensured_lookup_destPath, He. simpl.
  rewrite ensured_trace, ensured_lookup_destPath. auto.
Qed.

Lemma C4_downloadGGUFModel_collision_witness :
  is_Some (files (state_of disk_abn) !! destPath (device answer_1000 ∅) "a")
  ∧ (downloadGGUFModel "https://hub/a.gguf" "a" (device answer_1000 ∅)
       (state_of disk_abn)).1
    = Throw (Err ("A model with the name " ++ sanitizedModelName "a"
                    ++ " already exists"))
  ∧ trace (downloadGGUFModel "https://hub/a.gguf" "a" (device answer_1000 ∅)
             (state_of disk_abn)).2 = trace (state_of disk_abn)
  ∧ files (downloadGGUFModel "https://hub/a.gguf" "a" (device answer_1000 ∅)
             (state_of disk_abn)).2 !! destPath (device answer_1000 ∅) "a"
    = files (state_of disk_abn) !! destPath (device answer_1000 ∅) "a".
Proof.
  assert (is_Some (files (state_of disk_abn) !! destPath (device answer_1000 ∅) "a"))
    as H by (vm_compute; eauto).
  split; [exact H|].
  exact (C4_downloadGGUFModel_collision "https://hub/a.gguf" "a"
           (device answer_1000 ∅) (state_of disk_abn) H).
Defined.

(** ** A download that succeeds *)

(** C8: after a successful download one regular file is under the
    destination name, which is the model directory, a slash, and the
    requested name, followed by the extension when the requested name does
    not end with it.  The record points at that file and its size is the
    size of the file, which is the sum of all the chunks of the transfer:
    the size is read when the transfer has settled.  Nothing was under
    that name before, and no other path but the model directory has
    changed. *)
Theorem C8_downloadGGUFModel_success
    (url modelName : string) (env : Env) (s : State) (model : Model) :
  (downloadGGUFModel url modelName env s).1 = Ok model →
  (JS.endsWith modelName extension = true →
   path model = getModelsDirectory env ++ "/" ++ modelName)
  ∧ (JS.endsWith modelName extension = false →
     path model = getModelsDirectory env ++ "/" ++ modelName ++ extension)
  ∧ files (downloadGGUFModel url modelName env s).2 !! path model
    = Some (regular (size model))
  ∧ t_body (remote env url) = Some (chunks_of (remote env url))
  ∧ size model = total (chunks_of (remote env url))
  ∧ files s !! path model = None
  ∧ (∀ p, p ≠ path model → p ≠ getModelsDirectory env →
          files (downloadGGUFModel url modelName env s).2 !! p = files s !! p).
Proof.
  intros Hok.
  assert (path model = destPath env modelName
          ∧ files (downloadGGUFModel url modelName env s).2 !! destPath env modelName
            = Some (regular (size model))
          ∧ t_body (remote env url) = Some (chunks_of (remote env url))
          ∧ size model = total (chunks_of (remote env url))
          ∧ files s !! destPath env modelName = None
          ∧ (∀ p, p ≠ destPath env modelName → p ≠ getModelsDirectory env →
                  files (downloadGGUFModel url modelName env s).2 !! p = files s !! p))
    as [Hpath [Hfile [Hbody [Hsize [Hfree Hother]]]]].
  { revert Hok. rewrite downloadGGUFModel_eval. cbv zeta.
    rewrite ensured_lookup_destPath.
    destruct (files s !! destPath env modelName) eqn:E; [discriminate|].
    destruct (t_end (remote env url)) as [code|message] eqn:T.
    - destruct (code =? 200)%Z.
      + rewrite transferred_lookup, ensured_lookup_destPath, E.
        unfold chunks_of.
        destruct (t_body (remote env url)) as [chunks|] eqn:B; [|discriminate].
        simpl. intros [= <-]. simpl.
        rewrite transferred_lookup, B.
        repeat split; try reflexivity.
        intros p Hp Hdir. rewrite transferred_lookup_ne by exact Hp.
        now apply ensured_lookup.
      + intros H. now apply cleanup_not_Ok in H.
    - intros H. now apply cleanup_not_Ok in H. }
  rewrite Hpath. unfold destPath, sanitizedModelName, extension.
  split; [intros ->; reflexivity|].
  split; [intros ->; reflexivity|].
  fold (sanitizedModelName modelName). fold (destPath env modelName). auto.
Qed.

Lemma C8_downloadGGUFModel_success_witness :
  (downloadGGUFModel "https://hub/model.gguf" "model" phone (state_of disk_abn)).1
  = Ok model_1000
  ∧ (JS.endsWith "model" extension = true →
     path model_1000 = getModelsDirectory phone ++ "/" ++ "model")
  ∧ (JS.endsWith "model" extension = false →
     path model_1000 = getModelsDirectory phone ++ "/" ++ "model" ++ extension)
  ∧ files (downloadGGUFModel "https://hub/model.gguf" "model" phone
             (state_of disk_abn)).2 !! path model_1000
    = Some (regular (size model_1000))
  ∧ t_body (remote phone "https://hub/model.gguf")
    = Some (chunks_of (remote phone "https://hub/model.gguf"))
  ∧ size model_1000 = total (chunks_of (remote phone "https://hub/model.gguf"))
  ∧ files (state_of disk_abn) !! path model_1000 = None
  ∧ (∀ p, p ≠ path model_1000 → p ≠ getModelsDirectory phone →
          files (downloadGGUFModel "https://hub/model.gguf" "model" phone
                   (state_of disk_abn)).2 !! p = files (state_of disk_abn) !! p).
Proof.
  assert ((downloadGGUFModel "https://hub/model.gguf" "model" phone
             (state_of disk_abn)).1 = Ok model_1000) as H
    by (vm_compute; reflexivity).
  split; [exact H|].
  exact (C8_downloadGGUFModel_success "https://hub/model.gguf" "model" phone
           (state_of disk_abn) model_1000 H).
Defined.

(** The scenario of the design document: 1000 bytes in chunks of 600 and
    400 give a record of size 1000, after the callback saw 0.6 and 1.0. *)
Example download_1000_bytes :
  size model_1000 = 1000%N
  ∧ trace (downloadGGUFModel "https://hub/model.gguf" "model" phone
             (state_of disk_abn)).2
    = [HttpGet "https://hub/model.gguf" "/sdcard/app/gguf-models/model.gguf";
       Progress (JS.Finite (600 # 1000)); Progress (JS.Finite (1000 # 1000))].
Proof. split; vm_compute; reflexivity. Qed.

(** ** A download that fails *)

(** C3, as the design document states it, fails when the system refuses to
    remove the partial file: the removal throws inside the [catch] block
    and the 600 bytes stay under the destination name. *)
Lemma C3_partial_file_stays :
  files (state_of disk_abn) !! "/sdcard/app/gguf-models/model.gguf" = None
  ∧ (downloadGGUFModel "https://hub/model.gguf" "model"
       (device answer_broken {["/sdcard/app/gguf-models/model.gguf"]})
       (state_of disk_abn)).1
    = Throw (ErrIO "unlink" "/sdcard/app/gguf-models/model.gguf")
  ∧ files (downloadGGUFModel "https://hub/model.gguf" "model"
             (device answer_broken {["/sdcard/app/gguf-models/model.gguf"]})
             (state_of disk_abn)).2 !! "/sdcard/app/gguf-models/model.gguf"
    = Some (regular 600).
Proof. repeat split; vm_compute; reflexivity. Qed.

(** C3 (amended): when a download fails after the write has started (the
    name was free; the transfer is rejected, or resolves with a status
    other than 200, or leaves nothing to read the size from), the [catch]
    block removes what is under the destination name and then throws the
    error of the failure again, so that nothing is under that name
    afterwards, provided the system does not refuse that removal. *)
Theorem C3_downloadGGUFModel_failure
    (url modelName : string) (env : Env) (s : State) (error : Error) :
  files s !! destPath env modelName = None →
  destPath env modelName ∉ unlink_refused env →
  (downloadGGUFModel url modelName env s).1 = Throw error →
  files (downloadGGUFModel url modelName env s).2 !! destPath env modelName = None
  ∧ error = match t_end (remote env url) with
            | Rejected message => ErrTransfer message
            | Resolved code =>
                if (code =? 200)%Z
                then ErrIO "stat" (destPath env modelName)
                else Err ("Download failed with status code " ++ pretty code)
            end.
Proof.
  intros Hfree Hallowed. rewrite downloadGGUFModel_eval. cbv zeta.
  rewrite ensured_lookup_destPath, Hfree.
  assert (∀ e0 e1,
    (cleanup (A:=Model) (destPath env modelName) e0 env
       (transferred url (destPath env modelName) (remote env url) (ensured env s))).1
    = Throw e1 →
    files (cleanup (A:=Model) (destPath env modelName) e0 env
       (transferred url (destPath env modelName) (remote env url) (ensured env s))).2
      !! destPath env modelName = None
    ∧ e1 = e0) as Hclean.
  { intros e0 e1. unfold cleanup. rewrite (bool_decide_eq_false_2 _ Hallowed).
    destruct (files (transferred _ _ _ _) !! destPath env modelName) as [e|] eqn:F;
      simpl; intros [= <-]; (split; [|reflexivity]).
    - apply (taken_away_at _ _ _ (removed_taken_away _ _)).
    - exact F. }
  destruct (t_end (remote env url)) as [code|message].
  - destruct (code =? 200)%Z; [|apply Hclean].
    destruct (files (transferred _ _ _ _) !! destPath env modelName) eqn:F;
      simpl; [discriminate|].
    intros [= <-]. split; [exact F | reflexivity].
  - apply Hclean.
Qed.

Lemma C3_downloadGGUFModel_failure_witness :
  files (state_of disk_abn) !! destPath (device answer_broken ∅) "model" = None
  ∧ (destPath (device answer_broken ∅) "model"
       ∉ unlink_refused (device answer_broken ∅))
  ∧ (downloadGGUFModel "https://hub/model.gguf" "model" (device answer_broken ∅)
       (state_of disk_abn)).1 = Throw (ErrTransfer "connection reset")
  ∧ files (downloadGGUFModel "https://hub/model.gguf" "model"
             (device answer_broken ∅) (state_of disk_abn)).2
      !! destPath (device answer_broken ∅) "model" = None
  ∧ ErrTransfer "connection reset"
    = match t_end (remote (device answer_broken ∅) "https://hub/model.gguf") with
      | Rejected message => ErrTransfer message
      | Resolved code =>
          if (code =? 200)%Z
          then ErrIO "stat" (destPath (device answer_broken ∅) "model")
          else Err ("Download failed with status code " ++ pretty code)
      end.
Proof.
  assert (files (state_of disk_abn) !! destPath (device answer_broken ∅) "model" = None)
    as H1 by (vm_compute; reflexivity).
  assert (destPath (device answer_broken ∅) "model"
            ∉ unlink_refused (device answer_broken ∅))
    as H2 by (simpl; apply not_elem_of_empty).
  assert ((downloadGGUFModel "https://hub/model.gguf" "model" (device answer_broken ∅)
             (state_of disk_abn)).1 = Throw (ErrTransfer "connection reset"))
    as H3 by (vm_compute; reflexivity).
  split; [exact H1 | split; [exact H2 | split; [exact H3|]]].
  exact (C3_downloadGGUFModel_failure "https://hub/model.gguf" "model"
           (device answer_broken ∅) (state_of disk_abn) _ H1 H2 H3).
Defined.

(** ** The scan *)

Lemma scan_loop_eval (files_ : list RNFS.ReadDirItem) (models : list Model)
    (env : Env) (s : State) :
  scan_loop files_ models env s
  = (Ok (models ++ records_from (uuid_next s) (now env) (recognized files_))%list,
     {| files := files s;
        uuid_next := (uuid_next s + N.of_nat (length (recognized files_)))%N;
        trace := trace s |}).
Proof.
  revert models s. induction files_ as [|file rest IH]; intros models s.
  - simpl. unfold ret. rewrite app_nil_r, N.add_0_r. now destruct s.
  - simpl. destruct (JS.endsWith (RNFS.item_name file) ".gguf") eqn:E.
    + unfold bind at 1. unfold uuidv4 at 1. unfold bind at 1.
      unfold new_Date, ask at 1. rewrite IH. simpl.
      rewrite <- app_assoc. simpl. do 2 f_equal. lia.
    + apply IH.
Qed.

Lemma records_from_path (next date : N) (kept : list RNFS.ReadDirItem) :
  map path (records_from next date kept) = map RNFS.item_path kept.
Proof.
  revert next. induction kept as [|file rest IH]; intros next; simpl;
    [reflexivity | now rewrite IH].
Qed.

Lemma records_from_name (next date : N) (kept : list RNFS.ReadDirItem) :
  map name (records_from next date kept)
  = map (fun file => JS.replace (RNFS.item_name file) ".gguf" EmptyString) kept.
Proof.
  revert next. induction kept as [|file rest IH]; intros next; simpl;
    [reflexivity | now rewrite IH].
Qed.

(** The scan, when the directory can be listed: one record for every entry
    whose name ends in [.gguf], in the order of the listing, whatever the
    kind of the entry. *)
Lemma getDownloadedModels_listed (env : Env) (s : State)
    (files_ : list RNFS.ReadDirItem) :
  (RNFS.readDir (getModelsDirectory env) env (ensured env s)).1 = Ok files_ →
  ∃ models,
    (getDownloadedModels env s).1 = Ok models
    ∧ map path models = map RNFS.item_path (recognized files_)
    ∧ map name models
      = map (fun file => JS.replace (RNFS.item_name file) ".gguf" EmptyString)
          (recognized files_).
Proof.
  intros Hread. unfold getDownloadedModels. unfold bind at 1.
  rewrite ensureModelsDirectory_eval. unfold bind at 1. unfold ask at 1.
  unfold try_catch. unfold bind at 1.
  assert ((RNFS.readDir (getModelsDirectory env) env (ensured env s)).2 = ensured env s)
    as Hst.
  { unfold RNFS.readDir. destruct (files (ensured env s) !! _) as [[[] ?]|];
      try reflexivity. now destruct (bool_decide _). }
  destruct (RNFS.readDir (getModelsDirectory env) env (ensured env s)) as [r s1].
  simpl in Hread, Hst. subst r s1. rewrite scan_loop_eval. simpl.
  eexists. split; [reflexivity|]. split; [apply records_from_path | apply records_from_name].
Qed.

(** The example of the design document: [a.gguf], [b.gguf] and [notes.txt]
    give two records, named [a] and [b]. *)
Example scan_a_b_notes :
  map name (match (getDownloadedModels phone (state_of disk_abn)).1 with
            | Ok models => models
            | Throw _ => []
            end) = ["a"; "b"].
Proof. vm_compute. reflexivity. Qed.

(** C5: the code lists a subdirectory whose name ends in [.gguf] as a model.
    With the directory [x.gguf] next to [a.gguf], [b.gguf] and [notes.txt]
    the scan gives three records; the third one is the directory. *)
Theorem C5_scan_lists_subdirectory :
  map (fun m => (name m, path m))
    (match (getDownloadedModels phone (state_of disk_with_folder)).1 with
     | Ok models => models
     | Throw _ => []
     end)
  = [("a", "/sdcard/app/gguf-models/a.gguf");
     ("b", "/sdcard/app/gguf-models/b.gguf");
     ("x", "/sdcard/app/gguf-models/x.gguf")]
  ∧ e_kind <$> disk_with_folder !! "/sdcard/app/gguf-models/x.gguf" = Some Directory.
Proof. split; vm_compute; reflexivity. Qed.

(** ** The name of a record *)

Lemma strip_extension_app (stem : string) :
  strip_extension (stem ++ extension) = stem.
Proof.
  unfold strip_extension. rewrite endsWith_app, str_app_length.
  replace (String.length stem + String.length extension - String.length extension)%nat
    with (String.length stem) by lia.
  apply substring_prefix_app.
Qed.

(** Where the first [.gguf] of a file name is its ending, the name the scan
    gives is the file name without the extension. *)
Lemma replace_strips_extension (fileName : string) :
  index 0 extension fileName
  = Some (String.length fileName - String.length extension)%nat →
  (String.length extension <= String.length fileName)%nat →
  JS.replace fileName ".gguf" EmptyString = strip_extension fileName.
Proof.
  intros Hidx Hlen. unfold JS.replace, strip_extension. fold extension.
  rewrite Hidx.
  replace (String.length fileName - String.length extension
           + String.length extension)%nat with (String.length fileName) by lia.
  rewrite Nat.sub_diag, substring_nothing, str_app_nil_l, str_app_nil_r.
  apply index_correct1 in Hidx.
  unfold JS.endsWith.
  destruct (Nat.leb_spec (String.length extension) (String.length fileName)); [|lia].
  now rewrite Hidx, String.eqb_refl.
Qed.

(** A download under a name without the extension gives a record named
    like the file without the extension. *)
Lemma download_name_stripped (url modelName : string) (env : Env) (s : State)
    (model : Model) :
  JS.endsWith modelName ".gguf" = false →
  (downloadGGUFModel url modelName env s).1 = Ok model →
  name model = strip_extension (sanitizedModelName modelName).
Proof.
  intros Hext. rewrite downloadGGUFModel_eval. cbv zeta.
  unfold sanitizedModelName at 2. rewrite Hext.
  fold extension. rewrite strip_extension_app.
  destruct (files (ensured env s) !! destPath env modelName); [discriminate|].
  destruct (t_end (remote env url)) as [code|message].
  - destruct (code =? 200)%Z.
    + destruct (files (transferred _ _ _ _) !! destPath env modelName);
        simpl; [|discriminate].
      now intros [= <-].
    + intros H. now apply cleanup_not_Ok in H.
  - intros H. now apply cleanup_not_Ok in H.
Qed.

(** C6: the record of a download keeps the extension of a requested name
    that carries it (the file [foo.gguf] gets the name [foo.gguf], and the
    name [foo] at the next scan), and the scan removes the first [.gguf]
    of a file name, which need not be its ending. *)
Theorem C6_record_names_not_stripped :
  (downloadGGUFModel "https://hub/foo.gguf" "foo.gguf" phone (state_of disk_abn)).1
  = Ok {| id := 0; name := "foo.gguf"; path := "/sdcard/app/gguf-models/foo.gguf";
          size := 1000; dateDownloaded := 1700000000 |}
  ∧ strip_extension "foo.gguf" = "foo"
  ∧ (getDownloadedModels phone (state_of disk_llama)).1
    = Ok [{| id := 0; name := "llama.v2.gguf";
             path := "/sdcard/app/gguf-models/llama.gguf.v2.gguf";
             size := 9; dateDownloaded := 1700000000 |}]
  ∧ strip_extension "llama.gguf.v2.gguf" = "llama.gguf.v2".
Proof. repeat split; vm_compute; reflexivity. Qed.

(** ** Progress *)

Lemma reported_app (tr1 tr2 : list Event) :
  reported (tr1 ++ tr2) = (reported tr1 ++ reported tr2)%list.
Proof. unfold reported. apply omap_app. Qed.

Lemma reported_Progress (values : list JS.number) :
  reported (map Progress values) = values.
Proof.
  unfold reported. induction values as [|v rest IH]; [reflexivity|].
  simpl. f_equal. exact IH.
Qed.

(** What a download that found the name free reports: the quotient of the
    bytes written so far by the announced length, at the chunks the library
    reports under the divider 1. *)
Lemma downloadGGUFModel_reported (url modelName : string) (env : Env) (s : State) :
  files s !! destPath env modelName = None →
  reported (trace (downloadGGUFModel url modelName env s).2)
  = (reported (trace s)
     ++ progress_values (t_contentLength (remote env url)) 0 0
          (chunks_of (remote env url)))%list.
Proof.
  intros Hfree. rewrite downloadGGUFModel_eval. cbv zeta.
  rewrite ensured_lookup_destPath, Hfree.
  assert (reported (trace (transferred url (destPath env modelName) (remote env url)
                             (ensured env s)))
          = (reported (trace s)
             ++ progress_values (t_contentLength (remote env url)) 0 0
                  (chunks_of (remote env url)))%list) as Htr.
  { unfold transferred, chunks_of.
    destruct (t_body (remote env url)); simpl; rewrite reported_app, ensured_trace.
    - f_equal. change (reported (HttpGet url (destPath env modelName) :: ?l))
        with (reported l). apply reported_Progress.
    - reflexivity. }
  assert (∀ e, trace (cleanup (A:=Model) (destPath env modelName) e env
                        (transferred url (destPath env modelName) (remote env url)
                           (ensured env s))).2
               = trace (transferred url (destPath env modelName) (remote env url)
                          (ensured env s))) as Hclean.
  { intros e. unfold cleanup.
    destruct (files (transferred _ _ _ _) !! _); [destruct (bool_decide _)|];
      reflexivity. }
  destruct (t_end (remote env url)) as [code|message].
  - destruct (code =? 200)%Z.
    + destruct (files (transferred _ _ _ _) !! destPath env modelName); exact Htr.
    + now rewrite Hclean.
  - now rewrite Hclean.
Qed.

Lemma div_leb (x y announced : Z) :
  (0 < announced)%Z → (x <= y)%Z →
  JS.leb (JS.div x announced) (JS.div y announced) = true.
Proof.
  intros Ha Hxy. destruct announced as [|d|d]; try lia.
  simpl. apply Qle_bool_iff. unfold Qle. simpl. nia.
Qed.

Lemma div_in_unit (x announced : Z) :
  (0 <= x <= announced)%Z → (0 < announced)%Z →
  JS.in_unit (JS.div x announced) = true.
Proof.
  intros Hx Ha. destruct announced as [|d|d]; try lia.
  unfold JS.in_unit. simpl. apply andb_true_iff.
  split; apply Qle_bool_iff; unfold Qle; simpl; lia.
Qed.

Lemma div_is_one (announced : Z) :
  (0 < announced)%Z → JS.is_one (JS.div announced announced) = true.
Proof.
  intros Ha. destruct announced as [|d|d]; try lia.
  simpl. apply Qeq_bool_iff. unfold Qeq. simpl. lia.
Qed.

(** The divider 1 of the download: a chunk is reported when the whole
    percentage has changed since the last report, or when the announced
    length is reached. *)
Lemma throttle_1 (lastProgressValue bytesWritten contentLength : Z) :
  RNFS.throttle 1 lastProgressValue bytesWritten contentLength
  = if negb (RNFS.percentage bytesWritten contentLength =? lastProgressValue)%Z
       || (bytesWritten =? contentLength)%Z
    then Some (RNFS.percentage bytesWritten contentLength)
    else None.
Proof. unfold RNFS.throttle. simpl. now rewrite Z.rem_1_r. Qed.

(** Every report is made after one of the chunks. *)
Lemma reports_bounds (announced lastProgressValue : Z) (written : N)
    (chunks : list N) (bytes : N) :
  In bytes (reports announced lastProgressValue written chunks) →
  (written <= bytes <= written + total chunks)%N.
Proof.
  revert lastProgressValue written.
  induction chunks as [|n rest IH]; intros lastProgressValue written; simpl; [tauto|].
  destruct (RNFS.throttle 1 lastProgressValue (Z.of_N (written + n)) announced);
    simpl; [intros [<-|Hin]; [lia|] | intros Hin]; apply IH in Hin; lia.
Qed.

Lemma reports_after (announced lastProgressValue : Z) (written : N)
    (chunks : list N) (bytes : N) :
  Forall (fun n => (0 < n)%N) chunks →
  In bytes (reports announced lastProgressValue written chunks) →
  (written < bytes)%N.
Proof.
  intros Hpos. revert lastProgressValue written.
  induction Hpos as [|n rest Hn Hrest IH]; intros lastProgressValue written; simpl;
    [tauto|].
  destruct (RNFS.throttle 1 lastProgressValue (Z.of_N (written + n)) announced);
    simpl; [intros [<-|Hin]; [lia|] | intros Hin]; apply IH in Hin; lia.
Qed.

Lemma progress_values_In (announced lastProgressValue : Z) (written : N)
    (chunks : list N) (v : JS.number) :
  In v (progress_values announced lastProgressValue written chunks) →
  ∃ bytes, v = JS.div (Z.of_N bytes) announced
           ∧ (written <= bytes <= written + total chunks)%N.
Proof.
  unfold progress_values. intros Hin. apply in_map_iff in Hin as [bytes [<- Hin]].
  exists bytes. split; [reflexivity|]. now apply reports_bounds in Hin.
Qed.

Lemma progress_values_cons (announced lastProgressValue : Z) (written n : N)
    (rest : list N) :
  progress_values announced lastProgressValue written (n :: rest)
  = match RNFS.throttle 1 lastProgressValue (Z.of_N (written + n)) announced with
    | Some reportedValue =>
        JS.div (Z.of_N (written + n)) announced
        :: progress_values announced reportedValue (written + n) rest
    | None => progress_values announced lastProgressValue (written + n) rest
    end.
Proof.
  unfold progress_values. simpl.
  now destruct (RNFS.throttle 1 lastProgressValue (Z.of_N (written + n)) announced).
Qed.

(** The reported values are quotients after chunks, in the order of the
    chunks. *)
Lemma progress_values_sublist (announced lastProgressValue : Z) (written : N)
    (chunks : list N) :
  progress_values announced lastProgressValue written chunks
    `sublist_of` quotients announced written chunks.
Proof.
  revert lastProgressValue written.
  induction chunks as [|n rest IH]; intros lastProgressValue written.
  - constructor.
  - rewrite progress_values_cons. simpl.
    destruct (RNFS.throttle 1 lastProgressValue (Z.of_N (written + n)) announced);
      [apply sublist_skip | apply sublist_cons]; apply IH.
Qed.

Lemma nondecreasing_cons (v : JS.number) (values : list JS.number) :
  (∀ y, In y values → JS.leb v y = true) →
  nondecreasing values = true → nondecreasing (v :: values) = true.
Proof.
  intros Hv Hmono. destruct values as [|y rest]; [reflexivity|].
  change (JS.leb v y && nondecreasing (y :: rest) = true).
  rewrite Hmono, andb_true_r. apply Hv. now left.
Qed.

(** When the server announces a length and sends no more than it, the
    reported values never decrease and lie between 0 and 1. *)
Lemma progress_values_announced (announced lastProgressValue : Z) (chunks : list N)
    (written : N) :
  (0 < announced)%Z →
  (Z.of_N (written + total chunks) <= announced)%Z →
  nondecreasing (progress_values announced lastProgressValue written chunks) = true
  ∧ all_in_unit (progress_values announced lastProgressValue written chunks) = true.
Proof.
  intros Ha. revert lastProgressValue written.
  induction chunks as [|n rest IH]; intros lastProgressValue written Hle;
    [split; reflexivity|].
  simpl in Hle. rewrite progress_values_cons.
  assert (Z.of_N (written + n + total rest) <= announced)%Z as Hle'
    by now rewrite <- N.add_assoc.
  destruct (RNFS.throttle 1 lastProgressValue (Z.of_N (written + n)) announced)
    as [reportedValue|]; [|now apply IH].
  destruct (IH reportedValue (written + n)%N Hle') as [IHmono IHunit].
  split.
  - apply nondecreasing_cons; [|exact IHmono].
    intros y Hy. apply progress_values_In in Hy as [bytes [-> Hb]].
    apply div_leb; lia.
  - simpl. apply andb_true_iff. split; [|exact IHunit].
    apply div_in_unit; lia.
Qed.

Lemma ends_at_one_cons (v : JS.number) (values : list JS.number) :
  ends_at_one values = true → ends_at_one (v :: values) = true.
Proof. unfold ends_at_one. destruct values; [discriminate | auto]. Qed.

(** When the chunks add up to the announced length, the last chunk is
    reported and the last reported value is 1. *)
Lemma progress_values_complete (announced lastProgressValue : Z) (chunks : list N)
    (written : N) :
  (0 < announced)%Z →
  chunks ≠ [] →
  Z.of_N (written + total chunks) = announced →
  ends_at_one (progress_values announced lastProgressValue written chunks) = true.
Proof.
  intros Ha. revert lastProgressValue written.
  induction chunks as [|n rest IH]; intros lastProgressValue written Hne Hsum;
    [congruence|].
  rewrite progress_values_cons.
  destruct rest as [|n' rest'].
  - simpl in Hsum. rewrite N.add_0_r in Hsum.
    rewrite throttle_1, Hsum, Z.eqb_refl, orb_true_r.
    unfold ends_at_one. simpl. now apply div_is_one.
  - assert (Z.of_N (written + n + total (n' :: rest')) = announced) as Hsum'
      by (simpl in *; now rewrite <- N.add_assoc).
    destruct (RNFS.throttle 1 lastProgressValue (Z.of_N (written + n)) announced)
      as [reportedValue|].
    + apply ends_at_one_cons. apply IH; [discriminate | exact Hsum'].
    + apply IH; [discriminate | exact Hsum'].
Qed.

(** C9: the callback gets the quotient of the bytes written by the
    announced length, whatever that length is.  For a server that announces
    none the library reports the length -1: a download of 1000 bytes in
    chunks of 600 and 400 succeeds and the callback sees -600 and then
    -1000, which decrease, lie outside [0, 1] and do not end at 1. *)
Theorem C9_progress_without_announced_length :
  (downloadGGUFModel "https://hub/model.gguf" "model"
     (device answer_unannounced ∅) (state_of disk_abn)).1 = Ok model_1000
  ∧ reported (trace (downloadGGUFModel "https://hub/model.gguf" "model"
                       (device answer_unannounced ∅) (state_of disk_abn)).2)
    = [JS.Finite (-600 # 1); JS.Finite (-1000 # 1)]
  ∧ nondecreasing [JS.Finite (-600 # 1); JS.Finite (-1000 # 1)] = false
  ∧ all_in_unit [JS.Finite (-600 # 1); JS.Finite (-1000 # 1)] = false
  ∧ ends_at_one [JS.Finite (-600 # 1); JS.Finite (-1000 # 1)] = false.
Proof. repeat split; vm_compute; reflexivity. Qed.

(** ** The catalogue and the disk *)

Lemma handleModelDelete_eval (model : Model) (app : AppState) (env : Env) (s : State) :
  handleModelDelete model app env s
  = match (deleteGGUFModel (path model) env s).1 with
    | Ok _ =>
        (Ok (setDownloadedModels
               (fun prevModels => filter (fun m => id m ≠ id model) prevModels) app),
         set_files (RNFS.removed (path model)) s)
    | Throw error =>
        (Ok app,
         add_event (ConsoleError "Failed to delete model:" error)
           (deleteGGUFModel (path model) env s).2)
    end.
Proof.
  unfold handleModelDelete, try_catch. unfold bind at 1.
  rewrite deleteGGUFModel_eval.
  destruct (files s !! path model); [destruct (bool_decide _)|]; reflexivity.
Qed.

(** C2, as the design document states it, fails: the file of a listed
    record is gone from the disk; the removal throws, the handler logs the
    error, and the record stays in the catalogue with no file behind it. *)
Lemma C2_stale_record_stays :
  (handleModelDelete record_gone app_gone phone (state_of disk_abn)).1 = Ok app_gone
  ∧ record_gone ∈ downloadedModels app_gone
  ∧ files (handleModelDelete record_gone app_gone phone (state_of disk_abn)).2
      !! path record_gone = None.
Proof.
  split; [vm_compute; reflexivity|].
  split; [apply list_elem_of_singleton; reflexivity | vm_compute; reflexivity].
Qed.

Lemma prefix_length (a b : string) :
  String.prefix a b = true → (String.length a <= String.length b)%nat.
Proof.
  revert b. induction a as [|x a IH]; intros b H; [simpl; lia|].
  destruct b as [|y b]; simpl in H; [discriminate|].
  destruct (ascii_dec x y); [|discriminate].
  apply IH in H. simpl. lia.
Qed.

Lemma directory_not_artifact (env : Env) :
  is_artifact env (getModelsDirectory env) = false.
Proof.
  unfold is_artifact, RNFS.child_name.
  destruct (String.prefix (getModelsDirectory env ++ "/") (getModelsDirectory env))
    eqn:P; [|reflexivity].
  apply prefix_length in P. rewrite str_app_length in P. simpl in P. lia.
Qed.

(** The agreement only looks at which paths hold something and at the
    token supply. *)
Lemma catalogue_ok_ext (env : Env) (app : AppState) (s s' : State) :
  (∀ p, p ≠ getModelsDirectory env → files s' !! p = files s !! p) →
  (is_Some (files s !! getModelsDirectory env)
   → is_Some (files s' !! getModelsDirectory env)) →
  (uuid_next s <= uuid_next s')%N →
  catalogue_ok env app s → catalogue_ok env app s'.
Proof.
  intros Hfiles Hdir Hnext [[Hdang Hunl] [Hdist Hiss]].
  split; [split|split].
  - intros m Hm. destruct (decide (path m = getModelsDirectory env)) as [Heq|Hne].
    + rewrite Heq. apply Hdir. rewrite <- Heq. now apply Hdang.
    + rewrite Hfiles by exact Hne. now apply Hdang.
  - intros p Hp Hart. apply Hunl; [|exact Hart].
    rewrite <- Hfiles; [exact Hp|].
    intros ->. rewrite directory_not_artifact in Hart. discriminate.
  - exact Hdist.
  - intros m Hm. specialize (Hiss m Hm). lia.
Qed.

Lemma catalogue_ok_ensured (env : Env) (app : AppState) (s : State) :
  catalogue_ok env app s → catalogue_ok env app (ensured env s).
Proof.
  apply catalogue_ok_ext.
  - intros p Hp. now apply ensured_lookup.
  - intros _. apply ensured_directory.
  - rewrite ensured_uuid_next. lia.
Qed.

Lemma catalogue_ok_add_event (env : Env) (app : AppState) (s : State) (ev : Event) :
  catalogue_ok env app s → catalogue_ok env app (add_event ev s).
Proof. apply catalogue_ok_ext; simpl; auto; lia. Qed.

(** That every record has a regular file only looks at the paths that
    hold something. *)
Lemma records_are_files_ext (app : AppState) (s s' : State) :
  (∀ p, is_Some (files s !! p) → files s' !! p = files s !! p) →
  records_are_files app s → records_are_files app s'.
Proof.
  intros Hfiles Hreg m Hm. destruct (Hreg m Hm) as [bytes Hb].
  exists bytes. rewrite Hfiles; [exact Hb | rewrite Hb; eauto].
Qed.

Lemma ensured_lookup_Some (env : Env) (s : State) (p : string) :
  is_Some (files s !! p) → files (ensured env s) !! p = files s !! p.
Proof.
  intros [e He]. unfold ensured.
  destruct (files s !! getModelsDirectory env) eqn:D; [reflexivity|].
  simpl. apply lookup_insert_ne. congruence.
Qed.

Lemma records_are_files_ensured (env : Env) (app : AppState) (s : State) :
  records_are_files app s → records_are_files app (ensured env s).
Proof. apply records_are_files_ext. intros p. apply ensured_lookup_Some. Qed.

Lemma records_are_files_add_event (app : AppState) (s : State) (ev : Event) :
  records_are_files app s → records_are_files app (add_event ev s).
Proof. now apply records_are_files_ext. Qed.

Lemma regular_not_directory (disk : gmap string Entry) (p : string) (bytes : N) :
  disk !! p = Some (regular bytes) → is_directory disk p = false.
Proof. unfold is_directory. now intros ->. Qed.

(** Removal keeps the agreement, when the records point at regular files. *)
Lemma handleModelDelete_catalogue_ok (model : Model) (env : Env) (app : AppState)
    (s : State) :
  catalogue_ok env app s →
  records_are_files app s →
  model ∈ downloadedModels app →
  ∃ app', (handleModelDelete model app env s).1 = Ok app'
          ∧ catalogue_ok env app' (handleModelDelete model app env s).2
          ∧ records_are_files app' (handleModelDelete model app env s).2.
Proof.
  intros Hok Hreg Hin. rewrite handleModelDelete_eval, deleteGGUFModel_eval.
  destruct (Hreg model Hin) as [bytes E]. rewrite E.
  destruct (bool_decide _); simpl.
  - eexists. split; [reflexivity|].
    split; [now do 2 apply catalogue_ok_add_event
           |now do 2 apply records_are_files_add_event].
  - eexists. split; [reflexivity|].
    unfold set_files. rewrite (removed_file _ _ (regular_not_directory _ _ _ E)).
    destruct Hok as [[Hdang Hunl] [Hdist Hiss]].
    assert (∀ m, m ∈ filter (fun m => id m ≠ id model) (downloadedModels app) →
                 m ∈ downloadedModels app ∧ path m ≠ path model) as Hkept.
    { intros m Hm. apply list_elem_of_filter in Hm as [Hid Hm].
      split; [exact Hm|]. intros Hp. apply Hid. now apply Hdist. }
    split; [split; [split|split]|].
    + intros m Hm. simpl in Hm. apply Hkept in Hm as [Hm Hp].
      simpl. rewrite lookup_delete_ne by congruence. now apply Hdang.
    + intros p Hp Hart. simpl in Hp.
      destruct (decide (path model = p)) as [Heq|Hne];
        [subst p; rewrite lookup_delete_eq in Hp; now destruct Hp|].
      rewrite lookup_delete_ne in Hp by exact Hne.
      destruct (Hunl p Hp Hart) as [m [Hm Hpm]].
      exists m. split; [|exact Hpm]. simpl.
      apply list_elem_of_filter. split; [|exact Hm].
      intros Hid. apply Hne. rewrite <- Hpm. symmetry. now apply Hdist.
    + intros m m' Hm Hm'. simpl in Hm, Hm'.
      apply Hkept in Hm as [Hm _]. apply Hkept in Hm' as [Hm' _].
      now apply Hdist.
    + intros m Hm. simpl in Hm. apply Hkept in Hm as [Hm _]. now apply Hiss.
    + intros m Hm. simpl in Hm. apply Hkept in Hm as [Hm Hp].
      destruct (Hreg m Hm) as [bytes' Hb]. exists bytes'.
      simpl. now rewrite lookup_delete_ne by congruence.
Qed.

Lemma transferred_uuid_next (fromUrl toFile : string) (t : Transfer) (s : State) :
  uuid_next (transferred fromUrl toFile t s) = uuid_next s.
Proof. unfold transferred. now destruct (t_body t). Qed.

(** What the [catch] block of the download leaves when the name was free
    and the system does not refuse the removal: the disk as it was. *)
Lemma cleanup_transferred {A} (url dest : string) (t : Transfer) (error : Error)
    (env : Env) (s : State) :
  files s !! dest = None →
  dest ∉ unlink_refused env →
  cleanup (A:=A) dest error env (transferred url dest t s)
  = (Throw error,
     {| files := files s; uuid_next := uuid_next s;
        trace := trace (transferred url dest t s) |}).
Proof.
  intros Hfree Hallowed. unfold cleanup, transferred.
  rewrite (bool_decide_eq_false_2 _ Hallowed).
  destruct (t_body t) as [chunks|]; simpl.
  - rewrite lookup_insert_eq. unfold set_files. simpl.
    rewrite removed_file by (eapply regular_not_directory; apply lookup_insert_eq).
    now rewrite delete_insert_id.
  - rewrite Hfree. now destruct s.
Qed.

(** A state that differs from the ensured one only in events keeps the
    agreement. *)
Lemma catalogue_ok_settled (env : Env) (app : AppState) (s s' : State) :
  catalogue_ok env app s ∧ records_are_files app s →
  files s' = files s →
  uuid_next s' = uuid_next s →
  catalogue_ok env app s' ∧ records_are_files app s'.
Proof.
  intros [Hok Hreg] Hfiles Hnext. split.
  - revert Hok. apply catalogue_ok_ext.
    + intros p _. now rewrite Hfiles.
    + now rewrite Hfiles.
    + lia.
  - revert Hreg. apply records_are_files_ext. intros p _. now rewrite Hfiles.
Qed.

(** A download keeps the agreement, whether it returns a record (which the
    handler appends) or throws, when the system does not refuse to remove
    what it wrote. *)
Lemma downloadGGUFModel_catalogue_ok (url modelName : string) (env : Env)
    (app : AppState) (s : State) :
  catalogue_ok env app s →
  records_are_files app s →
  destPath env modelName ∉ unlink_refused env →
  match (downloadGGUFModel url modelName env s).1 with
  | Ok model =>
      catalogue_ok env (handleModelDownloaded model app)
        (downloadGGUFModel url modelName env s).2
      ∧ records_are_files (handleModelDownloaded model app)
          (downloadGGUFModel url modelName env s).2
  | Throw _ =>
      catalogue_ok env app (downloadGGUFModel url modelName env s).2
      ∧ records_are_files app (downloadGGUFModel url modelName env s).2
  end.
Proof.
  intros Hok Hreg Hallowed.
  apply catalogue_ok_ensured in Hok. apply (records_are_files_ensured env) in Hreg.
  rewrite downloadGGUFModel_eval. cbv zeta.
  set (dest := destPath env modelName) in *.
  set (s0 := ensured env s) in *.
  destruct (files s0 !! dest) as [e0|] eqn:Hfree; [now split|].
  set (s1 := transferred url dest (remote env url) s0).
  assert (∀ error,
    match (cleanup (A:=Model) dest error env s1).1 with
    | Ok model =>
        catalogue_ok env (handleModelDownloaded model app)
          (cleanup (A:=Model) dest error env s1).2
        ∧ records_are_files (handleModelDownloaded model app)
            (cleanup (A:=Model) dest error env s1).2
    | Throw _ =>
        catalogue_ok env app (cleanup (A:=Model) dest error env s1).2
        ∧ records_are_files app (cleanup (A:=Model) dest error env s1).2
    end) as Hclean.
  { intros error. unfold s1.
    rewrite (cleanup_transferred url dest _ error env s0 Hfree Hallowed). simpl.
    now apply (catalogue_ok_settled env app s0). }
  destruct (t_end (remote env url)) as [code|message]; [|apply Hclean].
  destruct (code =? 200)%Z; [|apply Hclean].
  destruct (files s1 !! dest) as [e|] eqn:F; simpl.
  - destruct Hok as [[Hdang Hunl] [Hdist Hiss]].
    assert (∀ m, m ∈ downloadedModels app → path m ≠ dest) as Hfresh.
    { intros m Hm Hp. specialize (Hdang m Hm). rewrite Hp, Hfree in Hdang.
      now destruct Hdang. }
    assert (uuid_next s1 = uuid_next s0) as Hnext by apply transferred_uuid_next.
    assert (∃ bytes, e = regular bytes) as [bytes ->].
    { unfold s1 in F. rewrite transferred_lookup in F.
      destruct (t_body (remote env url)); [|congruence].
      injection F as <-. eauto. }
    split; [split; [split|split]|].
    + intros m Hm. simpl in Hm. apply elem_of_app in Hm as [Hm|Hm].
      * simpl. unfold s1. rewrite transferred_lookup_ne by now apply Hfresh.
        now apply Hdang.
      * apply list_elem_of_singleton in Hm. subst m. simpl. rewrite F. eauto.
    + intros p Hp Hart. simpl in Hp. simpl.
      destruct (decide (p = dest)) as [->|Hne].
      * eexists. split; [apply elem_of_app; right; apply list_elem_of_singleton;
                         reflexivity | reflexivity].
      * unfold s1 in Hp. rewrite transferred_lookup_ne in Hp by exact Hne.
        destruct (Hunl p Hp Hart) as [m [Hm Hpm]].
        exists m. split; [apply elem_of_app; now left | exact Hpm].
    + intros m m' Hm Hm'. simpl in Hm, Hm'.
      apply elem_of_app in Hm as [Hm|Hm]; apply elem_of_app in Hm' as [Hm'|Hm'];
        try (apply list_elem_of_singleton in Hm; subst m);
        try (apply list_elem_of_singleton in Hm'; subst m'); simpl.
      * now apply Hdist.
      * specialize (Hiss m Hm). specialize (Hfresh m Hm). split; [lia | congruence].
      * specialize (Hiss m' Hm'). specialize (Hfresh m' Hm').
        split; [lia | congruence].
      * split; reflexivity.
    + intros m Hm. simpl in Hm. simpl. apply elem_of_app in Hm as [Hm|Hm].
      * specialize (Hiss m Hm). lia.
      * apply list_elem_of_singleton in Hm. subst m. simpl. lia.
    + intros m Hm. simpl in Hm. apply elem_of_app in Hm as [Hm|Hm].
      * destruct (Hreg m Hm) as [bytes' Hb]. exists bytes'. simpl.
        unfold s1. now rewrite transferred_lookup_ne by now apply Hfresh.
      * apply list_elem_of_singleton in Hm. subst m. simpl. eauto.
  - apply (catalogue_ok_settled env app s0); [now split | | apply transferred_uuid_next].
    unfold s1, transferred in *.
    destruct (t_body (remote env url)); simpl in *;
      [rewrite lookup_insert_eq in F; discriminate | reflexivity].
Qed.

Lemma handleDownload_eval (url modelName : string) (app : AppState) (env : Env)
    (s : State) :
  handleDownload url modelName app env s
  = if negb (JS.truthy url)
    then (Ok app, add_event (Alert "Error" "Please enter a URL") s)
    else if negb (JS.endsWith url ".gguf")
    then (Ok app, add_event (Alert "Error" "URL must point to a GGUF file") s)
    else
      let r := downloadGGUFModel url (JS.or_else modelName "unnamed-model") env s in
      match r.1 with
      | Ok model =>
          (Ok (handleModelDownloaded model app),
           add_event (Alert "Success" ("Successfully downloaded " ++ name model)) r.2)
      | Throw error =>
          (Ok app,
           add_event (Alert "Error" ("Failed to download model: " ++ error_text error))
             r.2)
      end.
Proof.
  unfold handleDownload.
  destruct (negb (JS.truthy url)); [reflexivity|].
  destruct (negb (JS.endsWith url ".gguf")); [reflexivity|].
  unfold try_catch. unfold bind at 1. cbv zeta.
  destruct (downloadGGUFModel url (JS.or_else modelName "unnamed-model") env s)
    as [[model|error] s']; reflexivity.
Qed.

Lemma handleDownload_catalogue_ok (url modelName : string) (env : Env)
    (app : AppState) (s : State) :
  catalogue_ok env app s →
  records_are_files app s →
  destPath env (JS.or_else modelName "unnamed-model") ∉ unlink_refused env →
  ∃ app', (handleDownload url modelName app env s).1 = Ok app'
          ∧ catalogue_ok env app' (handleDownload url modelName app env s).2
          ∧ records_are_files app' (handleDownload url modelName app env s).2.
Proof.
  intros Hok Hreg Hallowed. rewrite handleDownload_eval.
  destruct (negb (JS.truthy url));
    [eexists; split; [reflexivity|];
     split; [now apply catalogue_ok_add_event | now apply records_are_files_add_event]|].
  destruct (negb (JS.endsWith url ".gguf"));
    [eexists; split; [reflexivity|];
     split; [now apply catalogue_ok_add_event | now apply records_are_files_add_event]|].
  cbv zeta.
  pose proof (downloadGGUFModel_catalogue_ok url _ env app s Hok Hreg Hallowed) as Hd.
  destruct ((downloadGGUFModel url (JS.or_else modelName "unnamed-model") env s).1);
    destruct Hd as [Hd1 Hd2]; eexists;
    (split; [reflexivity|];
     split; [now apply catalogue_ok_add_event | now apply records_are_files_add_event]).
Qed.

(** A record whose file is gone: the removal fails, the handler logs the
    error and keeps the record. *)
Lemma handleModelDelete_stale (model : Model) (app : AppState) (env : Env) (s : State) :
  files s !! path model = None →
  (handleModelDelete model app env s).1 = Ok app
  ∧ files (handleModelDelete model app env s).2 = files s.
Proof.
  intros Hgone. rewrite handleModelDelete_eval, deleteGGUFModel_eval, Hgone.
  split; reflexivity.
Qed.

(** ** The scan sets the agreement up *)

Lemma child_name_item_of (dir : string) (p : string) (e : Entry)
    (item : RNFS.ReadDirItem) :
  RNFS.item_of dir (p, e) = Some item →
  RNFS.item_path item = p ∧ RNFS.child_name dir p = Some (RNFS.item_name item).
Proof.
  unfold RNFS.item_of. simpl.
  destruct (RNFS.child_name dir p) as [n|]; [|discriminate].
  intros [= <-]. auto.
Qed.

Lemma listing_paths (dir : string) (l : list (string * Entry)) (q : string) :
  In q (map RNFS.item_path (omap (RNFS.item_of dir) l)) → In q (map fst l).
Proof.
  induction l as [|[p e] l IH]; simpl; [tauto|].
  destruct (RNFS.item_of dir (p, e)) as [item|] eqn:I; simpl.
  - apply child_name_item_of in I as [Hp _]. intros [H|H]; [left; congruence | auto].
  - auto.
Qed.

Lemma listing_NoDup (dir : string) (l : list (string * Entry)) :
  NoDup (map fst l) → NoDup (map RNFS.item_path (omap (RNFS.item_of dir) l)).
Proof.
  induction l as [|[p e] l IH]; simpl; intros Hnd; [constructor|].
  apply NoDup_cons in Hnd as [Hp Hnd].
  destruct (RNFS.item_of dir (p, e)) as [item|] eqn:I; simpl; [|auto].
  apply child_name_item_of in I as [Hpath _].
  apply NoDup_cons. split; [|auto].
  rewrite Hpath. intros Hin. apply Hp. apply list_elem_of_In.
  apply (listing_paths dir). now apply list_elem_of_In.
Qed.

Lemma recognized_NoDup (files_ : list RNFS.ReadDirItem) :
  NoDup (map RNFS.item_path files_) →
  NoDup (map RNFS.item_path (recognized files_)).
Proof.
  induction files_ as [|file rest IH]; simpl; intros Hnd; [constructor|].
  apply NoDup_cons in Hnd as [Hp Hnd].
  destruct (JS.endsWith (RNFS.item_name file) ".gguf"); simpl; [|auto].
  apply NoDup_cons. split; [|auto].
  intros Hin. apply Hp.
  apply list_elem_of_In in Hin. apply list_elem_of_In.
  apply in_map_iff in Hin as [x [Hx Hin]].
  apply in_map_iff. exists x. split; [exact Hx|].
  unfold recognized in Hin. now apply filter_In in Hin as [Hin _].
Qed.

Lemma records_from_ids (next date : N) (kept : list RNFS.ReadDirItem) (m : Model) :
  In m (records_from next date kept) →
  (next <= id m < next + N.of_nat (length kept))%N.
Proof.
  revert next. induction kept as [|file rest IH]; intros next; simpl; [tauto|].
  intros [<-|Hin]; [simpl; lia|].
  apply IH in Hin. lia.
Qed.

Lemma records_from_NoDup_id (next date : N) (kept : list RNFS.ReadDirItem) :
  NoDup (map id (records_from next date kept)).
Proof.
  revert next. induction kept as [|file rest IH]; intros next; simpl; [constructor|].
  apply NoDup_cons. split; [|apply IH].
  intros Hin. apply list_elem_of_In, in_map_iff in Hin as [m [Hid Hin]].
  apply records_from_ids in Hin. lia.
Qed.

Lemma NoDup_map_inj {A B} (f : A → B) (l : list A) (x y : A) :
  NoDup (map f l) → In x l → In y l → f x = f y → x = y.
Proof.
  induction l as [|a l IH]; simpl; intros Hnd Hx Hy Hf; [tauto|].
  apply NoDup_cons in Hnd as [Ha Hnd].
  destruct Hx as [->|Hx], Hy as [->|Hy]; auto.
  - exfalso. apply Ha. apply list_elem_of_In. rewrite Hf. now apply in_map.
  - exfalso. apply Ha. apply list_elem_of_In. rewrite <- Hf. now apply in_map.
Qed.

(** What the scan returns when the directory can be listed agrees with the
    disk. *)
Lemma scan_catalogue_ok (env : Env) (s : State) (loading : bool) :
  let listing := omap (RNFS.item_of (getModelsDirectory env)) (map_to_list (files s)) in
  catalogue_ok env
    {| downloadedModels := records_from (uuid_next s) (now env) (recognized listing);
       isLoading := loading |}
    {| files := files s;
       uuid_next := (uuid_next s + N.of_nat (length (recognized listing)))%N;
       trace := trace s |}.
Proof.
  intros listing.
  assert (NoDup (map path (records_from (uuid_next s) (now env) (recognized listing))))
    as Hpaths.
  { rewrite records_from_path. apply recognized_NoDup, listing_NoDup.
    apply (NoDup_fst_map_to_list (files s)). }
  split; [split|split];
    unfold no_dangling_record, no_unlisted_artifact, records_distinct, ids_issued;
    simpl.
  - intros m Hm. apply list_elem_of_In in Hm.
    apply (in_map path) in Hm. rewrite records_from_path in Hm.
    apply in_map_iff in Hm as [item [Hp Hin]].
    apply filter_In in Hin as [Hin _].
    apply list_elem_of_In, list_elem_of_omap in Hin as [[p e] [Hpe Hitem]].
    apply child_name_item_of in Hitem as [Hpath _].
    apply elem_of_map_to_list in Hpe. rewrite <- Hp, Hpath, Hpe. eauto.
  - intros p [e He] Hart. unfold is_artifact in Hart.
    destruct (RNFS.child_name (getModelsDirectory env) p) as [n|] eqn:C;
      [|discriminate].
    set (item := {| RNFS.item_name := n; RNFS.item_path := p;
                    RNFS.item_size := e_size e;
                    RNFS.item_isFile := match e_kind e with
                                        | RegularFile => true
                                        | Directory => false
                                        end |}).
    assert (In item (recognized listing)) as Hin.
    { apply filter_In. split; [|exact Hart].
      apply list_elem_of_In, list_elem_of_omap. exists (p, e).
      split; [now apply elem_of_map_to_list|].
      unfold RNFS.item_of. simpl. now rewrite C. }
    apply (in_map RNFS.item_path) in Hin.
    rewrite <- (records_from_path (uuid_next s) (now env)) in Hin.
    apply in_map_iff in Hin as [m [Hp Hm]].
    exists m. split; [now apply list_elem_of_In | exact Hp].
  - intros m m' Hm Hm'. apply list_elem_of_In in Hm, Hm'. split; intros Heq.
    + f_equal.
      eapply (NoDup_map_inj id);
        [apply records_from_NoDup_id | exact Hm | exact Hm' | exact Heq].
    + f_equal.
      eapply (NoDup_map_inj path); [exact Hpaths | exact Hm | exact Hm' | exact Heq].
  - intros m Hm. apply list_elem_of_In, records_from_ids in Hm. lia.
Qed.

Lemma readDir_eval (env : Env) (s : State) (dirpath : string) (size_ : N) :
  files s !! dirpath = Some {| e_kind := Directory; e_size := size_ |} →
  dirpath ∉ readDir_refused env →
  RNFS.readDir dirpath env s
  = (Ok (omap (RNFS.item_of dirpath) (map_to_list (files s))), s).
Proof.
  intros Hdir Hread. unfold RNFS.readDir. rewrite Hdir.
  now rewrite (bool_decide_eq_false_2 _ Hread).
Qed.

Lemma getDownloadedModels_eval (env : Env) (s : State) (size_ : N) :
  files (ensured env s) !! getModelsDirectory env
  = Some {| e_kind := Directory; e_size := size_ |} →
  getModelsDirectory env ∉ readDir_refused env →
  getDownloadedModels env s
  = let listing := omap (RNFS.item_of (getModelsDirectory env))
                     (map_to_list (files (ensured env s))) in
    (Ok (records_from (uuid_next (ensured env s)) (now env) (recognized listing)),
     {| files := files (ensured env s);
        uuid_next := (uuid_next (ensured env s)
                      + N.of_nat (length (recognized listing)))%N;
        trace := trace (ensured env s) |}).
Proof.
  intros Hdir Hread. unfold getDownloadedModels. unfold bind at 1.
  rewrite ensureModelsDirectory_eval. unfold bind at 1. unfold ask at 1.
  unfold try_catch. unfold bind at 1.
  now rewrite (readDir_eval _ _ _ _ Hdir Hread), scan_loop_eval.
Qed.

(** At start-up, when the model directory can be listed, the catalogue the
    application loads agrees with the disk. *)
Lemma loadModels_catalogue_ok (env : Env) (app : AppState) (s : State) (size_ : N) :
  files (ensured env s) !! getModelsDirectory env
  = Some {| e_kind := Directory; e_size := size_ |} →
  getModelsDirectory env ∉ readDir_refused env →
  ∃ app', (loadModels app env s).1 = Ok app'
          ∧ isLoading app' = false
          ∧ catalogue_ok env app' (loadModels app env s).2.
Proof.
  intros Hdir Hread.
  assert (loadModels app env s
          = let r := getDownloadedModels env s in
            match r.1 with
            | Ok models =>
                (Ok {| downloadedModels := models; isLoading := false |}, r.2)
            | Throw error =>
                (Ok (setIsLoading false app),
                 add_event (ConsoleError "Failed to load models:" error) r.2)
            end) as Heval.
  { unfold loadModels. unfold bind at 1. unfold try_catch at 1. unfold bind at 1.
    cbv zeta. destruct (getDownloadedModels env s) as [[models|error] s'];
      reflexivity. }
  rewrite Heval, (getDownloadedModels_eval env s size_ Hdir Hread). cbv zeta. simpl.
  eexists. split; [reflexivity|]. split; [reflexivity|].
  exact (scan_catalogue_ok env (ensured env s) false).
Qed.

(** ** The agreement is kept *)

(** C2 (amended): when the catalogue and the disk agree (every record has a
    regular file, every artifact on disk has a record, and the records are
    told apart by token and by path), they still agree after a removal of a
    listed record and after a download, whether the operation succeeds or
    fails; the handlers themselves never throw.  A download needs that the
    system does not refuse to remove what it wrote.  Where a record has
    nothing under its path, the removal fails: the handler returns the
    catalogue as it was, the record included, and the disk is as it was. *)
Theorem C2_catalogue_and_disk_agree (op : Operation) (env : Env) (app : AppState)
    (s : State) :
  (catalogue_ok env app s → records_are_files app s → permitted env app op →
   ∃ app', (run op app env s).1 = Ok app'
           ∧ catalogue_ok env app' (run op app env s).2
           ∧ records_are_files app' (run op app env s).2)
  ∧ (∀ model, op = Delete model → files s !! path model = None →
       (run op app env s).1 = Ok app
       ∧ files (run op app env s).2 = files s).
Proof.
  split.
  - intros Hok Hreg Hperm. destruct op as [model|url modelName]; simpl in *.
    + now apply handleModelDelete_catalogue_ok.
    + now apply handleDownload_catalogue_ok.
  - intros model -> Hgone. simpl. now apply handleModelDelete_stale.
Qed.

Lemma catalogue_ok_scanned : catalogue_ok phone app_ab state_scanned.
Proof.
  pose proof (scan_catalogue_ok phone (state_of disk_abn) false) as H.
  cbv zeta in H.
  assert (records_from (uuid_next (state_of disk_abn)) (now phone)
            (recognized (omap (RNFS.item_of (getModelsDirectory phone))
                           (map_to_list (files (state_of disk_abn)))))
          = [record_a; record_b]) as E by (vm_compute; reflexivity).
  rewrite E in H. exact H.
Qed.

Lemma records_are_files_scanned : records_are_files app_ab state_scanned.
Proof.
  intros m Hm. simpl in Hm.
  repeat (apply elem_of_cons in Hm as [->|Hm]; [eexists; vm_compute; reflexivity|]).
  now apply elem_of_nil in Hm.
Qed.

Lemma C2_catalogue_and_disk_agree_witness :
  catalogue_ok phone app_ab state_scanned
  ∧ records_are_files app_ab state_scanned
  ∧ permitted phone app_ab (Delete record_a)
  ∧ ∃ app', (run (Delete record_a) app_ab phone state_scanned).1 = Ok app'
            ∧ catalogue_ok phone app' (run (Delete record_a) app_ab phone state_scanned).2
            ∧ records_are_files app'
                (run (Delete record_a) app_ab phone state_scanned).2.
Proof.
  assert (catalogue_ok phone app_ab state_scanned) as H1
    by exact catalogue_ok_scanned.
  assert (records_are_files app_ab state_scanned) as H2
    by exact records_are_files_scanned.
  assert (permitted phone app_ab (Delete record_a)) as H3
    by (simpl; apply list_elem_of_here).
  split; [exact H1 | split; [exact H2 | split; [exact H3|]]].
  exact (proj1 (C2_catalogue_and_disk_agree (Delete record_a) phone app_ab
                  state_scanned) H1 H2 H3).
Defined.

(** A download into the empty catalogue: the record of the download is the
    whole catalogue and its file is on disk. *)
Example download_into_empty_catalogue :
  (run (Download "https://hub/model.gguf" "model") app_empty phone (state_of ∅)).1
  = Ok {| downloadedModels := [model_1000]; isLoading := false |}
  ∧ files (run (Download "https://hub/model.gguf" "model") app_empty phone
             (state_of ∅)).2 !! path model_1000 = Some (regular 1000).
Proof. split; vm_compute; reflexivity. Qed.

(** A download after the scan, and then the removal of what was
    downloaded: the catalogue is the scanned one again. *)
Example download_then_delete_after_scan :
  (run (Download "https://hub/model.gguf" "model") app_ab phone state_scanned).1
  = Ok {| downloadedModels := [record_a; record_b; model_third]; isLoading := false |}
  ∧ (run (Delete model_third)
       {| downloadedModels := [record_a; record_b; model_third]; isLoading := false |}
       phone
       (run (Download "https://hub/model.gguf" "model") app_ab phone state_scanned).2).1
    = Ok app_ab.
Proof. split; vm_compute; reflexivity. Qed.

(** ** The agreement, run *)

(** Start-up on the sample disk lists [a] and [b]. *)
Example startup_lists_a_b :
  (loadModels {| downloadedModels := []; isLoading := true |} phone
     (state_of disk_abn)).1
  = Ok {| downloadedModels := [record_a; record_b]; isLoading := false |}.
Proof. vm_compute. reflexivity. Qed.

(** Removing the listed record [a] removes its file and its record. *)
Example delete_listed_record :
  (run (Delete record_a)
     {| downloadedModels := [record_a; record_b]; isLoading := false |} phone
     (state_of disk_abn)).1
  = Ok {| downloadedModels := [record_b]; isLoading := false |}
  ∧ files (run (Delete record_a)
             {| downloadedModels := [record_a; record_b]; isLoading := false |} phone
             (state_of disk_abn)).2 !! path record_a = None.
Proof. split; vm_compute; reflexivity. Qed.

(** When the system refuses to remove the partial file of a failed
    download, an artifact without a record stays on disk. *)
Example refused_cleanup_leaves_unlisted_artifact :
  (run (Download "https://hub/model.gguf" "model") app_empty
     (device answer_broken {["/sdcard/app/gguf-models/model.gguf"]})
     (state_of ∅)).1 = Ok app_empty
  ∧ files (run (Download "https://hub/model.gguf" "model") app_empty
             (device answer_broken {["/sdcard/app/gguf-models/model.gguf"]})
             (state_of ∅)).2 !! "/sdcard/app/gguf-models/model.gguf"
    = Some (regular 600)
  ∧ is_artifact (device answer_broken {["/sdcard/app/gguf-models/model.gguf"]})
      "/sdcard/app/gguf-models/model.gguf" = true.
Proof. repeat split; vm_compute; reflexivity. Qed.

(** A record that points at a directory: the scan has listed the
    subdirectory [x.gguf], a download has put a file into it, and the
    removal of the directory takes that file away; its record stays. *)
Example delete_directory_leaves_stale_record :
  (run (Download "https://hub/y.gguf" "x.gguf/y") app_abx phone state_with_folder).1
  = Ok app_abxy
  ∧ (run (Delete record_x) app_abxy phone
       (run (Download "https://hub/y.gguf" "x.gguf/y") app_abx phone
          state_with_folder).2).1
    = Ok {| downloadedModels := [record_a; record_b; record_y]; isLoading := false |}
  ∧ files (run (Delete record_x) app_abxy phone
             (run (Download "https://hub/y.gguf" "x.gguf/y") app_abx phone
                state_with_folder).2).2 !! path record_y = None.
Proof. repeat split; vm_compute; reflexivity. Qed.

(** The alert that tells the user how the download ended is the last event
    of [handleDownload]: no progress is reported after it. *)
Lemma handleDownload_ends_with_alert (url modelName : string) (app : AppState)
    (env : Env) (s : State) :
  ∃ title message,
    last (trace (handleDownload url modelName app env s).2)
    = Some (Alert title message).
Proof.
  rewrite handleDownload_eval.
  destruct (negb (JS.truthy url));
    [do 2 eexists; simpl; apply last_snoc|].
  destruct (negb (JS.endsWith url ".gguf"));
    [do 2 eexists; simpl; apply last_snoc|].
  cbv zeta.
  destruct ((downloadGGUFModel url (JS.or_else modelName "unnamed-model") env s).1);
    do 2 eexists; simpl; apply last_snoc.
Qed.

(** * Further properties of the file manager *)

(** ** Paths inside the model directory *)

Lemma or_zero_id (n : N) : JS.or_zero n = n.
Proof. unfold JS.or_zero. destruct (N.eqb_spec n 0); congruence. Qed.

Lemma prefix_app (a b : string) : String.prefix a (a ++ b) = true.
Proof.
  induction a as [|x a IH]; [now destruct b|].
  rewrite str_app_cons. simpl. destruct (ascii_dec x x); [exact IH | congruence].
Qed.

Lemma child_name_None_self (dir : string) : RNFS.child_name dir dir = None.
Proof.
  unfold RNFS.child_name.
  destruct (String.prefix (dir ++ "/") dir) eqn:P; [|reflexivity].
  apply prefix_length in P. rewrite str_app_length in P. simpl in P. lia.
Qed.

(** A direct child of [dir] is [dir], a slash, and a name without slash. *)
Lemma child_name_Some (dir p n : string) :
  RNFS.child_name dir p = Some n →
  p = dir ++ "/" ++ n ∧ n ≠ EmptyString ∧ index 0 "/" n = None.
Proof.
  unfold RNFS.child_name.
  destruct (String.prefix (dir ++ "/") p) eqn:P; [|discriminate].
  set (rest := substring (String.length (dir ++ "/"))
                 (String.length p - String.length (dir ++ "/")) p).
  destruct (String.eqb_spec rest EmptyString) as [|Hne]; [discriminate|].
  destruct (index 0 "/" rest) eqn:I; [discriminate|].
  intros [= <-]. split; [|split; [exact Hne | exact I]].
  pose proof (prefix_length _ _ P) as Hlen.
  apply prefix_correct in P.
  rewrite (substring_split p (String.length (dir ++ "/")) Hlen) at 1.
  rewrite P. fold rest. apply str_app_assoc.
Qed.

Lemma child_name_app (dir n : string) :
  n ≠ EmptyString → index 0 "/" n = None →
  RNFS.child_name dir (dir ++ "/" ++ n) = Some n.
Proof.
  intros Hne Hidx. unfold RNFS.child_name.
  rewrite <- str_app_assoc. set (parent := dir ++ "/").
  rewrite prefix_app, str_app_length.
  replace (String.length parent + String.length n - String.length parent)%nat
    with (String.length n) by lia.
  rewrite substring_skip_app, Hidx.
  destruct (String.eqb_spec n EmptyString); [contradiction | reflexivity].
Qed.

Lemma sanitizedModelName_not_empty (modelName : string) :
  sanitizedModelName modelName ≠ EmptyString.
Proof.
  intros H. pose proof (sanitizedModelName_endsWith modelName) as E.
  rewrite H in E. discriminate.
Qed.

(** The destination of a download under a flat name is an artifact. *)
Lemma destPath_is_artifact (env : Env) (modelName : string) :
  flat_name modelName = true → is_artifact env (destPath env modelName) = true.
Proof.
  unfold flat_name, is_artifact, destPath. intros Hflat.
  destruct (index 0 "/" (sanitizedModelName modelName)) eqn:I; [discriminate|].
  rewrite child_name_app by (apply sanitizedModelName_not_empty || exact I).
  apply sanitizedModelName_endsWith.
Qed.

(** ** The model directory *)

(** X1: after [ensureModelsDirectory] something is under the path of the
    model directory: what was there before, be it a directory or a regular
    file, or else a new empty directory.  No other path changes, and a
    second call returns without changing anything at all. *)
Theorem X1_ensureModelsDirectory_creates_once (env : Env) (s : State) :
  is_Some (files (ensureModelsDirectory env s).2 !! getModelsDirectory env)
  ∧ (∀ p, p ≠ getModelsDirectory env →
          files (ensureModelsDirectory env s).2 !! p = files s !! p)
  ∧ (∀ e, files s !! getModelsDirectory env = Some e →
          (ensureModelsDirectory env s).2 = s)
  ∧ (files s !! getModelsDirectory env = None →
     files (ensureModelsDirectory env s).2 !! getModelsDirectory env = Some folder)
  ∧ ensureModelsDirectory env (ensureModelsDirectory env s).2
    = (Ok tt, (ensureModelsDirectory env s).2).
Proof.
  rewrite ensureModelsDirectory_eval. simpl.
  split; [apply ensured_directory|].
  split; [intros p Hp; now apply ensured_lookup|].
  split; [|split].
  - intros e He. unfold ensured. now rewrite He.
  - intros Hnone. unfold ensured. rewrite Hnone. simpl. apply lookup_insert_eq.
  - rewrite ensureModelsDirectory_eval. f_equal.
    destruct (ensured_directory env s) as [e He].
    unfold ensured at 1. now rewrite He.
Qed.

(** ** The scan, in full *)

(** What [getDownloadedModels] does, whether the directory can be listed or
    not. *)
Lemma getDownloadedModels_total (env : Env) (s : State) :
  getDownloadedModels env s
  = if listable env s
    then
      let listing := omap (RNFS.item_of (getModelsDirectory env))
                       (map_to_list (files (ensured env s))) in
      (Ok (records_from (uuid_next (ensured env s)) (now env) (recognized listing)),
       {| files := files (ensured env s);
          uuid_next := (uuid_next (ensured env s)
                        + N.of_nat (length (recognized listing)))%N;
          trace := trace (ensured env s) |})
    else
      (Ok [],
       add_event (ConsoleError "Error reading models directory:"
                    (ErrIO "readDir" (getModelsDirectory env)))
         (ensured env s)).
Proof.
  unfold listable.
  destruct (files (ensured env s) !! getModelsDirectory env) as [[[] size_]|] eqn:D.
  - unfold getDownloadedModels. unfold bind at 1.
    rewrite ensureModelsDirectory_eval. unfold bind at 1. unfold ask at 1.
    unfold try_catch. unfold bind at 1. unfold RNFS.readDir. now rewrite D.
  - destruct (bool_decide (getModelsDirectory env ∈ readDir_refused env)) eqn:R; simpl.
    + unfold getDownloadedModels. unfold bind at 1.
      rewrite ensureModelsDirectory_eval. unfold bind at 1. unfold ask at 1.
      unfold try_catch. unfold bind at 1. unfold RNFS.readDir. now rewrite D, R.
    + apply bool_decide_eq_false in R.
      now apply (getDownloadedModels_eval env s size_).
  - unfold getDownloadedModels. unfold bind at 1.
    rewrite ensureModelsDirectory_eval. unfold bind at 1. unfold ask at 1.
    unfold try_catch. unfold bind at 1. unfold RNFS.readDir. now rewrite D.
Qed.

Lemma records_from_In (next date : N) (kept : list RNFS.ReadDirItem) (m : Model) :
  In m (records_from next date kept) →
  ∃ file, In file kept
          ∧ path m = RNFS.item_path file
          ∧ name m = JS.replace (RNFS.item_name file) ".gguf" EmptyString
          ∧ size m = RNFS.item_size file
          ∧ dateDownloaded m = date.
Proof.
  revert next. induction kept as [|file rest IH]; intros next; simpl; [tauto|].
  intros [<-|Hin].
  - exists file. simpl. rewrite or_zero_id. auto.
  - destruct (IH _ Hin) as [file' [Hin' H]]. exists file'. auto.
Qed.

Lemma records_from_fields (next date : N) (kept : list RNFS.ReadDirItem) :
  map path (records_from next date kept) = map RNFS.item_path kept
  ∧ map name (records_from next date kept)
    = map (fun file => JS.replace (RNFS.item_name file) ".gguf" EmptyString) kept
  ∧ map size (records_from next date kept) = map RNFS.item_size kept.
Proof.
  split; [apply records_from_path | split; [apply records_from_name|]].
  revert next. induction kept as [|file rest IH]; intros next; simpl;
    [reflexivity | now rewrite IH, or_zero_id].
Qed.

(** The entries the scan keeps, read off the disk. *)
Lemma recognized_listing_In (dir : string) (disk : gmap string Entry)
    (file : RNFS.ReadDirItem) :
  In file (recognized (omap (RNFS.item_of dir) (map_to_list disk))) ↔
  ∃ e, disk !! RNFS.item_path file = Some e
       ∧ RNFS.item_of dir (RNFS.item_path file, e) = Some file
       ∧ JS.endsWith (RNFS.item_name file) ".gguf" = true.
Proof.
  unfold recognized. rewrite filter_In, <- list_elem_of_In, list_elem_of_omap.
  split.
  - intros [[[p e] [Hpe Hitem]] Hext].
    apply elem_of_map_to_list in Hpe.
    destruct (child_name_item_of _ _ _ _ Hitem) as [Hp _]. subst p.
    exists e. auto.
  - intros [e [He [Hitem Hext]]]. split; [|exact Hext].
    exists (RNFS.item_path file, e). split; [now apply elem_of_map_to_list | exact Hitem].
Qed.

Lemma item_of_size (dir p : string) (e : Entry) (file : RNFS.ReadDirItem) :
  RNFS.item_of dir (p, e) = Some file → RNFS.item_size file = e_size e.
Proof.
  unfold RNFS.item_of. simpl.
  destruct (RNFS.child_name dir p); [|discriminate]. now intros [= <-].
Qed.

Lemma records_from_covers (next date : N) (kept : list RNFS.ReadDirItem)
    (file : RNFS.ReadDirItem) :
  In file kept →
  ∃ m, In m (records_from next date kept)
       ∧ path m = RNFS.item_path file ∧ size m = RNFS.item_size file
       ∧ name m = JS.replace (RNFS.item_name file) ".gguf" EmptyString.
Proof.
  revert next. induction kept as [|file' rest IH]; intros next; simpl; [tauto|].
  intros [->|Hin].
  - eexists. split; [left; reflexivity|]. simpl. now rewrite or_zero_id.
  - destruct (IH (N.succ next) Hin) as [m [Hm H]]. exists m. auto.
Qed.

Lemma ensured_idem (env : Env) (s : State) :
  is_Some (files s !! getModelsDirectory env) → ensured env s = s.
Proof. intros [e He]. unfold ensured. now rewrite He. Qed.

Lemma omap_all_None {A B} (f : A → option B) (l : list A) :
  (∀ x, x ∈ l → f x = None) → omap f l = [].
Proof.
  induction l as [|x l IH]; intros H; [reflexivity|].
  simpl. rewrite (H x) by apply list_elem_of_here.
  apply IH. intros y Hy. apply H. now apply list_elem_of_further.
Qed.

(** X2: when the model directory cannot be listed (the system refuses, or
    something that is no directory sits under its path), the scan does not
    throw: it returns the empty list and logs the error of the listing
    once.  No id is used and no path other than the model directory
    changes; the model directory itself is created when nothing was under
    its path, though the listing then fails, and the disk is as it was when
    something was under its path. *)
Theorem X2_scan_failure_gives_empty_list (env : Env) (s : State) :
  listable env s = false →
  (getDownloadedModels env s).1 = Ok []
  ∧ trace (getDownloadedModels env s).2
    = (trace s ++ [ConsoleError "Error reading models directory:"
                     (ErrIO "readDir" (getModelsDirectory env))])%list
  ∧ (∀ p, p ≠ getModelsDirectory env →
          files (getDownloadedModels env s).2 !! p = files s !! p)
  ∧ (is_Some (files s !! getModelsDirectory env) →
     files (getDownloadedModels env s).2 = files s)
  ∧ (files s !! getModelsDirectory env = None →
     files (getDownloadedModels env s).2 !! getModelsDirectory env = Some folder)
  ∧ uuid_next (getDownloadedModels env s).2 = uuid_next s.
Proof.
  intros Hl. rewrite getDownloadedModels_total, Hl. simpl.
  rewrite ensured_trace, ensured_uuid_next.
  split; [reflexivity|]. split; [reflexivity|].
  split; [intros p Hp; now apply ensured_lookup|].
  split; [intros Hdir; now rewrite ensured_idem|].
  split; [|reflexivity].
  intros Hnone. unfold ensured. rewrite Hnone. simpl. apply lookup_insert_eq.
Qed.

Lemma X2_scan_failure_gives_empty_list_witness :
  listable phone_unreadable (state_of ∅) = false
  ∧ (getDownloadedModels phone_unreadable (state_of ∅)).1 = Ok []
  ∧ trace (getDownloadedModels phone_unreadable (state_of ∅)).2
    = (trace (state_of ∅)
       ++ [ConsoleError "Error reading models directory:"
             (ErrIO "readDir" (getModelsDirectory phone_unreadable))])%list
  ∧ (∀ p, p ≠ getModelsDirectory phone_unreadable →
          files (getDownloadedModels phone_unreadable (state_of ∅)).2 !! p
          = files (state_of ∅) !! p)
  ∧ (is_Some (files (state_of ∅) !! getModelsDirectory phone_unreadable) →
     files (getDownloadedModels phone_unreadable (state_of ∅)).2
     = files (state_of ∅))
  ∧ (files (state_of ∅) !! getModelsDirectory phone_unreadable = None →
     files (getDownloadedModels phone_unreadable (state_of ∅)).2
       !! getModelsDirectory phone_unreadable = Some folder)
  ∧ uuid_next (getDownloadedModels phone_unreadable (state_of ∅)).2
    = uuid_next (state_of ∅).
Proof.
  assert (listable phone_unreadable (state_of ∅) = false) as H
    by (vm_compute; reflexivity).
  split; [exact H|].
  exact (X2_scan_failure_gives_empty_list phone_unreadable (state_of ∅) H).
Defined.

(** The scan of the empty disk on that device: the directory is there
    afterwards, and the list is empty. *)
Example scan_unreadable_creates_directory :
  getDownloadedModels phone_unreadable (state_of ∅)
  = (Ok [],
     {| files := <["/sdcard/app/gguf-models" := folder]> ∅; uuid_next := 0;
        trace := [ConsoleError "Error reading models directory:"
                    (ErrIO "readDir" "/sdcard/app/gguf-models")] |}).
Proof. vm_compute. reflexivity. Qed.

(** X3: when the model directory can be listed, the scan returns one record
    for every direct child of the directory whose name ends in [.gguf], and
    nothing else: every record is such a child on disk, carries its path and
    its size, is named by its file name with the first [.gguf] removed and
    dated now; every such child has a record; no two records share a path or
    an id. *)
Theorem X3_scan_lists_gguf_children (env : Env) (s : State) :
  listable env s = true →
  ∃ models,
    (getDownloadedModels env s).1 = Ok models
    ∧ (∀ m, m ∈ models →
         ∃ n e, path m = getModelsDirectory env ++ "/" ++ n
                ∧ index 0 "/" n = None
                ∧ JS.endsWith n ".gguf" = true
                ∧ files s !! path m = Some e
                ∧ size m = e_size e
                ∧ name m = JS.replace n ".gguf" EmptyString
                ∧ dateDownloaded m = now env)
    ∧ (∀ n e, index 0 "/" n = None →
              JS.endsWith n ".gguf" = true →
              files s !! (getModelsDirectory env ++ "/" ++ n) = Some e →
              ∃ m, m ∈ models ∧ path m = getModelsDirectory env ++ "/" ++ n
                   ∧ size m = e_size e)
    ∧ NoDup (map path models)
    ∧ NoDup (map id models).
Proof.
  intros Hl. rewrite getDownloadedModels_total, Hl. cbv zeta.
  set (dir := getModelsDirectory env).
  set (listing := omap (RNFS.item_of dir) (map_to_list (files (ensured env s)))).
  eexists. split; [reflexivity|]. split; [|split; [|split]].
  - intros m Hm. apply list_elem_of_In, records_from_In in Hm
      as [file [Hin [Hpath [Hname [Hsize Hdate]]]]].
    apply recognized_listing_In in Hin as [e [He [Hitem Hext]]].
    pose proof (item_of_size _ _ _ _ Hitem) as Hsz.
    apply child_name_item_of in Hitem as [_ Hchild].
    pose proof (child_name_Some _ _ _ Hchild) as [Hp [_ Hflat]].
    exists (RNFS.item_name file), e.
    rewrite Hpath. split; [exact Hp|]. split; [exact Hflat|]. split; [exact Hext|].
    split; [|split; [congruence | split; [exact Hname | exact Hdate]]].
    rewrite <- He. symmetry. apply ensured_lookup.
    intros Heq. fold dir in Heq. rewrite Heq, child_name_None_self in Hchild.
    discriminate.
  - intros n e Hflat Hext He.
    assert (n ≠ EmptyString) as Hne by (intros ->; discriminate).
    pose proof (child_name_app dir n Hne Hflat) as Hchild.
    set (p := dir ++ "/" ++ n) in *.
    assert (p ≠ dir) as Hp.
    { intros Heq. rewrite Heq, child_name_None_self in Hchild. discriminate. }
    set (file := {| RNFS.item_name := n; RNFS.item_path := p;
                    RNFS.item_size := e_size e;
                    RNFS.item_isFile := match e_kind e with
                                        | RegularFile => true
                                        | Directory => false
                                        end |}).
    assert (In file (recognized listing)) as Hin.
    { apply recognized_listing_In. exists e. simpl.
      split; [now rewrite ensured_lookup|]. split; [|exact Hext].
      unfold RNFS.item_of. simpl. now rewrite Hchild. }
    destruct (records_from_covers (uuid_next (ensured env s)) (now env) _ _ Hin)
      as [m [Hm [Hpath [Hsize _]]]].
    exists m. split; [now apply list_elem_of_In | auto].
  - rewrite records_from_path. apply recognized_NoDup, listing_NoDup.
    apply (NoDup_fst_map_to_list (files (ensured env s))).
  - apply records_from_NoDup_id.
Qed.

Lemma X3_scan_lists_gguf_children_witness :
  (listable phone (state_of disk_abn) = true)
  ∧
  (∃ models,
    (getDownloadedModels phone (state_of disk_abn)).1 = Ok models
    ∧ (∀ m, m ∈ models →
         ∃ n e, path m = getModelsDirectory phone ++ "/" ++ n
                ∧ index 0 "/" n = None
                ∧ JS.endsWith n ".gguf" = true
                ∧ files (state_of disk_abn) !! path m = Some e
                ∧ size m = e_size e
                ∧ name m = JS.replace n ".gguf" EmptyString
                ∧ dateDownloaded m = now phone)
    ∧ (∀ n e, index 0 "/" n = None →
              JS.endsWith n ".gguf" = true →
              files (state_of disk_abn) !! (getModelsDirectory phone ++ "/" ++ n) = Some e →
              ∃ m, m ∈ models ∧ path m = getModelsDirectory phone ++ "/" ++ n
                   ∧ size m = e_size e)
    ∧ NoDup (map path models)
    ∧ NoDup (map id models)).
Proof.
  assert (listable phone (state_of disk_abn) = true) as H1
    by (vm_compute; reflexivity).
  split; [exact H1|].
  exact (X3_scan_lists_gguf_children phone (state_of disk_abn) H1).
Defined.

(** X4: two scans in a row, with nothing done in between, list the same
    paths, names and sizes in the same order, but every record of the second
    scan has an id that no record of the first scan has: ids are made anew at
    every scan.  The second scan leaves the disk as the first one left it. *)
Theorem X4_rescan_same_files_new_ids (env : Env) (s : State) :
  listable env s = true →
  ∃ first second,
    (getDownloadedModels env s).1 = Ok first
    ∧ (getDownloadedModels env (getDownloadedModels env s).2).1 = Ok second
    ∧ map path second = map path first
    ∧ map name second = map name first
    ∧ map size second = map size first
    ∧ (∀ a b, a ∈ first → b ∈ second → id a ≠ id b)
    ∧ files (getDownloadedModels env (getDownloadedModels env s).2).2
      = files (getDownloadedModels env s).2.
Proof.
  intros Hl. rewrite getDownloadedModels_total, Hl. cbv zeta. simpl.
  set (listing := omap (RNFS.item_of (getModelsDirectory env))
                    (map_to_list (files (ensured env s)))).
  set (s1 := {| files := files (ensured env s);
                uuid_next := (uuid_next (ensured env s)
                              + N.of_nat (length (recognized listing)))%N;
                trace := trace (ensured env s) |}).
  assert (ensured env s1 = s1) as Hens.
  { apply ensured_idem. simpl. apply ensured_directory. }
  assert (listable env s1 = true) as Hl1.
  { unfold listable in *. now rewrite Hens. }
  rewrite getDownloadedModels_total, Hl1. cbv zeta. rewrite Hens. simpl.
  fold listing.
  do 2 eexists. split; [reflexivity|]. split; [reflexivity|].
  destruct (records_from_fields (uuid_next (ensured env s)) (now env)
              (recognized listing)) as [Hp1 [Hn1 Hs1]].
  destruct (records_from_fields
              (uuid_next (ensured env s) + N.of_nat (length (recognized listing)))
              (now env) (recognized listing)) as [Hp2 [Hn2 Hs2]].
  split; [congruence|]. split; [congruence|]. split; [congruence|].
  split; [|reflexivity].
  intros a b Ha Hb.
  apply list_elem_of_In, records_from_ids in Ha.
  apply list_elem_of_In, records_from_ids in Hb. lia.
Qed.

Lemma X4_rescan_same_files_new_ids_witness :
  (listable phone (state_of disk_abn) = true)
  ∧
  (∃ first second,
    (getDownloadedModels phone (state_of disk_abn)).1 = Ok first
    ∧ (getDownloadedModels phone (getDownloadedModels phone (state_of disk_abn)).2).1 = Ok second
    ∧ map path second = map path first
    ∧ map name second = map name first
    ∧ map size second = map size first
    ∧ (∀ a b, a ∈ first → b ∈ second → id a ≠ id b)
    ∧ files (getDownloadedModels phone (getDownloadedModels phone (state_of disk_abn)).2).2
      = files (getDownloadedModels phone (state_of disk_abn)).2).
Proof.
  assert (listable phone (state_of disk_abn) = true) as H1
    by (vm_compute; reflexivity).
  split; [exact H1|].
  exact (X4_rescan_same_files_new_ids phone (state_of disk_abn) H1).
Defined.

(** X5: the first scan on a device where the model directory does not exist
    yet, and nothing lies under its path, creates the directory and returns
    the empty list; nothing is logged, no id is used, and no other path
    changes. *)
Theorem X5_first_scan_creates_directory (env : Env) (s : State) :
  files s !! getModelsDirectory env = None →
  (∀ p, is_Some (files s !! p) → RNFS.child_name (getModelsDirectory env) p = None) →
  getModelsDirectory env ∉ readDir_refused env →
  getDownloadedModels env s
  = (Ok [], set_files (insert (getModelsDirectory env) folder) s).
Proof.
  intros Hnone Hunder Hread.
  assert (ensured env s = set_files (insert (getModelsDirectory env) folder) s) as Hens.
  { unfold ensured. now rewrite Hnone. }
  assert (listable env s = true) as Hl.
  { unfold listable. rewrite Hens. simpl. rewrite lookup_insert_eq. simpl.
    now rewrite (bool_decide_eq_false_2 _ Hread). }
  rewrite getDownloadedModels_total, Hl. cbv zeta.
  rewrite (omap_all_None (RNFS.item_of (getModelsDirectory env))).
  - simpl. rewrite N.add_0_r, Hens. reflexivity.
  - intros [p e] Hpe. apply elem_of_map_to_list in Hpe.
    unfold RNFS.item_of. simpl.
    destruct (decide (p = getModelsDirectory env)) as [->|Hp].
    + now rewrite child_name_None_self.
    + rewrite ensured_lookup in Hpe by exact Hp.
      rewrite (Hunder p) by (rewrite Hpe; eauto). reflexivity.
Qed.

Lemma X5_first_scan_creates_directory_witness :
  (files (state_of ∅) !! getModelsDirectory phone = None)
  ∧
  (∀ p, is_Some (files (state_of ∅) !! p) → RNFS.child_name (getModelsDirectory phone) p = None)
  ∧
  (getModelsDirectory phone ∉ readDir_refused phone)
  ∧
  (getDownloadedModels phone (state_of ∅)
  = (Ok [], set_files (insert (getModelsDirectory phone) folder) (state_of ∅))).
Proof.
  assert (files (state_of ∅) !! getModelsDirectory phone = None) as H1
    by (vm_compute; reflexivity).
  assert (∀ p, is_Some (files (state_of ∅) !! p) → RNFS.child_name (getModelsDirectory phone) p = None) as H2
    by (intros p [e He]; simpl in He; rewrite lookup_empty in He; discriminate).
  assert (getModelsDirectory phone ∉ readDir_refused phone) as H3
    by (simpl; apply not_elem_of_empty).
  split; [exact H1|].
  split; [exact H2|].
  split; [exact H3|].
  exact (X5_first_scan_creates_directory phone (state_of ∅) H1 H2 H3).
Defined.

(** ** Start-up *)

Lemma loadModels_eval (app : AppState) (env : Env) (s : State) :
  loadModels app env s
  = match (getDownloadedModels env s).1 with
    | Ok models =>
        (Ok {| downloadedModels := models; isLoading := false |},
         (getDownloadedModels env s).2)
    | Throw error =>
        (Ok (setIsLoading false app),
         add_event (ConsoleError "Failed to load models:" error)
           (getDownloadedModels env s).2)
    end.
Proof.
  unfold loadModels. unfold bind at 1. unfold try_catch at 1. unfold bind at 1.
  destruct (getDownloadedModels env s) as [[models|error] s']; reflexivity.
Qed.

Lemma listable_true (env : Env) (s : State) :
  listable env s = true →
  ∃ size_,
    files (ensured env s) !! getModelsDirectory env
    = Some {| e_kind := Directory; e_size := size_ |}
    ∧ getModelsDirectory env ∉ readDir_refused env.
Proof.
  unfold listable.
  destruct (files (ensured env s) !! getModelsDirectory env) as [[[] size_]|];
    try discriminate.
  intros H. exists size_. split; [reflexivity|].
  apply negb_true_iff, bool_decide_eq_false in H. exact H.
Qed.

(** X6: when the model directory can be listed, [loadModels] replaces
    whatever the catalogue held by the records of the scan and clears the
    loading flag; afterwards the catalogue and the disk agree: every record
    has a file, every artifact on disk has a record, and the records are
    told apart by id and by path. *)
Theorem X6_startup_catalogue_agrees (env : Env) (app : AppState) (s : State) :
  listable env s = true →
  ∃ models,
    (getDownloadedModels env s).1 = Ok models
    ∧ (loadModels app env s).1
      = Ok {| downloadedModels := models; isLoading := false |}
    ∧ catalogue_ok env {| downloadedModels := models; isLoading := false |}
        (loadModels app env s).2.
Proof.
  intros Hl. rewrite loadModels_eval.
  destruct (listable_true env s Hl) as [size_ [Hdir Hread]].
  rewrite (getDownloadedModels_eval env s size_ Hdir Hread). cbv zeta. simpl.
  eexists. split; [reflexivity|]. split; [reflexivity|].
  exact (scan_catalogue_ok env (ensured env s) false).
Qed.

Lemma X6_startup_catalogue_agrees_witness :
  (listable phone (state_of disk_abn) = true)
  ∧
  (∃ models,
    (getDownloadedModels phone (state_of disk_abn)).1 = Ok models
    ∧ (loadModels app_gone phone (state_of disk_abn)).1
      = Ok {| downloadedModels := models; isLoading := false |}
    ∧ catalogue_ok phone {| downloadedModels := models; isLoading := false |}
        (loadModels app_gone phone (state_of disk_abn)).2).
Proof.
  assert (listable phone (state_of disk_abn) = true) as H1
    by (vm_compute; reflexivity).
  split; [exact H1|].
  exact (X6_startup_catalogue_agrees phone app_gone (state_of disk_abn) H1).
Defined.

(** X7: when the model directory cannot be listed, [loadModels] still
    succeeds and clears the loading flag, but the catalogue it leaves is
    empty, whatever it held before and whatever is on disk; the only log
    entry is the one of the scan. *)
Theorem X7_startup_unlistable_empties_catalogue (env : Env) (app : AppState)
    (s : State) :
  listable env s = false →
  loadModels app env s
  = (Ok {| downloadedModels := []; isLoading := false |},
     add_event (ConsoleError "Error reading models directory:"
                  (ErrIO "readDir" (getModelsDirectory env)))
       (ensured env s)).
Proof.
  intros Hl. rewrite loadModels_eval, getDownloadedModels_total, Hl. reflexivity.
Qed.

Lemma X7_startup_unlistable_empties_catalogue_witness :
  (listable phone (state_of disk_blocked) = false)
  ∧
  (loadModels app_gone phone (state_of disk_blocked)
  = (Ok {| downloadedModels := []; isLoading := false |},
     add_event (ConsoleError "Error reading models directory:"
                  (ErrIO "readDir" (getModelsDirectory phone)))
       (ensured phone (state_of disk_blocked)))).
Proof.
  assert (listable phone (state_of disk_blocked) = false) as H1
    by (vm_compute; reflexivity).
  split; [exact H1|].
  exact (X7_startup_unlistable_empties_catalogue phone app_gone (state_of disk_blocked) H1).
Defined.

(** ** Removal, repeated *)



(** The removal of the subdirectory [x.gguf], run: the file inside it goes
    with it, the models next to it stay. *)
Example delete_directory_with_content :
  files (deleteGGUFModel "/sdcard/app/gguf-models/x.gguf" phone state_nested).2
  = disk_abn
  ∧ files state_nested !! "/sdcard/app/gguf-models/x.gguf/y.gguf" = Some (regular 7).
Proof. split; vm_compute; reflexivity. Qed.

(** X9: a removal that raises changes nothing but the log: the disk and the
    id supply are as before, and the one new log entry holds the very error
    that is raised. *)
Theorem X9_failed_delete_only_logs (modelPath : string) (env : Env) (s : State)
    (error : Error) :
  (deleteGGUFModel modelPath env s).1 = Throw error →
  (deleteGGUFModel modelPath env s).2
  = add_event (ConsoleError "Error deleting model:" error) s.
Proof.
  rewrite deleteGGUFModel_eval.
  destruct (files s !! modelPath); [destruct (bool_decide _)|]; simpl;
    try discriminate; now intros [= <-].
Qed.

Lemma X9_failed_delete_only_logs_witness :
  ((deleteGGUFModel "/sdcard/app/gguf-models/gone.gguf" phone (state_of disk_abn)).1 = Throw (Err "Model file at /sdcard/app/gguf-models/gone.gguf does not exist"))
  ∧
  ((deleteGGUFModel "/sdcard/app/gguf-models/gone.gguf" phone (state_of disk_abn)).2
  = add_event (ConsoleError "Error deleting model:" (Err "Model file at /sdcard/app/gguf-models/gone.gguf does not exist")) (state_of disk_abn)).
Proof.
  assert ((deleteGGUFModel "/sdcard/app/gguf-models/gone.gguf" phone (state_of disk_abn)).1 = Throw (Err "Model file at /sdcard/app/gguf-models/gone.gguf does not exist")) as H1
    by (vm_compute; reflexivity).
  split; [exact H1|].
  exact (X9_failed_delete_only_logs "/sdcard/app/gguf-models/gone.gguf" phone (state_of disk_abn) (Err "Model file at /sdcard/app/gguf-models/gone.gguf does not exist") H1).
Defined.

(** ** The download, in full *)

(** Everything a successful download tells. *)
Lemma downloadGGUFModel_Ok (url modelName : string) (env : Env) (s : State)
    (model : Model) :
  (downloadGGUFModel url modelName env s).1 = Ok model →
  files s !! destPath env modelName = None
  ∧ t_end (remote env url) = Resolved 200
  ∧ t_body (remote env url) = Some (chunks_of (remote env url))
  ∧ model = {| id := uuid_next s; name := modelName; path := destPath env modelName;
               size := total (chunks_of (remote env url));
               dateDownloaded := now env |}
  ∧ (downloadGGUFModel url modelName env s).2
    = {| files := <[destPath env modelName
                    := regular (total (chunks_of (remote env url)))]>
                    (files (ensured env s));
         uuid_next := N.succ (uuid_next s);
         trace := (trace s
                   ++ HttpGet url (destPath env modelName)
                      :: map Progress
                           (progress_values (t_contentLength (remote env url)) 0 0
                              (chunks_of (remote env url))))%list |}.
Proof.
  rewrite downloadGGUFModel_eval. cbv zeta. rewrite ensured_lookup_destPath.
  destruct (files s !! destPath env modelName) eqn:E; [discriminate|].
  destruct (t_end (remote env url)) as [code|message] eqn:T;
    [|intros H; now apply cleanup_not_Ok in H].
  destruct (Z.eqb_spec code 200) as [->|Hcode];
    [|intros H; now apply cleanup_not_Ok in H].
  rewrite transferred_lookup, ensured_lookup_destPath, E.
  unfold transferred, chunks_of.
  destruct (t_body (remote env url)) as [chunks|] eqn:B; [|discriminate].
  simpl. intros [= <-].
  rewrite ensured_uuid_next, ensured_trace. auto.
Qed.

Lemma cleanup_lookup_ne {A} (toFile : string) (error : Error) (env : Env)
    (s : State) (p : string) :
  is_directory (files s) toFile = false →
  p ≠ toFile → files (cleanup (A:=A) toFile error env s).2 !! p = files s !! p.
Proof.
  intros Hfile Hp. unfold cleanup.
  destruct (files s !! toFile); [destruct (bool_decide _)|]; simpl;
    try reflexivity.
  rewrite removed_file by exact Hfile. now apply lookup_delete_ne.
Qed.

(** What a transfer leaves under a destination that was free is no
    directory. *)
Lemma transferred_not_directory (url dest : string) (t : Transfer) (s : State) :
  files s !! dest = None → is_directory (files (transferred url dest t s)) dest = false.
Proof.
  intros Hfree. unfold is_directory. rewrite transferred_lookup.
  destruct (t_body t); [reflexivity | now rewrite Hfree].
Qed.

(** X10: whatever a download does, and however it ends, it touches at most
    two paths: its destination and the model directory.  Every other path,
    the files of the other models included, holds afterwards what it held
    before. *)
Theorem X10_download_touches_only_destination
    (url modelName : string) (env : Env) (s : State) (p : string) :
  p ≠ destPath env modelName →
  p ≠ getModelsDirectory env →
  files (downloadGGUFModel url modelName env s).2 !! p = files s !! p.
Proof.
  intros Hdest Hdir. rewrite downloadGGUFModel_eval. cbv zeta.
  rewrite <- (ensured_lookup env s p Hdir).
  destruct (files (ensured env s) !! destPath env modelName) eqn:Hfree; [reflexivity|].
  rewrite <- (transferred_lookup_ne url (destPath env modelName) (remote env url)
                (ensured env s) p Hdest).
  pose proof (transferred_not_directory url _ (remote env url) _ Hfree) as Hfile.
  destruct (t_end (remote env url)) as [code|message];
    [|now apply cleanup_lookup_ne].
  destruct (code =? 200)%Z; [|now apply cleanup_lookup_ne].
  now destruct (files (transferred _ _ _ _) !! destPath env modelName).
Qed.

Lemma X10_download_touches_only_destination_witness :
  ("/sdcard/app/gguf-models/a.gguf" ≠ destPath (device answer_broken ∅) "model")
  ∧
  ("/sdcard/app/gguf-models/a.gguf" ≠ getModelsDirectory (device answer_broken ∅))
  ∧
  (files (downloadGGUFModel "https://hub/model.gguf" "model" (device answer_broken ∅) (state_of disk_abn)).2 !! "/sdcard/app/gguf-models/a.gguf" = files (state_of disk_abn) !! "/sdcard/app/gguf-models/a.gguf").
Proof.
  assert ("/sdcard/app/gguf-models/a.gguf" ≠ destPath (device answer_broken ∅) "model") as H1
    by (vm_compute; discriminate).
  assert ("/sdcard/app/gguf-models/a.gguf" ≠ getModelsDirectory (device answer_broken ∅)) as H2
    by (vm_compute; discriminate).
  split; [exact H1|].
  split; [exact H2|].
  exact (X10_download_touches_only_destination "https://hub/model.gguf" "model" (device answer_broken ∅) (state_of disk_abn) "/sdcard/app/gguf-models/a.gguf" H1 H2).
Defined.

Lemma transferred_delete (url dest : string) (t : Transfer) (s : State) :
  files s !! dest = None →
  delete dest (files (transferred url dest t s)) = files s.
Proof.
  intros Hfree. unfold transferred.
  destruct (t_body t); simpl; [now apply delete_insert_id | now apply delete_id].
Qed.

Lemma transferred_trace (url dest : string) (t : Transfer) (s : State) :
  trace (transferred url dest t s)
  = (trace s ++ HttpGet url dest
       :: map Progress (progress_values (t_contentLength t) 0 0 (chunks_of t)))%list.
Proof. unfold transferred, chunks_of. now destruct (t_body t). Qed.

Lemma cleanup_trace {A} (toFile : string) (error : Error) (env : Env) (s : State) :
  trace (cleanup (A:=A) toFile error env s).2 = trace s.
Proof.
  unfold cleanup. now destruct (files s !! toFile); [destruct (bool_decide _)|].
Qed.

(** X11: a download that found its name free and then fails leaves the disk
    exactly as it was once the model directory was ensured, and uses no id,
    provided the system does not refuse the removal of what was written. *)
Theorem X11_failed_download_restores_disk
    (url modelName : string) (env : Env) (s : State) (error : Error) :
  files s !! destPath env modelName = None →
  destPath env modelName ∉ unlink_refused env →
  (downloadGGUFModel url modelName env s).1 = Throw error →
  files (downloadGGUFModel url modelName env s).2 = files (ensured env s)
  ∧ uuid_next (downloadGGUFModel url modelName env s).2 = uuid_next s.
Proof.
  intros Hfree Hallowed. rewrite downloadGGUFModel_eval. cbv zeta.
  rewrite <- ensured_lookup_destPath in Hfree. rewrite Hfree.
  set (dest := destPath env modelName) in *.
  set (s1 := transferred url dest (remote env url) (ensured env s)).
  assert (∀ e0 : Error,
            files (cleanup (A:=Model) dest e0 env s1).2 = files (ensured env s)
            ∧ uuid_next (cleanup (A:=Model) dest e0 env s1).2 = uuid_next s) as Hclean.
  { intros e0. unfold s1.
    rewrite (cleanup_transferred url dest _ e0 env _ Hfree Hallowed). simpl.
    now rewrite ensured_uuid_next. }
  destruct (t_end (remote env url)) as [code|message]; [|intros _; apply Hclean].
  destruct (code =? 200)%Z; [|intros _; apply Hclean].
  destruct (files s1 !! dest) eqn:F; simpl; [discriminate|].
  intros _. unfold s1 in *. rewrite transferred_uuid_next, ensured_uuid_next.
  split; [|reflexivity].
  rewrite <- (transferred_delete url dest (remote env url) (ensured env s) Hfree).
  symmetry. now apply delete_id.
Qed.

(** X12: what a download that found its name free returns is decided by
    the answer of the server alone, provided the system does not refuse the
    removal of what was written.  A rejected transfer raises the error of
    the transfer.  A resolved transfer with any status other than 200, a
    success status such as 201 or 206 included, raises
    [Download failed with status code <status>].  Status 200 gives a record
    with a new id, the requested name as it was given, the destination path,
    the size of the whole body and the time of the call; when the library
    resolved without writing a file, the error of [stat] is raised. *)
Theorem X12_download_result_by_answer
    (url modelName : string) (env : Env) (s : State) :
  files s !! destPath env modelName = None →
  destPath env modelName ∉ unlink_refused env →
  (downloadGGUFModel url modelName env s).1
  = match t_end (remote env url) with
    | Rejected message => Throw (ErrTransfer message)
    | Resolved code =>
        if (code =? 200)%Z
        then
          match t_body (remote env url) with
          | Some chunks =>
              Ok {| id := uuid_next s; name := modelName;
                    path := destPath env modelName; size := total chunks;
                    dateDownloaded := now env |}
          | None => Throw (ErrIO "stat" (destPath env modelName))
          end
        else Throw (Err ("Download failed with status code " ++ pretty code))
    end.
Proof.
  intros Hfree Hallowed. rewrite downloadGGUFModel_eval. cbv zeta.
  rewrite ensured_lookup_destPath, Hfree.
  assert (files (ensured env s) !! destPath env modelName = None) as Hfree0
    by now rewrite ensured_lookup_destPath.
  destruct (t_end (remote env url)) as [code|message];
    [|now rewrite (cleanup_transferred _ _ _ _ _ _ Hfree0 Hallowed)].
  destruct (code =? 200)%Z;
    [|now rewrite (cleanup_transferred _ _ _ _ _ _ Hfree0 Hallowed)].
  rewrite transferred_lookup, ensured_lookup_destPath, Hfree.
  unfold transferred.
  destruct (t_body (remote env url)) as [chunks|]; simpl; [|reflexivity].
  now rewrite ensured_uuid_next.
Qed.

(** X13: a download that found its name free issues exactly one request,
    before any call of the progress callback; the calls of the callback
    follow, each with the bytes written so far over the announced length,
    for the chunks the library reports under the divider 1 the download
    asks for (a chunk that changes the whole percentage, or reaches the
    announced length), in the order of the chunks and at most once per
    chunk; the download does nothing else that can be observed: it logs
    nothing and shows nothing, however it ends. *)
Theorem X13_download_one_request_then_progress
    (url modelName : string) (env : Env) (s : State) :
  files s !! destPath env modelName = None →
  ∃ values,
    trace (downloadGGUFModel url modelName env s).2
    = (trace s ++ HttpGet url (destPath env modelName) :: map Progress values)%list
    ∧ values = progress_values (t_contentLength (remote env url)) 0 0
                 (chunks_of (remote env url))
    ∧ values `sublist_of` quotients (t_contentLength (remote env url)) 0
                            (chunks_of (remote env url)).
Proof.
  intros Hfree. eexists. split; [|split; [reflexivity | apply progress_values_sublist]].
  rewrite downloadGGUFModel_eval. cbv zeta.
  rewrite ensured_lookup_destPath, Hfree.
  rewrite <- (ensured_trace env s), <- transferred_trace.
  destruct (t_end (remote env url)) as [code|message]; [|apply cleanup_trace].
  destruct (code =? 200)%Z; [|apply cleanup_trace].
  now destruct (files (transferred _ _ _ _) !! destPath env modelName).
Qed.

Lemma X11_failed_download_restores_disk_witness :
  (files (state_of disk_abn) !! destPath (device answer_broken ∅) "model" = None)
  ∧
  (destPath (device answer_broken ∅) "model" ∉ unlink_refused (device answer_broken ∅))
  ∧
  ((downloadGGUFModel "https://hub/model.gguf" "model" (device answer_broken ∅) (state_of disk_abn)).1 = Throw (ErrTransfer "connection reset"))
  ∧
  (files (downloadGGUFModel "https://hub/model.gguf" "model" (device answer_broken ∅) (state_of disk_abn)).2 = files (ensured (device answer_broken ∅) (state_of disk_abn))
  ∧ uuid_next (downloadGGUFModel "https://hub/model.gguf" "model" (device answer_broken ∅) (state_of disk_abn)).2 = uuid_next (state_of disk_abn)).
Proof.
  assert (files (state_of disk_abn) !! destPath (device answer_broken ∅) "model" = None) as H1
    by (vm_compute; reflexivity).
  assert (destPath (device answer_broken ∅) "model" ∉ unlink_refused (device answer_broken ∅)) as H2
    by (simpl; apply not_elem_of_empty).
  assert ((downloadGGUFModel "https://hub/model.gguf" "model" (device answer_broken ∅) (state_of disk_abn)).1 = Throw (ErrTransfer "connection reset")) as H3
    by (vm_compute; reflexivity).
  split; [exact H1|].
  split; [exact H2|].
  split; [exact H3|].
  exact (X11_failed_download_restores_disk "https://hub/model.gguf" "model" (device answer_broken ∅) (state_of disk_abn) (ErrTransfer "connection reset") H1 H2 H3).
Defined.

Lemma X12_download_result_by_answer_witness :
  (files (state_of disk_abn) !! destPath (device answer_206 ∅) "model" = None)
  ∧
  (destPath (device answer_206 ∅) "model" ∉ unlink_refused (device answer_206 ∅))
  ∧
  ((downloadGGUFModel "https://hub/model.gguf" "model" (device answer_206 ∅) (state_of disk_abn)).1
  = match t_end (remote (device answer_206 ∅) "https://hub/model.gguf") with
    | Rejected message => Throw (ErrTransfer message)
    | Resolved code =>
        if (code =? 200)%Z
        then
          match t_body (remote (device answer_206 ∅) "https://hub/model.gguf") with
          | Some chunks =>
              Ok {| id := uuid_next (state_of disk_abn); name := "model";
                    path := destPath (device answer_206 ∅) "model"; size := total chunks;
                    dateDownloaded := now (device answer_206 ∅) |}
          | None => Throw (ErrIO "stat" (destPath (device answer_206 ∅) "model"))
          end
        else Throw (Err ("Download failed with status code " ++ pretty code))
    end).
Proof.
  assert (files (state_of disk_abn) !! destPath (device answer_206 ∅) "model" = None) as H1
    by (vm_compute; reflexivity).
  assert (destPath (device answer_206 ∅) "model" ∉ unlink_refused (device answer_206 ∅)) as H2
    by (simpl; apply not_elem_of_empty).
  split; [exact H1|].
  split; [exact H2|].
  exact (X12_download_result_by_answer "https://hub/model.gguf" "model" (device answer_206 ∅) (state_of disk_abn) H1 H2).
Defined.

Lemma X13_download_one_request_then_progress_witness :
  (files (state_of disk_abn) !! destPath (device answer_small_chunks ∅) "model" = None)
  ∧
  (∃ values,
    trace (downloadGGUFModel "https://hub/model.gguf" "model"
             (device answer_small_chunks ∅) (state_of disk_abn)).2
    = (trace (state_of disk_abn)
       ++ HttpGet "https://hub/model.gguf" (destPath (device answer_small_chunks ∅) "model")
          :: map Progress values)%list
    ∧ values = progress_values
                 (t_contentLength (remote (device answer_small_chunks ∅)
                                     "https://hub/model.gguf")) 0 0
                 (chunks_of (remote (device answer_small_chunks ∅)
                               "https://hub/model.gguf"))
    ∧ values `sublist_of`
        quotients (t_contentLength (remote (device answer_small_chunks ∅)
                                      "https://hub/model.gguf")) 0
          (chunks_of (remote (device answer_small_chunks ∅) "https://hub/model.gguf"))).
Proof.
  assert (files (state_of disk_abn) !! destPath (device answer_small_chunks ∅) "model"
          = None) as H1
    by (vm_compute; reflexivity).
  split; [exact H1|].
  exact (X13_download_one_request_then_progress "https://hub/model.gguf" "model"
           (device answer_small_chunks ∅) (state_of disk_abn) H1).
Defined.

(** Chunks of 2, 3, 595 and 400 bytes of 1000: the first chunk stays below
    half a percent and is not reported; the callback sees 0.005, 0.6
    and 1. *)
Example download_small_chunks :
  trace (downloadGGUFModel "https://hub/model.gguf" "model"
           (device answer_small_chunks ∅) (state_of disk_abn)).2
  = [HttpGet "https://hub/model.gguf" "/sdcard/app/gguf-models/model.gguf";
     Progress (JS.Finite (5 # 1000)); Progress (JS.Finite (600 # 1000));
     Progress (JS.Finite (1000 # 1000))].
Proof. vm_compute. reflexivity. Qed.

(** Status 206 on the sample device: the body is removed and the error
    names the status. *)
Example download_status_206 :
  (downloadGGUFModel "https://hub/model.gguf" "model" (device answer_206 ∅)
     (state_of disk_abn)).1
  = Throw (Err "Download failed with status code 206")
  ∧ files (downloadGGUFModel "https://hub/model.gguf" "model" (device answer_206 ∅)
             (state_of disk_abn)).2 !! "/sdcard/app/gguf-models/model.gguf" = None.
Proof. split; vm_compute; reflexivity. Qed.

(** ** A download, followed by another operation *)

Lemma downloaded_ensured (url modelName : string) (env : Env) (s : State)
    (model : Model) :
  (downloadGGUFModel url modelName env s).1 = Ok model →
  ensured env (downloadGGUFModel url modelName env s).2
  = (downloadGGUFModel url modelName env s).2
  ∧ files (downloadGGUFModel url modelName env s).2 !! getModelsDirectory env
    = files (ensured env s) !! getModelsDirectory env.
Proof.
  intros Hok. destruct (downloadGGUFModel_Ok _ _ _ _ _ Hok) as [_ [_ [_ [_ Hs]]]].
  rewrite Hs.
  assert (files {| files := <[destPath env modelName
                              := regular (total (chunks_of (remote env url)))]>
                              (files (ensured env s));
                   uuid_next := N.succ (uuid_next s);
                   trace := (trace s
                             ++ HttpGet url (destPath env modelName)
                                :: map Progress
                                     (progress_values (t_contentLength (remote env url))
                                        0 0 (chunks_of (remote env url))))%list |}
            !! getModelsDirectory env
          = files (ensured env s) !! getModelsDirectory env) as Hdir.
  { simpl. apply lookup_insert_ne. apply destPath_not_directory. }
  split; [|exact Hdir].
  apply ensured_idem. rewrite Hdir. apply ensured_directory.
Qed.

Lemma substring_app_l (a b : string) (k m : nat) :
  (k + m <= String.length a)%nat → substring k m (a ++ b) = substring k m a.
Proof.
  revert k m. induction a as [|x a IH]; intros k m H.
  - simpl in H. assert (k = 0 ∧ m = 0)%nat as [-> ->] by lia.
    simpl. now rewrite substring_nothing.
  - rewrite str_app_cons. destruct k as [|k]; simpl.
    + destruct m as [|m]; [reflexivity|]. f_equal. apply (IH 0%nat). simpl in H. lia.
    + apply IH. simpl in H. lia.
Qed.

Lemma not_endsWith_of_no_occurrence (n : string) :
  index 0 ".gguf" n = None → JS.endsWith n ".gguf" = false.
Proof.
  intros Hidx. destruct (JS.endsWith n ".gguf") eqn:E; [|reflexivity].
  apply endsWith_iff in E as [p ->].
  exfalso. apply (index_correct3 0 (String.length p) _ _ Hidx); [discriminate | lia|].
  apply substring_skip_app.
Qed.

Lemma index_appended_extension (n : string) :
  index 0 ".gguf" n = None →
  index 0 ".gguf" (n ++ ".gguf") = Some (String.length n).
Proof.
  intros Hidx.
  pose proof (substring_skip_app n ".gguf") as Hend.
  destruct (index 0 ".gguf" (n ++ ".gguf")) as [m|] eqn:I.
  - f_equal.
    pose proof (index_correct1 _ _ _ _ I) as Hocc.
    pose proof (index_correct2 _ _ _ _ I) as Hmin.
    destruct (Nat.lt_trichotomy m (String.length n)) as [Hlt|[Heq|Hgt]];
      [|exact Heq|].
    + exfalso.
      destruct (Nat.le_gt_cases (m + 5) (String.length n)) as [Hin|Hover].
      * apply (index_correct3 0 m _ _ Hidx); [discriminate | lia|].
        rewrite <- Hocc at 2. symmetry. now apply substring_app_l.
      * pose proof (append_correct2 n ".gguf" 0) as Hdot. simpl in Hdot.
        assert (∃ k, (1 <= k < 5)%nat ∧ (k + m = String.length n)%nat) as [k [Hk Hkm]]
          by (exists (String.length n - m)%nat; lia).
        pose proof (substring_correct1 (n ++ ".gguf") m 5 k ltac:(lia)) as Hget.
        change (String.length ".gguf") with 5%nat in Hocc.
        rewrite Hocc, Hkm, <- Hdot in Hget.
        destruct k as [|[|[|[|[|k]]]]]; try lia; discriminate.
    + exfalso. apply (Hmin (String.length n)); [lia | exact Hgt | exact Hend].
  - exfalso. apply (index_correct3 0 (String.length n) _ _ I); [discriminate | lia|].
    exact Hend.
Qed.

Lemma replace_appended_extension (n : string) :
  index 0 ".gguf" n = None → JS.replace (n ++ ".gguf") ".gguf" EmptyString = n.
Proof.
  intros Hidx. unfold JS.replace. rewrite (index_appended_extension n Hidx).
  rewrite str_app_length. simpl String.length.
  rewrite Nat.sub_diag, substring_nothing, str_app_nil_l, str_app_nil_r.
  apply substring_prefix_app.
Qed.

(** X14: a model that was downloaded under a name without [/] is found by
    the next scan, when the model directory can be listed: the scan returns a
    record with the path and the size of the downloaded record.  Its id is
    another one, and its name is the stored file name with the first [.gguf]
    removed: the name the download was asked for, when that holds no
    [.gguf]. *)
Theorem X14_download_then_scan
    (url modelName : string) (env : Env) (s : State) (model : Model) :
  (downloadGGUFModel url modelName env s).1 = Ok model →
  flat_name modelName = true →
  listable env s = true →
  ∃ models listed,
    (getDownloadedModels env (downloadGGUFModel url modelName env s).2).1 = Ok models
    ∧ listed ∈ models
    ∧ path listed = path model
    ∧ size listed = size model
    ∧ name listed = JS.replace (sanitizedModelName modelName) ".gguf" EmptyString
    ∧ id listed ≠ id model
    ∧ (index 0 ".gguf" modelName = None → name listed = name model).
Proof.
  intros Hok Hflat Hl.
  destruct (downloaded_ensured _ _ _ _ _ Hok) as [Hens Hdir].
  destruct (downloadGGUFModel_Ok _ _ _ _ _ Hok) as [_ [_ [_ [Hmodel Hs]]]].
  assert (listable env (downloadGGUFModel url modelName env s).2 = true) as Hl'.
  { unfold listable in *. now rewrite Hens, Hdir. }
  rewrite getDownloadedModels_total, Hl'. cbv zeta. rewrite Hens.
  set (s' := (downloadGGUFModel url modelName env s).2) in *.
  set (file := {| RNFS.item_name := sanitizedModelName modelName;
                  RNFS.item_path := destPath env modelName;
                  RNFS.item_size := total (chunks_of (remote env url));
                  RNFS.item_isFile := true |}).
  assert (In file (recognized (omap (RNFS.item_of (getModelsDirectory env))
                                 (map_to_list (files s'))))) as Hin.
  { apply recognized_listing_In.
    exists (regular (total (chunks_of (remote env url)))). simpl.
    split; [rewrite Hs; simpl; apply lookup_insert_eq|].
    split; [|apply sanitizedModelName_endsWith].
    unfold RNFS.item_of, destPath. simpl.
    unfold flat_name in Hflat.
    destruct (index 0 "/" (sanitizedModelName modelName)) eqn:I; [discriminate|].
    now rewrite child_name_app by (apply sanitizedModelName_not_empty || exact I). }
  destruct (records_from_covers (uuid_next s') (now env) _ _ Hin)
    as [m [Hm [Hpath [Hsize Hname]]]].
  do 2 eexists. split; [reflexivity|].
  split; [apply list_elem_of_In; exact Hm|].
  subst model. simpl.
  split; [exact Hpath|]. split; [exact Hsize|]. split; [exact Hname|].
  split.
  - apply records_from_ids in Hm. rewrite Hs in Hm. simpl in Hm. lia.
  - intros Hplain. rewrite Hname. simpl. unfold sanitizedModelName.
    rewrite (not_endsWith_of_no_occurrence modelName Hplain).
    now apply replace_appended_extension.
Qed.

(** X15: after a successful download, a further download under any name
    that is stored under the same file name (the same name, or the name with
    [.gguf] added) raises the "already exists" error at once and changes
    nothing, whatever the URL. *)
Theorem X15_second_download_collides
    (url url' modelName modelName' : string) (env : Env) (s : State) (model : Model) :
  (downloadGGUFModel url modelName env s).1 = Ok model →
  sanitizedModelName modelName' = sanitizedModelName modelName →
  downloadGGUFModel url' modelName' env (downloadGGUFModel url modelName env s).2
  = (Throw (Err ("A model with the name " ++ sanitizedModelName modelName
                   ++ " already exists")),
     (downloadGGUFModel url modelName env s).2).
Proof.
  intros Hok Hsame.
  destruct (downloaded_ensured _ _ _ _ _ Hok) as [Hens _].
  destruct (downloadGGUFModel_Ok _ _ _ _ _ Hok) as [_ [_ [_ [_ Hs]]]].
  rewrite downloadGGUFModel_eval. cbv zeta. rewrite Hens.
  assert (destPath env modelName' = destPath env modelName) as ->
    by (unfold destPath; now rewrite Hsame).
  rewrite Hsame. rewrite Hs at 1. simpl. now rewrite lookup_insert_eq.
Qed.

(** X16: removing the file of a record that a download has just returned
    succeeds and gives back the disk as it was once the model directory was
    ensured, provided the system does not refuse the removal. *)
Theorem X16_download_then_delete
    (url modelName : string) (env : Env) (s : State) (model : Model) :
  (downloadGGUFModel url modelName env s).1 = Ok model →
  path model ∉ unlink_refused env →
  (deleteGGUFModel (path model) env (downloadGGUFModel url modelName env s).2).1
  = Ok true
  ∧ files (deleteGGUFModel (path model) env
             (downloadGGUFModel url modelName env s).2).2
    = files (ensured env s).
Proof.
  intros Hok Hallowed.
  destruct (downloadGGUFModel_Ok _ _ _ _ _ Hok) as [Hfree [_ [_ [Hmodel Hs]]]].
  rewrite deleteGGUFModel_eval, Hs. subst model. simpl in *.
  rewrite lookup_insert_eq, (bool_decide_eq_false_2 _ Hallowed). simpl.
  split; [reflexivity|].
  apply removed_inserted_file. now rewrite ensured_lookup_destPath.
Qed.

Lemma X14_download_then_scan_witness :
  ((downloadGGUFModel "https://hub/model.gguf" "model" phone (state_of disk_abn)).1 = Ok model_1000)
  ∧
  (flat_name "model" = true)
  ∧
  (listable phone (state_of disk_abn) = true)
  ∧
  (∃ models listed,
    (getDownloadedModels phone (downloadGGUFModel "https://hub/model.gguf" "model" phone (state_of disk_abn)).2).1 = Ok models
    ∧ listed ∈ models
    ∧ path listed = path model_1000
    ∧ size listed = size model_1000
    ∧ name listed = JS.replace (sanitizedModelName "model") ".gguf" EmptyString
    ∧ id listed ≠ id model_1000
    ∧ (index 0 ".gguf" "model" = None → name listed = name model_1000)).
Proof.
  assert ((downloadGGUFModel "https://hub/model.gguf" "model" phone (state_of disk_abn)).1 = Ok model_1000) as H1
    by (vm_compute; reflexivity).
  assert (flat_name "model" = true) as H2
    by (vm_compute; reflexivity).
  assert (listable phone (state_of disk_abn) = true) as H3
    by (vm_compute; reflexivity).
  split; [exact H1|].
  split; [exact H2|].
  split; [exact H3|].
  exact (X14_download_then_scan "https://hub/model.gguf" "model" phone (state_of disk_abn) model_1000 H1 H2 H3).
Defined.

Lemma X15_second_download_collides_witness :
  ((downloadGGUFModel "https://hub/model.gguf" "model" phone (state_of disk_abn)).1 = Ok model_1000)
  ∧
  (sanitizedModelName "model.gguf" = sanitizedModelName "model")
  ∧
  (downloadGGUFModel "https://mirror/other.gguf" "model.gguf" phone (downloadGGUFModel "https://hub/model.gguf" "model" phone (state_of disk_abn)).2
  = (Throw (Err ("A model with the name " ++ sanitizedModelName "model"
                   ++ " already exists")),
     (downloadGGUFModel "https://hub/model.gguf" "model" phone (state_of disk_abn)).2)).
Proof.
  assert ((downloadGGUFModel "https://hub/model.gguf" "model" phone (state_of disk_abn)).1 = Ok model_1000) as H1
    by (vm_compute; reflexivity).
  assert (sanitizedModelName "model.gguf" = sanitizedModelName "model") as H2
    by (vm_compute; reflexivity).
  split; [exact H1|].
  split; [exact H2|].
  exact (X15_second_download_collides "https://hub/model.gguf" "https://mirror/other.gguf" "model" "model.gguf" phone (state_of disk_abn) model_1000 H1 H2).
Defined.

Lemma X16_download_then_delete_witness :
  ((downloadGGUFModel "https://hub/model.gguf" "model" phone (state_of disk_abn)).1 = Ok model_1000)
  ∧
  (path model_1000 ∉ unlink_refused phone)
  ∧
  ((deleteGGUFModel (path model_1000) phone (downloadGGUFModel "https://hub/model.gguf" "model" phone (state_of disk_abn)).2).1
  = Ok true
  ∧ files (deleteGGUFModel (path model_1000) phone
             (downloadGGUFModel "https://hub/model.gguf" "model" phone (state_of disk_abn)).2).2
    = files (ensured phone (state_of disk_abn))).
Proof.
  assert ((downloadGGUFModel "https://hub/model.gguf" "model" phone (state_of disk_abn)).1 = Ok model_1000) as H1
    by (vm_compute; reflexivity).
  assert (path model_1000 ∉ unlink_refused phone) as H2
    by (simpl; apply not_elem_of_empty).
  split; [exact H1|].
  split; [exact H2|].
  exact (X16_download_then_delete "https://hub/model.gguf" "model" phone (state_of disk_abn) model_1000 H1 H2).
Defined.

(** ** The handlers of the catalogue *)

Lemma filter_other_ids (models : list Model) (model : Model) :
  (∀ m, m ∈ models → id m ≠ id model) →
  filter (fun m => id m ≠ id model) models = models.
Proof.
  induction models as [|m rest IH]; intros H; [reflexivity|].
  rewrite filter_cons_True by (apply H, list_elem_of_here).
  f_equal. apply IH. intros m' Hm'. apply H. now apply list_elem_of_further.
Qed.

Lemma filter_appended (models : list Model) (model : Model) :
  (∀ m, m ∈ models → id m ≠ id model) →
  filter (fun m => id m ≠ id model) (models ++ [model])%list = models.
Proof.
  intros H. rewrite filter_app, (filter_other_ids models model H).
  rewrite filter_cons_False by (intros Hne; now apply Hne).
  rewrite filter_nil. apply app_nil_r.
Qed.

(** X17: when the ids of the listed records were all handed out before,
    adding the record of a successful download to the catalogue and then
    removing that record gives back the catalogue as it was, and the disk as
    it was once the model directory was ensured, provided the system does
    not refuse the removal. *)
Theorem X17_add_then_remove_restores_catalogue
    (url modelName : string) (env : Env) (app : AppState) (s : State) (model : Model) :
  ids_issued app s →
  (downloadGGUFModel url modelName env s).1 = Ok model →
  path model ∉ unlink_refused env →
  (handleModelDelete model (handleModelDownloaded model app) env
     (downloadGGUFModel url modelName env s).2).1 = Ok app
  ∧ files (handleModelDelete model (handleModelDownloaded model app) env
             (downloadGGUFModel url modelName env s).2).2
    = files (ensured env s).
Proof.
  intros Hiss Hok Hallowed.
  destruct (downloadGGUFModel_Ok _ _ _ _ _ Hok) as [Hfree [_ [_ [Hmodel Hs]]]].
  assert (path model = destPath env modelName) as Hp by now rewrite Hmodel.
  assert (id model = uuid_next s) as Hid by now rewrite Hmodel.
  rewrite handleModelDelete_eval, deleteGGUFModel_eval, Hs, Hp in *. simpl.
  rewrite lookup_insert_eq, (bool_decide_eq_false_2 _ Hallowed). simpl.
  split.
  - f_equal. destruct app as [models loading].
    unfold setDownloadedModels, handleModelDownloaded. simpl.
    f_equal. apply filter_appended. intros m Hm.
    specialize (Hiss m Hm). simpl in Hiss. lia.
  - apply removed_inserted_file. now rewrite ensured_lookup_destPath.
Qed.

(** X18: the download form refuses an empty URL and a URL that does not end
    in [.gguf] before anything else happens: one error alert is shown (for
    the empty URL the one that asks for a URL), and the catalogue, the disk
    and the id supply are as before; nothing is requested from the network. *)
Theorem X18_handleDownload_rejects_bad_url
    (url modelName : string) (app : AppState) (env : Env) (s : State) :
  JS.truthy url = false ∨ JS.endsWith url ".gguf" = false →
  (handleDownload url modelName app env s).1 = Ok app
  ∧ files (handleDownload url modelName app env s).2 = files s
  ∧ uuid_next (handleDownload url modelName app env s).2 = uuid_next s
  ∧ trace (handleDownload url modelName app env s).2
    = (trace s
       ++ [Alert "Error" (if JS.truthy url
                          then "URL must point to a GGUF file"
                          else "Please enter a URL")])%list.
Proof.
  intros Hbad. rewrite handleDownload_eval.
  destruct (JS.truthy url) eqn:T; simpl; [|auto].
  destruct Hbad as [Hbad|Hbad]; [discriminate|].
  rewrite Hbad. simpl. auto.
Qed.

(** X19: for a URL that passes the checks of the form, [handleDownload]
    runs the download once, under the name of the form, or under
    [unnamed-model] when that name is empty; it never throws and the last
    thing it does is to show one alert that tells how the download ended.
    When the download returned a record, the alert is [Success] and names
    that record, the catalogue is the old one with that record added at the
    end, and the file of the record is on disk with the size the record
    states.  When the download threw, the alert is [Error] and carries the
    text of the error that was thrown, and the catalogue is the old one. *)
Theorem X19_handleDownload_alert_tells_outcome
    (url modelName : string) (app : AppState) (env : Env) (s : State) :
  JS.truthy url = true →
  JS.endsWith url ".gguf" = true →
  ∃ app' title message,
    (handleDownload url modelName app env s).1 = Ok app'
    ∧ files (handleDownload url modelName app env s).2
      = files (downloadGGUFModel url (JS.or_else modelName "unnamed-model") env s).2
    ∧ uuid_next (handleDownload url modelName app env s).2
      = uuid_next (downloadGGUFModel url (JS.or_else modelName "unnamed-model") env s).2
    ∧ trace (handleDownload url modelName app env s).2
      = (trace (downloadGGUFModel url (JS.or_else modelName "unnamed-model") env s).2
         ++ [Alert title message])%list
    ∧ match (downloadGGUFModel url (JS.or_else modelName "unnamed-model") env s).1 with
      | Ok model =>
          title = "Success"
          ∧ message = "Successfully downloaded " ++ name model
          ∧ downloadedModels app' = (downloadedModels app ++ [model])%list
          ∧ isLoading app' = isLoading app
          ∧ files (handleDownload url modelName app env s).2 !! path model
            = Some (regular (size model))
      | Throw error =>
          title = "Error"
          ∧ message = "Failed to download model: " ++ error_text error
          ∧ app' = app
      end.
Proof.
  intros Hurl Hext. rewrite handleDownload_eval, Hurl, Hext. cbv zeta. simpl negb.
  cbv iota.
  destruct ((downloadGGUFModel url (JS.or_else modelName "unnamed-model") env s).1)
    as [model|error] eqn:Hd.
  - do 3 eexists. repeat (split; [reflexivity|]).
    destruct (downloadGGUFModel_Ok _ _ _ _ _ Hd) as [_ [_ [_ [Hmodel Hs]]]].
    simpl. rewrite Hs, Hmodel. simpl. apply lookup_insert_eq.
  - do 3 eexists. repeat split; reflexivity.
Qed.

Lemma X19_handleDownload_alert_tells_outcome_witness :
  JS.truthy "https://hub/model.gguf" = true
  ∧ JS.endsWith "https://hub/model.gguf" ".gguf" = true
  ∧ ∃ app' title message,
    (handleDownload "https://hub/model.gguf" EmptyString app_ab phone state_scanned).1
    = Ok app'
    ∧ files (handleDownload "https://hub/model.gguf" EmptyString app_ab phone
               state_scanned).2
      = files (downloadGGUFModel "https://hub/model.gguf"
                 (JS.or_else EmptyString "unnamed-model") phone state_scanned).2
    ∧ uuid_next (handleDownload "https://hub/model.gguf" EmptyString app_ab phone
                   state_scanned).2
      = uuid_next (downloadGGUFModel "https://hub/model.gguf"
                     (JS.or_else EmptyString "unnamed-model") phone state_scanned).2
    ∧ trace (handleDownload "https://hub/model.gguf" EmptyString app_ab phone
               state_scanned).2
      = (trace (downloadGGUFModel "https://hub/model.gguf"
                  (JS.or_else EmptyString "unnamed-model") phone state_scanned).2
         ++ [Alert title message])%list
    ∧ match (downloadGGUFModel "https://hub/model.gguf"
               (JS.or_else EmptyString "unnamed-model") phone state_scanned).1 with
      | Ok model =>
          title = "Success"
          ∧ message = "Successfully downloaded " ++ name model
          ∧ downloadedModels app' = (downloadedModels app_ab ++ [model])%list
          ∧ isLoading app' = isLoading app_ab
          ∧ files (handleDownload "https://hub/model.gguf" EmptyString app_ab phone
                     state_scanned).2 !! path model
            = Some (regular (size model))
      | Throw error =>
          title = "Error"
          ∧ message = "Failed to download model: " ++ error_text error
          ∧ app' = app_ab
      end.
Proof.
  assert (JS.truthy "https://hub/model.gguf" = true) as H1
    by (vm_compute; reflexivity).
  assert (JS.endsWith "https://hub/model.gguf" ".gguf" = true) as H2
    by (vm_compute; reflexivity).
  split; [exact H1 | split; [exact H2|]].
  exact (X19_handleDownload_alert_tells_outcome "https://hub/model.gguf" EmptyString
           app_ab phone state_scanned H1 H2).
Defined.

(** The form with an empty name, run after the scan: the download is
    stored as [unnamed-model.gguf] and the alert names [unnamed-model]. *)
Example handleDownload_unnamed :
  (handleDownload "https://hub/model.gguf" EmptyString app_ab phone state_scanned).1
  = Ok {| downloadedModels :=
            [record_a; record_b;
             {| id := 2; name := "unnamed-model";
                path := "/sdcard/app/gguf-models/unnamed-model.gguf";
                size := 1000; dateDownloaded := 1700000000 |}];
          isLoading := false |}
  ∧ last (trace (handleDownload "https://hub/model.gguf" EmptyString app_ab phone
                   state_scanned).2)
    = Some (Alert "Success" "Successfully downloaded unnamed-model").
Proof. split; vm_compute; reflexivity. Qed.

(** X20: when the removal of the file raises, [handleModelDelete] does not
    throw: the catalogue, the disk and the id supply stay as they are, and
    the error is logged twice, first by the removal and then by the
    handler. *)
Theorem X20_handleModelDelete_failure_keeps_catalogue
    (model : Model) (app : AppState) (env : Env) (s : State) (error : Error) :
  (deleteGGUFModel (path model) env s).1 = Throw error →
  handleModelDelete model app env s
  = (Ok app,
     add_event (ConsoleError "Failed to delete model:" error)
       (add_event (ConsoleError "Error deleting model:" error) s)).
Proof.
  rewrite handleModelDelete_eval, deleteGGUFModel_eval.
  destruct (files s !! path model); [destruct (bool_decide _)|]; simpl;
    try discriminate; now intros [= <-].
Qed.


Lemma X17_add_then_remove_restores_catalogue_witness :
  (ids_issued app_ab state_scanned)
  ∧
  ((downloadGGUFModel "https://hub/model.gguf" "model" phone state_scanned).1 = Ok model_third)
  ∧
  (path model_third ∉ unlink_refused phone)
  ∧
  ((handleModelDelete model_third (handleModelDownloaded model_third app_ab) phone
     (downloadGGUFModel "https://hub/model.gguf" "model" phone state_scanned).2).1 = Ok app_ab
  ∧ files (handleModelDelete model_third (handleModelDownloaded model_third app_ab) phone
             (downloadGGUFModel "https://hub/model.gguf" "model" phone state_scanned).2).2
    = files (ensured phone state_scanned)).
Proof.
  assert (ids_issued app_ab state_scanned) as H1
    by (intros m Hm; simpl in Hm;
        repeat (apply elem_of_cons in Hm as [->|Hm]; [vm_compute; reflexivity|]);
        now apply elem_of_nil in Hm).
  assert ((downloadGGUFModel "https://hub/model.gguf" "model" phone state_scanned).1 = Ok model_third) as H2
    by (vm_compute; reflexivity).
  assert (path model_third ∉ unlink_refused phone) as H3
    by (simpl; apply not_elem_of_empty).
  split; [exact H1|].
  split; [exact H2|].
  split; [exact H3|].
  exact (X17_add_then_remove_restores_catalogue "https://hub/model.gguf" "model" phone app_ab state_scanned model_third H1 H2 H3).
Defined.

Lemma X18_handleDownload_rejects_bad_url_witness :
  (JS.truthy "https://hub/model.bin" = false ∨ JS.endsWith "https://hub/model.bin" ".gguf" = false)
  ∧
  ((handleDownload "https://hub/model.bin" "model" app_ab phone state_scanned).1 = Ok app_ab
  ∧ files (handleDownload "https://hub/model.bin" "model" app_ab phone state_scanned).2 = files state_scanned
  ∧ uuid_next (handleDownload "https://hub/model.bin" "model" app_ab phone state_scanned).2 = uuid_next state_scanned
  ∧ trace (handleDownload "https://hub/model.bin" "model" app_ab phone state_scanned).2
    = (trace state_scanned
       ++ [Alert "Error" (if JS.truthy "https://hub/model.bin"
                          then "URL must point to a GGUF file"
                          else "Please enter a URL")])%list).
Proof.
  assert (JS.truthy "https://hub/model.bin" = false ∨ JS.endsWith "https://hub/model.bin" ".gguf" = false) as H1
    by (right; vm_compute; reflexivity).
  split; [exact H1|].
  exact (X18_handleDownload_rejects_bad_url "https://hub/model.bin" "model" app_ab phone state_scanned H1).
Defined.

Lemma X20_handleModelDelete_failure_keeps_catalogue_witness :
  ((deleteGGUFModel (path record_gone) phone (state_of disk_abn)).1 = Throw (Err "Model file at /sdcard/app/gguf-models/gone.gguf does not exist"))
  ∧
  (handleModelDelete record_gone app_gone phone (state_of disk_abn)
  = (Ok app_gone,
     add_event (ConsoleError "Failed to delete model:" (Err "Model file at /sdcard/app/gguf-models/gone.gguf does not exist"))
       (add_event (ConsoleError "Error deleting model:" (Err "Model file at /sdcard/app/gguf-models/gone.gguf does not exist")) (state_of disk_abn)))).
Proof.
  assert ((deleteGGUFModel (path record_gone) phone (state_of disk_abn)).1 = Throw (Err "Model file at /sdcard/app/gguf-models/gone.gguf does not exist")) as H1
    by (vm_compute; reflexivity).
  split; [exact H1|].
  exact (X20_handleModelDelete_failure_keeps_catalogue record_gone app_gone phone (state_of disk_abn) (Err "Model file at /sdcard/app/gguf-models/gone.gguf does not exist") H1).
Defined.


(** The record of the subdirectory [x.gguf], removed: the record goes, and
    on disk the directory goes with the file inside it. *)
Example handleModelDelete_directory_record :
  (handleModelDelete record_x app_abx phone state_nested).1 = Ok app_ab
  ∧ files (handleModelDelete record_x app_abx phone state_nested).2 = disk_abn.
Proof. split; vm_compute; reflexivity. Qed.

(** ** Progress, in general *)

Lemma div_outside_unit (x announced : Z) :
  (0 < x)%Z → (announced <= 0)%Z → JS.in_unit (JS.div x announced) = false.
Proof.
  intros Hx Ha. destruct announced as [|d|d]; [| lia |].
  - destruct x; try lia. reflexivity.
  - unfold JS.in_unit. simpl. apply andb_false_iff. left.
    destruct (Qle_bool 0 (- x # d)) eqn:Q; [|reflexivity].
    apply Qle_bool_iff in Q. unfold Qle in Q. simpl in Q. lia.
Qed.

Lemma progress_values_outside_unit (announced lastProgressValue : Z)
    (chunks : list N) (written : N) :
  (announced <= 0)%Z →
  Forall (fun n => (0 < n)%N) chunks →
  forallb (fun v => negb (JS.in_unit v))
    (progress_values announced lastProgressValue written chunks) = true.
Proof.
  intros Ha Hpos. apply forallb_forall. intros v Hv.
  unfold progress_values in Hv. apply in_map_iff in Hv as [bytes [<- Hin]].
  apply (reports_after _ _ _ _ _ Hpos) in Hin.
  rewrite div_outside_unit by lia. reflexivity.
Qed.

(** The whole percentage when the length is announced. *)
Lemma percentage_announced (bytesWritten contentLength : Z) :
  (0 < contentLength)%Z →
  RNFS.percentage bytesWritten contentLength
  = ((200 * bytesWritten + contentLength) / (2 * contentLength))%Z.
Proof.
  intros Ha. unfold RNFS.percentage.
  destruct (Z.eqb_spec contentLength 0); [lia | reflexivity].
Qed.

Lemma percentage_mono (x y contentLength : Z) :
  (0 < contentLength)%Z → (x <= y)%Z →
  (RNFS.percentage x contentLength <= RNFS.percentage y contentLength)%Z.
Proof.
  intros Ha Hxy. rewrite !percentage_announced by exact Ha.
  apply Z.div_le_mono; lia.
Qed.

Lemma percentage_le_100 (x contentLength : Z) :
  (0 < contentLength)%Z → (x <= contentLength)%Z →
  (RNFS.percentage x contentLength <= 100)%Z.
Proof.
  intros Ha Hx. rewrite percentage_announced by exact Ha.
  apply Z.lt_succ_r. apply Z.div_lt_upper_bound; lia.
Qed.

Lemma percentage_complete (contentLength : Z) :
  (0 < contentLength)%Z → RNFS.percentage contentLength contentLength = 100%Z.
Proof.
  intros Ha. rewrite percentage_announced by exact Ha.
  symmetry. apply (Z.div_unique _ _ _ contentLength); lia.
Qed.

(** The whole percentage when no length is announced: minus a hundred
    times the bytes written. *)
Lemma percentage_unannounced (bytesWritten : Z) :
  RNFS.percentage bytesWritten (-1) = (-100 * bytesWritten)%Z.
Proof.
  unfold RNFS.percentage. simpl Z.eqb. cbv iota.
  symmetry. apply (Z.div_unique _ _ _ (-1)%Z); lia.
Qed.

Lemma total_positive (n : N) (rest : list N) :
  Forall (fun n => (0 < n)%N) (n :: rest) → (0 < total (n :: rest))%N.
Proof. intros H. apply Forall_cons in H as [Hn _]. simpl. lia. Qed.

(** Under the divider 1 a transfer of an announced length is reported at
    most once for each whole percentage above the last one reported, and
    once more when it is complete. *)
Lemma reports_count (announced lastProgressValue : Z) (written : N) (chunks : list N) :
  (0 < announced)%Z →
  Forall (fun n => (0 < n)%N) chunks →
  (Z.of_N (written + total chunks) <= announced)%Z →
  (lastProgressValue <= RNFS.percentage (Z.of_N written) announced)%Z →
  (Z.of_nat (length (reports announced lastProgressValue written chunks))
   <= 101 - lastProgressValue)%Z.
Proof.
  intros Ha Hpos. revert lastProgressValue written.
  induction Hpos as [|n rest Hn Hrest IH]; intros lastProgressValue written Hle Hlast.
  - simpl in *. pose proof (percentage_le_100 (Z.of_N written) announced Ha). lia.
  - simpl in Hle. simpl reports. rewrite throttle_1.
    assert (Z.of_N (written + n + total rest) <= announced)%Z as Hle'
      by now rewrite <- N.add_assoc.
    pose proof (percentage_mono (Z.of_N written) (Z.of_N (written + n)) announced Ha)
      as Hmono.
    destruct (Z.eqb_spec (RNFS.percentage (Z.of_N (written + n)) announced)
                lastProgressValue) as [Hsame|Hnew]; simpl.
    + destruct (Z.eqb_spec (Z.of_N (written + n)) announced) as [Hdone|Hmore].
      * destruct rest as [|n' rest'].
        -- simpl. rewrite <- Hsame, Hdone, percentage_complete by exact Ha. lia.
        -- pose proof (total_positive n' rest' Hrest). lia.
      * apply IH; [exact Hle' | lia].
    + simpl length. rewrite Nat2Z.inj_succ.
      specialize (IH (RNFS.percentage (Z.of_N (written + n)) announced)
                    (written + n)%N Hle' ltac:(lia)).
      lia.
Qed.

(** Without an announced length every chunk that brings a byte is
    reported. *)
Lemma progress_values_unannounced (lastProgressValue : Z) (written : N)
    (chunks : list N) :
  Forall (fun n => (0 < n)%N) chunks →
  lastProgressValue = (-100 * Z.of_N written)%Z →
  progress_values (-1) lastProgressValue written chunks = quotients (-1) written chunks.
Proof.
  intros Hpos. revert lastProgressValue written.
  induction Hpos as [|n rest Hn Hrest IH]; intros lastProgressValue written Hlast;
    [reflexivity|].
  rewrite progress_values_cons, throttle_1, percentage_unannounced.
  destruct (Z.eqb_spec (-100 * Z.of_N (written + n)) lastProgressValue) as [Heq|_];
    [lia|].
  simpl. f_equal. now apply IH.
Qed.

(** X22: when the server announces a positive length and sends no more
    than it, a download that found its name free calls the progress
    callback with quotients of the bytes written so far by the announced
    length, in the order of the chunks and at most once per chunk; the
    values never decrease and lie between 0 and 1; when the body has
    exactly the announced length and is not empty, the last value is 1;
    when every chunk brings at least one byte, the callback is called at
    most 101 times, however many chunks arrive. *)
Theorem X22_progress_with_announced_length
    (url modelName : string) (env : Env) (s : State) :
  files s !! destPath env modelName = None →
  (0 < t_contentLength (remote env url))%Z →
  (Z.of_N (total (chunks_of (remote env url))) <= t_contentLength (remote env url))%Z →
  ∃ values,
    reported (trace (downloadGGUFModel url modelName env s).2)
    = (reported (trace s) ++ values)%list
    ∧ values `sublist_of` quotients (t_contentLength (remote env url)) 0
                            (chunks_of (remote env url))
    ∧ nondecreasing values = true
    ∧ all_in_unit values = true
    ∧ (chunks_of (remote env url) ≠ [] →
       Z.of_N (total (chunks_of (remote env url))) = t_contentLength (remote env url) →
       ends_at_one values = true)
    ∧ (Forall (fun n => (0 < n)%N) (chunks_of (remote env url)) →
       (length values <= 101)%nat).
Proof.
  intros Hfree Hpos Hle.
  exists (progress_values (t_contentLength (remote env url)) 0 0
            (chunks_of (remote env url))).
  split; [now apply downloadGGUFModel_reported|].
  split; [apply progress_values_sublist|].
  destruct (progress_values_announced (t_contentLength (remote env url)) 0
              (chunks_of (remote env url)) 0 Hpos) as [Hmono Hunit];
    [now rewrite N.add_0_l|].
  split; [exact Hmono|]. split; [exact Hunit|].
  split; [intros Hne Hsum; apply progress_values_complete; auto|].
  intros Hchunks. unfold progress_values. rewrite length_map.
  pose proof (reports_count (t_contentLength (remote env url)) 0 0
                (chunks_of (remote env url)) Hpos Hchunks) as Hcount.
  rewrite N.add_0_l in Hcount. specialize (Hcount Hle).
  rewrite percentage_announced in Hcount by exact Hpos.
  assert (0 <= (200 * Z.of_N 0 + t_contentLength (remote env url))
               / (2 * t_contentLength (remote env url)))%Z as Hzero
    by (apply Z.div_pos; lia).
  specialize (Hcount Hzero). lia.
Qed.

(** X23: when the length the library reports is not positive (0, or -1 for
    a server that announces none) and every chunk brings at least one byte,
    none of the values the progress callback of a download gets lies
    between 0 and 1; the values are quotients of the bytes written so far
    by that length, in the order of the chunks and at most once per chunk,
    and with the length -1 every chunk is reported. *)
Theorem X23_progress_without_positive_length
    (url modelName : string) (env : Env) (s : State) :
  files s !! destPath env modelName = None →
  (t_contentLength (remote env url) <= 0)%Z →
  Forall (fun n => (0 < n)%N) (chunks_of (remote env url)) →
  ∃ values,
    reported (trace (downloadGGUFModel url modelName env s).2)
    = (reported (trace s) ++ values)%list
    ∧ values `sublist_of` quotients (t_contentLength (remote env url)) 0
                            (chunks_of (remote env url))
    ∧ forallb (fun v => negb (JS.in_unit v)) values = true
    ∧ (t_contentLength (remote env url) = (-1)%Z →
       values = quotients (-1) 0 (chunks_of (remote env url))).
Proof.
  intros Hfree Hle Hchunks.
  exists (progress_values (t_contentLength (remote env url)) 0 0
            (chunks_of (remote env url))).
  split; [now apply downloadGGUFModel_reported|].
  split; [apply progress_values_sublist|].
  split; [now apply progress_values_outside_unit|].
  intros ->. now apply progress_values_unannounced.
Qed.

Lemma X22_progress_with_announced_length_witness :
  (files (state_of disk_abn) !! destPath (device answer_small_chunks ∅) "model" = None)
  ∧
  ((0 < t_contentLength (remote (device answer_small_chunks ∅) "https://hub/model.gguf"))%Z)
  ∧
  ((Z.of_N (total (chunks_of (remote (device answer_small_chunks ∅)
                                "https://hub/model.gguf")))
    <= t_contentLength (remote (device answer_small_chunks ∅) "https://hub/model.gguf"))%Z)
  ∧
  (∃ values,
    reported (trace (downloadGGUFModel "https://hub/model.gguf" "model"
                       (device answer_small_chunks ∅) (state_of disk_abn)).2)
    = (reported (trace (state_of disk_abn)) ++ values)%list
    ∧ values `sublist_of`
        quotients (t_contentLength (remote (device answer_small_chunks ∅)
                                      "https://hub/model.gguf")) 0
          (chunks_of (remote (device answer_small_chunks ∅) "https://hub/model.gguf"))
    ∧ nondecreasing values = true
    ∧ all_in_unit values = true
    ∧ (chunks_of (remote (device answer_small_chunks ∅) "https://hub/model.gguf") ≠ [] →
       Z.of_N (total (chunks_of (remote (device answer_small_chunks ∅)
                                   "https://hub/model.gguf")))
       = t_contentLength (remote (device answer_small_chunks ∅) "https://hub/model.gguf") →
       ends_at_one values = true)
    ∧ (Forall (fun n => (0 < n)%N)
         (chunks_of (remote (device answer_small_chunks ∅) "https://hub/model.gguf")) →
       (length values <= 101)%nat)).
Proof.
  assert (files (state_of disk_abn) !! destPath (device answer_small_chunks ∅) "model"
          = None) as H1
    by (vm_compute; reflexivity).
  assert ((0 < t_contentLength (remote (device answer_small_chunks ∅)
                                  "https://hub/model.gguf"))%Z) as H2
    by (vm_compute; reflexivity).
  assert ((Z.of_N (total (chunks_of (remote (device answer_small_chunks ∅)
                                       "https://hub/model.gguf")))
           <= t_contentLength (remote (device answer_small_chunks ∅)
                                 "https://hub/model.gguf"))%Z) as H3
    by (vm_compute; discriminate).
  split; [exact H1|].
  split; [exact H2|].
  split; [exact H3|].
  exact (X22_progress_with_announced_length "https://hub/model.gguf" "model"
           (device answer_small_chunks ∅) (state_of disk_abn) H1 H2 H3).
Defined.

Lemma X23_progress_without_positive_length_witness :
  (files (state_of disk_abn) !! destPath (device answer_unannounced ∅) "model" = None)
  ∧
  ((t_contentLength (remote (device answer_unannounced ∅) "https://hub/model.gguf") <= 0)%Z)
  ∧
  (Forall (fun n => (0 < n)%N)
     (chunks_of (remote (device answer_unannounced ∅) "https://hub/model.gguf")))
  ∧
  (∃ values,
    reported (trace (downloadGGUFModel "https://hub/model.gguf" "model"
                       (device answer_unannounced ∅) (state_of disk_abn)).2)
    = (reported (trace (state_of disk_abn)) ++ values)%list
    ∧ values `sublist_of`
        quotients (t_contentLength (remote (device answer_unannounced ∅)
                                      "https://hub/model.gguf")) 0
          (chunks_of (remote (device answer_unannounced ∅) "https://hub/model.gguf"))
    ∧ forallb (fun v => negb (JS.in_unit v)) values = true
    ∧ (t_contentLength (remote (device answer_unannounced ∅) "https://hub/model.gguf")
       = (-1)%Z →
       values = quotients (-1) 0
                  (chunks_of (remote (device answer_unannounced ∅)
                                "https://hub/model.gguf")))).
Proof.
  assert (files (state_of disk_abn) !! destPath (device answer_unannounced ∅) "model"
          = None) as H1
    by (vm_compute; reflexivity).
  assert ((t_contentLength (remote (device answer_unannounced ∅)
                              "https://hub/model.gguf") <= 0)%Z) as H2
    by (vm_compute; discriminate).
  assert (Forall (fun n => (0 < n)%N)
            (chunks_of (remote (device answer_unannounced ∅) "https://hub/model.gguf")))
    as H3
    by (simpl; repeat constructor).
  split; [exact H1|].
  split; [exact H2|].
  split; [exact H3|].
  exact (X23_progress_without_positive_length "https://hub/model.gguf" "model"
           (device answer_unannounced ∅) (state_of disk_abn) H1 H2 H3).
Defined.
